(** * StorageDevice: fetch / classify / parse / cache pipeline

    A shallow embedding of [src/applib/storage_device.cpp] (GSmartControl).
    The C++ class [StorageDevice] becomes a record, its methods become
    computations in a small state-and-exception monad that threads the
    object ([this]), the outside world behind the command executor, and the
    list of observable events (process invocations, change notifications,
    debug output).  Collaborators whose code lives in other translation
    units (executor, parsers, regular expressions, configuration) are the
    fields of one record, [Collaborators]. *)

From Stdlib Require Import ZArith Ascii String.
From stdpp Require Import base decidable option list strings gmap.

Local Open Scope string_scope.
Local Open Scope Z_scope.

(** ** Enumerations *)

(** [StorageDeviceDetectedType] (storage_device_detected_type.h). *)
Module StorageDeviceDetectedType.
Inductive t :=
  | Unknown            (* not detected yet *)
  | NeedsExplicitType  (* smartctl asked for an explicit -d option *)
  | AtaAny
  | AtaHdd
  | AtaSsd
  | Nvme
  | BasicScsi
  | CdDvd
  | UnsupportedRaid.

#[global] Instance eq_dec : EqDecision t.
Proof. solve_decision. Defined.
End StorageDeviceDetectedType.
Abbreviation DetectedType := StorageDeviceDetectedType.t.

(** [StorageDevice::ParseStatus]. *)
Module ParseStatus.
Inductive t := None | Basic | Full.

#[global] Instance eq_dec : EqDecision t.
Proof. solve_decision. Defined.
End ParseStatus.

(** [StorageDevice::SmartStatus]. *)
Module SmartStatus.
Inductive t := Enabled | Disabled | Unsupported.

#[global] Instance eq_dec : EqDecision t.
Proof. solve_decision. Defined.
End SmartStatus.

(** [StorageDeviceError], the error codes the entry points return. *)
Module StorageDeviceError.
Inductive t :=
  | TestRunning
  | CannotExecuteOnVirtual
  | ExecutionError
  | CommandFailed
  | CommandUnknownError
  | ParseError.

#[global] Instance eq_dec : EqDecision t.
Proof. solve_decision. Defined.
End StorageDeviceError.

(** [SmartctlParserType] and [SmartctlOutputFormat] (smartctl_parser_types.h). *)
Module SmartctlParserType.
Inductive t := Basic | Ata | Nvme.

#[global] Instance eq_dec : EqDecision t.
Proof. solve_decision. Defined.
End SmartctlParserType.

Module SmartctlOutputFormat.
Inductive t := Json | Text.

#[global] Instance eq_dec : EqDecision t.
Proof. solve_decision. Defined.
End SmartctlOutputFormat.

(** ** [hz::Expected] *)

(** [hz::Expected<A, E>]: a value, or [hz::Unexpected(data, message)]. *)
Inductive Expected (E A : Type) :=
| Ok (a : A)
| Unexpected (data : E) (message : string).
Arguments Ok {E A} a.
Arguments Unexpected {E A} data message.

Abbreviation ExpectedVoid E := (Expected E unit).

(** ** Properties and the property repository *)

(** Modelled from the spec: [StorageProperty] and
    [StoragePropertyRepository] (storage_property.h and
    storage_property_repository.h are not part of the sources at hand).
    The specification describes the repository as a "mapping from
    hierarchical string keys to typed values (boolean, integer, string,
    human-readable string)"; a lookup of a missing key yields a property that
    answers [empty()].  [get_value<T>()] follows [std::get] on the value
    variant: it has no result when the variant holds another alternative. *)
Inductive PropertyValue :=
| monostate
| VBool (b : bool)
| VInt64 (z : Z)
| VString (s : string).

Record StorageProperty := {
  value : PropertyValue;
  readable_value : string;
}.

Definition empty_property : StorageProperty :=
  {| value := monostate; readable_value := "" |}.

Definition empty (p : StorageProperty) : bool :=
  match value p with monostate => true | _ => false end.

Definition get_value_bool (p : StorageProperty) : option bool :=
  match value p with VBool b => Some b | _ => None end.

Definition get_value_int64 (p : StorageProperty) : option Z :=
  match value p with VInt64 z => Some z | _ => None end.

Definition get_value_string (p : StorageProperty) : option string :=
  match value p with VString s => Some s | _ => None end.

Abbreviation StoragePropertyRepository := (gmap string StorageProperty).

Definition lookup_property (repo : StoragePropertyRepository) (key : string)
  : StorageProperty :=
  default empty_property (repo !! key).

(** ** The device object *)

Record StorageDevice := {
  is_virtual_ : bool;
  virtual_file_ : string;
  device_ : string;
  type_arg_ : string;
  extra_args_ : list string;
  detected_type_ : DetectedType;
  parse_status_ : ParseStatus.t;
  test_is_active_ : bool;
  basic_output_ : string;
  full_output_ : string;
  property_repository_ : StoragePropertyRepository;
  smart_supported_ : option bool;
  smart_enabled_ : option bool;
  model_name_ : option string;
  family_name_ : option string;
  serial_number_ : option string;
  size_ : option string;
  health_property_ : option StorageProperty;
}.

(** The two constructors of the class. *)
Definition new_device (dev_or_vfile : string) (is_virtual : bool) : StorageDevice :=
  {| is_virtual_ := is_virtual;
     virtual_file_ := if is_virtual then dev_or_vfile else "";
     device_ := if is_virtual then "" else dev_or_vfile;
     type_arg_ := "";
     extra_args_ := [];
     detected_type_ := StorageDeviceDetectedType.Unknown;
     parse_status_ := ParseStatus.None;
     test_is_active_ := false;
     basic_output_ := "";
     full_output_ := "";
     property_repository_ := ∅;
     smart_supported_ := None;
     smart_enabled_ := None;
     model_name_ := None;
     family_name_ := None;
     serial_number_ := None;
     size_ := None;
     health_property_ := None |}.

Definition new_device_with_type (dev type_arg : string) : StorageDevice :=
  {| is_virtual_ := false;
     virtual_file_ := "";
     device_ := dev;
     type_arg_ := type_arg;
     extra_args_ := [];
     detected_type_ := StorageDeviceDetectedType.Unknown;
     parse_status_ := ParseStatus.None;
     test_is_active_ := false;
     basic_output_ := "";
     full_output_ := "";
     property_repository_ := ∅;
     smart_supported_ := None;
     smart_enabled_ := None;
     model_name_ := None;
     family_name_ := None;
     serial_number_ := None;
     size_ := None;
     health_property_ := None |}.

(** Assignment to one member, all others kept. *)
Definition assign_type_arg_ (x : string) (d : StorageDevice) : StorageDevice :=
  {| is_virtual_ := is_virtual_ d;
     virtual_file_ := virtual_file_ d;
     device_ := device_ d;
     type_arg_ := x;
     extra_args_ := extra_args_ d;
     detected_type_ := detected_type_ d;
     parse_status_ := parse_status_ d;
     test_is_active_ := test_is_active_ d;
     basic_output_ := basic_output_ d;
     full_output_ := full_output_ d;
     property_repository_ := property_repository_ d;
     smart_supported_ := smart_supported_ d;
     smart_enabled_ := smart_enabled_ d;
     model_name_ := model_name_ d;
     family_name_ := family_name_ d;
     serial_number_ := serial_number_ d;
     size_ := size_ d;
     health_property_ := health_property_ d |}.

Definition assign_detected_type_ (x : DetectedType) (d : StorageDevice) : StorageDevice :=
  {| is_virtual_ := is_virtual_ d;
     virtual_file_ := virtual_file_ d;
     device_ := device_ d;
     type_arg_ := type_arg_ d;
     extra_args_ := extra_args_ d;
     detected_type_ := x;
     parse_status_ := parse_status_ d;
     test_is_active_ := test_is_active_ d;
     basic_output_ := basic_output_ d;
     full_output_ := full_output_ d;
     property_repository_ := property_repository_ d;
     smart_supported_ := smart_supported_ d;
     smart_enabled_ := smart_enabled_ d;
     model_name_ := model_name_ d;
     family_name_ := family_name_ d;
     serial_number_ := serial_number_ d;
     size_ := size_ d;
     health_property_ := health_property_ d |}.

Definition assign_parse_status_ (x : ParseStatus.t) (d : StorageDevice) : StorageDevice :=
  {| is_virtual_ := is_virtual_ d;
     virtual_file_ := virtual_file_ d;
     device_ := device_ d;
     type_arg_ := type_arg_ d;
     extra_args_ := extra_args_ d;
     detected_type_ := detected_type_ d;
     parse_status_ := x;
     test_is_active_ := test_is_active_ d;
     basic_output_ := basic_output_ d;
     full_output_ := full_output_ d;
     property_repository_ := property_repository_ d;
     smart_supported_ := smart_supported_ d;
     smart_enabled_ := smart_enabled_ d;
     model_name_ := model_name_ d;
     family_name_ := family_name_ d;
     serial_number_ := serial_number_ d;
     size_ := size_ d;
     health_property_ := health_property_ d |}.

Definition assign_test_is_active_ (x : bool) (d : StorageDevice) : StorageDevice :=
  {| is_virtual_ := is_virtual_ d;
     virtual_file_ := virtual_file_ d;
     device_ := device_ d;
     type_arg_ := type_arg_ d;
     extra_args_ := extra_args_ d;
     detected_type_ := detected_type_ d;
     parse_status_ := parse_status_ d;
     test_is_active_ := x;
     basic_output_ := basic_output_ d;
     full_output_ := full_output_ d;
     property_repository_ := property_repository_ d;
     smart_supported_ := smart_supported_ d;
     smart_enabled_ := smart_enabled_ d;
     model_name_ := model_name_ d;
     family_name_ := family_name_ d;
     serial_number_ := serial_number_ d;
     size_ := size_ d;
     health_property_ := health_property_ d |}.

Definition assign_basic_output_ (x : string) (d : StorageDevice) : StorageDevice :=
  {| is_virtual_ := is_virtual_ d;
     virtual_file_ := virtual_file_ d;
     device_ := device_ d;
     type_arg_ := type_arg_ d;
     extra_args_ := extra_args_ d;
     detected_type_ := detected_type_ d;
     parse_status_ := parse_status_ d;
     test_is_active_ := test_is_active_ d;
     basic_output_ := x;
     full_output_ := full_output_ d;
     property_repository_ := property_repository_ d;
     smart_supported_ := smart_supported_ d;
     smart_enabled_ := smart_enabled_ d;
     model_name_ := model_name_ d;
     family_name_ := family_name_ d;
     serial_number_ := serial_number_ d;
     size_ := size_ d;
     health_property_ := health_property_ d |}.

Definition assign_full_output_ (x : string) (d : StorageDevice) : StorageDevice :=
  {| is_virtual_ := is_virtual_ d;
     virtual_file_ := virtual_file_ d;
     device_ := device_ d;
     type_arg_ := type_arg_ d;
     extra_args_ := extra_args_ d;
     detected_type_ := detected_type_ d;
     parse_status_ := parse_status_ d;
     test_is_active_ := test_is_active_ d;
     basic_output_ := basic_output_ d;
     full_output_ := x;
     property_repository_ := property_repository_ d;
     smart_supported_ := smart_supported_ d;
     smart_enabled_ := smart_enabled_ d;
     model_name_ := model_name_ d;
     family_name_ := family_name_ d;
     serial_number_ := serial_number_ d;
     size_ := size_ d;
     health_property_ := health_property_ d |}.

Definition assign_property_repository_ (x : StoragePropertyRepository) (d : StorageDevice) : StorageDevice :=
  {| is_virtual_ := is_virtual_ d;
     virtual_file_ := virtual_file_ d;
     device_ := device_ d;
     type_arg_ := type_arg_ d;
     extra_args_ := extra_args_ d;
     detected_type_ := detected_type_ d;
     parse_status_ := parse_status_ d;
     test_is_active_ := test_is_active_ d;
     basic_output_ := basic_output_ d;
     full_output_ := full_output_ d;
     property_repository_ := x;
     smart_supported_ := smart_supported_ d;
     smart_enabled_ := smart_enabled_ d;
     model_name_ := model_name_ d;
     family_name_ := family_name_ d;
     serial_number_ := serial_number_ d;
     size_ := size_ d;
     health_property_ := health_property_ d |}.

Definition assign_smart_supported_ (x : option bool) (d : StorageDevice) : StorageDevice :=
  {| is_virtual_ := is_virtual_ d;
     virtual_file_ := virtual_file_ d;
     device_ := device_ d;
     type_arg_ := type_arg_ d;
     extra_args_ := extra_args_ d;
     detected_type_ := detected_type_ d;
     parse_status_ := parse_status_ d;
     test_is_active_ := test_is_active_ d;
     basic_output_ := basic_output_ d;
     full_output_ := full_output_ d;
     property_repository_ := property_repository_ d;
     smart_supported_ := x;
     smart_enabled_ := smart_enabled_ d;
     model_name_ := model_name_ d;
     family_name_ := family_name_ d;
     serial_number_ := serial_number_ d;
     size_ := size_ d;
     health_property_ := health_property_ d |}.

Definition assign_smart_enabled_ (x : option bool) (d : StorageDevice) : StorageDevice :=
  {| is_virtual_ := is_virtual_ d;
     virtual_file_ := virtual_file_ d;
     device_ := device_ d;
     type_arg_ := type_arg_ d;
     extra_args_ := extra_args_ d;
     detected_type_ := detected_type_ d;
     parse_status_ := parse_status_ d;
     test_is_active_ := test_is_active_ d;
     basic_output_ := basic_output_ d;
     full_output_ := full_output_ d;
     property_repository_ := property_repository_ d;
     smart_supported_ := smart_supported_ d;
     smart_enabled_ := x;
     model_name_ := model_name_ d;
     family_name_ := family_name_ d;
     serial_number_ := serial_number_ d;
     size_ := size_ d;
     health_property_ := health_property_ d |}.

Definition assign_model_name_ (x : option string) (d : StorageDevice) : StorageDevice :=
  {| is_virtual_ := is_virtual_ d;
     virtual_file_ := virtual_file_ d;
     device_ := device_ d;
     type_arg_ := type_arg_ d;
     extra_args_ := extra_args_ d;
     detected_type_ := detected_type_ d;
     parse_status_ := parse_status_ d;
     test_is_active_ := test_is_active_ d;
     basic_output_ := basic_output_ d;
     full_output_ := full_output_ d;
     property_repository_ := property_repository_ d;
     smart_supported_ := smart_supported_ d;
     smart_enabled_ := smart_enabled_ d;
     model_name_ := x;
     family_name_ := family_name_ d;
     serial_number_ := serial_number_ d;
     size_ := size_ d;
     health_property_ := health_property_ d |}.

Definition assign_family_name_ (x : option string) (d : StorageDevice) : StorageDevice :=
  {| is_virtual_ := is_virtual_ d;
     virtual_file_ := virtual_file_ d;
     device_ := device_ d;
     type_arg_ := type_arg_ d;
     extra_args_ := extra_args_ d;
     detected_type_ := detected_type_ d;
     parse_status_ := parse_status_ d;
     test_is_active_ := test_is_active_ d;
     basic_output_ := basic_output_ d;
     full_output_ := full_output_ d;
     property_repository_ := property_repository_ d;
     smart_supported_ := smart_supported_ d;
     smart_enabled_ := smart_enabled_ d;
     model_name_ := model_name_ d;
     family_name_ := x;
     serial_number_ := serial_number_ d;
     size_ := size_ d;
     health_property_ := health_property_ d |}.

Definition assign_serial_number_ (x : option string) (d : StorageDevice) : StorageDevice :=
  {| is_virtual_ := is_virtual_ d;
     virtual_file_ := virtual_file_ d;
     device_ := device_ d;
     type_arg_ := type_arg_ d;
     extra_args_ := extra_args_ d;
     detected_type_ := detected_type_ d;
     parse_status_ := parse_status_ d;
     test_is_active_ := test_is_active_ d;
     basic_output_ := basic_output_ d;
     full_output_ := full_output_ d;
     property_repository_ := property_repository_ d;
     smart_supported_ := smart_supported_ d;
     smart_enabled_ := smart_enabled_ d;
     model_name_ := model_name_ d;
     family_name_ := family_name_ d;
     serial_number_ := x;
     size_ := size_ d;
     health_property_ := health_property_ d |}.

Definition assign_size_ (x : option string) (d : StorageDevice) : StorageDevice :=
  {| is_virtual_ := is_virtual_ d;
     virtual_file_ := virtual_file_ d;
     device_ := device_ d;
     type_arg_ := type_arg_ d;
     extra_args_ := extra_args_ d;
     detected_type_ := detected_type_ d;
     parse_status_ := parse_status_ d;
     test_is_active_ := test_is_active_ d;
     basic_output_ := basic_output_ d;
     full_output_ := full_output_ d;
     property_repository_ := property_repository_ d;
     smart_supported_ := smart_supported_ d;
     smart_enabled_ := smart_enabled_ d;
     model_name_ := model_name_ d;
     family_name_ := family_name_ d;
     serial_number_ := serial_number_ d;
     size_ := x;
     health_property_ := health_property_ d |}.

Definition assign_health_property_ (x : option StorageProperty) (d : StorageDevice) : StorageDevice :=
  {| is_virtual_ := is_virtual_ d;
     virtual_file_ := virtual_file_ d;
     device_ := device_ d;
     type_arg_ := type_arg_ d;
     extra_args_ := extra_args_ d;
     detected_type_ := detected_type_ d;
     parse_status_ := parse_status_ d;
     test_is_active_ := test_is_active_ d;
     basic_output_ := basic_output_ d;
     full_output_ := full_output_ d;
     property_repository_ := property_repository_ d;
     smart_supported_ := smart_supported_ d;
     smart_enabled_ := smart_enabled_ d;
     model_name_ := model_name_ d;
     family_name_ := family_name_ d;
     serial_number_ := serial_number_ d;
     size_ := size_ d;
     health_property_ := x |}.

(** ** Collaborators

    Code that [storage_device.cpp] calls but that lives elsewhere: the
    command executor ([execute_smartctl], smartctl_executor.h), the regular
    expression matcher (app_regex.h), the parsers (smartctl_parser.h,
    smartctl_version_parser.h), the property post-processor
    (storage_property_descr.h), stored type names
    (storage_device_detected_type.h), per-device configuration
    (storage_settings.h) and the build environment (build_config.h).  They are
    taken as they are called.  [execute_smartctl] receives the output buffer
    by reference, so it maps the old buffer to the new one; whatever state the
    executor and the machine behind it have is the [World]. *)
Record Collaborators := {
  World : Type;
  SmartctlExecutorError : Type;
  SmartctlParserError : Type;
  execute_smartctl :
    World -> string -> list string -> list string -> string ->
    World * ExpectedVoid SmartctlExecutorError * string;
  app_regex_partial_match : string -> string -> bool;
  app_get_device_options : string -> string -> list string;
  is_kernel_linux : bool;
  get_default_format : SmartctlParserType.t -> SmartctlOutputFormat.t;
  get_default_parser_type : DetectedType -> SmartctlParserType.t;
  detect_output_format :
    string -> Expected SmartctlParserError SmartctlOutputFormat.t;
  SmartctlParser_create :
    SmartctlParserType.t -> SmartctlOutputFormat.t ->
    option (string -> Expected SmartctlParserError StoragePropertyRepository);
  process_properties :
    StoragePropertyRepository -> DetectedType -> StoragePropertyRepository;
  get_by_storable_name : string -> DetectedType -> DetectedType;
}.

(** ** Observable events *)

(** The calls to [debug_out_*] and the failed [DBG_ASSERT]s of the file. *)
Inductive DebugMessage :=
| TryingAgainWithScsi
| CannotDetectOutputFormat
| DriveSetToBe
| UnsupportedTypeReported
| DetectedAfterParser
| NoDeviceOptionsOnVirtual
| NoExecuteOnVirtual
| SmartctlNotExecutedCleanly
| AssertionFailed.

Inductive Event :=
| ExecuteSmartctl (device : string) (device_opts command_opts : list string)
| SignalChanged
| DebugOut (m : DebugMessage).

#[global] Instance DebugMessage_eq_dec : EqDecision DebugMessage.
Proof. solve_decision. Defined.

#[global] Instance Event_eq_dec : EqDecision Event.
Proof. solve_decision. Defined.

(** ** String helpers *)

(** [hz::string_to_lower_copy] (hz/string_algo.h), on ASCII letters. *)
Definition to_lower (c : ascii) : ascii :=
  let n := Ascii.N_of_ascii c in
  if ((65 <=? n) && (n <=? 90))%N then Ascii.ascii_of_N (n + 32) else c.

Fixpoint string_to_lower_copy (s : string) : string :=
  match s with
  | EmptyString => EmptyString
  | String c r => String (to_lower c) (string_to_lower_copy r)
  end.

(** The part of [s] after its last ['/'], if it has one
    ([s.substr(s.rfind('/') + 1)]). *)
Fixpoint after_last_slash (s : string) : option string :=
  match s with
  | EmptyString => None
  | String c r =>
      match after_last_slash r with
      | Some t => Some t
      | None => if bool_decide (c = "/"%char) then Some r else None
      end
  end.

(** [std::string::starts_with]. *)
Definition starts_with (s p : string) : bool := String.prefix p s.

(** ** The method monad

    A method runs on a [State]: the object, the world and the events so far.
    It returns normally, or leaves by a C++ exception, or (for the one
    recursive method) exhausts the recursion budget of the model. *)
Inductive Exception := bad_variant_access.

Inductive Outcome (A : Type) :=
| Returned (a : A)
| Thrown (e : Exception)
| OutOfFuel.
Arguments Returned {A} a.
Arguments Thrown {A} e.
Arguments OutOfFuel {A}.

Section Device.
Variable C : Collaborators.

Record State := {
  self : StorageDevice;
  world : World C;
  events : list Event;
}.

Definition M (A : Type) : Type := State -> Outcome A * State.

#[global] Instance M_ret : MRet M := λ A a s, (Returned a, s).

#[global] Instance M_bind : MBind M := λ A B f m s,
  match m s with
  | (Returned a, s') => f a s'
  | (Thrown e, s') => (Thrown e, s')
  | (OutOfFuel, s') => (OutOfFuel, s')
  end.

Definition gets {A} (f : StorageDevice -> A) : M A :=
  λ s, (Returned (f (self s)), s).

Definition modify (f : StorageDevice -> StorageDevice) : M unit :=
  λ s, (Returned tt, {| self := f (self s); world := world s; events := events s |}).

Definition emit (e : Event) : M unit :=
  λ s, (Returned tt, {| self := self s; world := world s; events := (events s ++ [e])%list |}).

Definition throw {A} (e : Exception) : M A := λ s, (Thrown e, s).

Definition out_of_fuel {A} : M A := λ s, (OutOfFuel, s).

Definition debug_out (m : DebugMessage) : M unit := emit (DebugOut m).

(** [signal_changed().emit(this)]. *)
Definition signal_changed_emit : M unit := emit SignalChanged.

(** [prop.get_value<T>()] on the result of one of the typed readers. *)
Definition get_value {A} (o : option A) : M A :=
  match o with
  | Some a => mret a
  | None => throw bad_variant_access
  end.

(** The call of the free function [execute_smartctl]: one external process
    invocation. *)
Definition call_execute_smartctl (device : string)
    (device_opts command_opts : list string) (smartctl_output : string)
  : M (ExpectedVoid (SmartctlExecutorError C) * string) :=
  λ s,
    let '(w, status, output) :=
      execute_smartctl C (world s) device device_opts command_opts smartctl_output in
    (Returned (status, output),
     {| self := self s; world := w;
        events := (events s ++ [ExecuteSmartctl device device_opts command_opts])%list |}).

(** *** Accessors *)

Definition get_detected_type : M DetectedType := gets detected_type_.
Definition set_detected_type (t : DetectedType) : M unit := modify (assign_detected_type_ t).
Definition get_type_argument : M string := gets type_arg_.
Definition set_type_argument (arg : string) : M unit := modify (assign_type_arg_ arg).
Definition get_extra_arguments : M (list string) := gets extra_args_.
Definition get_device : M string := gets device_.
Definition get_is_virtual : M bool := gets is_virtual_.
Definition get_parse_status : M ParseStatus.t := gets parse_status_.
Definition set_parse_status (v : ParseStatus.t) : M unit := modify (assign_parse_status_ v).
Definition set_property_repository (r : StoragePropertyRepository) : M unit :=
  modify (assign_property_repository_ r).
Definition get_basic_output : M string := gets basic_output_.
Definition set_info_output (s : string) : M unit := modify (assign_basic_output_ s).
Definition set_full_output (s : string) : M unit := modify (assign_full_output_ s).
Definition get_full_output : M string := gets full_output_.
Definition get_test_is_active : M bool := gets test_is_active_.

Definition get_device_base_of (d : StorageDevice) : string :=
  if is_virtual_ d then ""
  else default (device_ d) (after_last_slash (device_ d)).

Definition get_device_base : M string := gets get_device_base_of.

Definition set_test_is_active (b : bool) : M unit :=
  old ← gets test_is_active_;
  let changed := negb (bool_decide (old = b)) in
  modify (assign_test_is_active_ b);;
  if changed then signal_changed_emit else mret tt.

(** *** [clear_outputs], [clear_parse_results] *)

Definition clear_outputs : M unit :=
  modify (assign_basic_output_ "");;
  modify (assign_full_output_ "").

Definition clear_parse_results : M unit :=
  modify (assign_parse_status_ ParseStatus.None);;
  modify (assign_property_repository_ ∅);;
  modify (assign_smart_supported_ None);;
  modify (assign_smart_enabled_ None);;
  modify (assign_model_name_ None);;
  modify (assign_family_name_ None);;
  modify (assign_size_ None);;
  modify (assign_health_property_ None).

(** *** [get_smart_status], [get_smart_switch_supported] *)

Definition get_smart_status (d : StorageDevice) : SmartStatus.t :=
  match smart_enabled_ d with
  | Some true => SmartStatus.Enabled
  | Some false =>
      match smart_supported_ d with
      | Some true => SmartStatus.Disabled
      | Some false => SmartStatus.Unsupported
      | None => SmartStatus.Disabled
      end
  | None =>
      match smart_supported_ d with
      | Some true => SmartStatus.Disabled
      | Some false => SmartStatus.Unsupported
      | None => SmartStatus.Unsupported
      end
  end.

Definition get_smart_switch_supported (d : StorageDevice) : bool :=
  let supported := negb (bool_decide (get_smart_status d = SmartStatus.Unsupported)) in
  let is_nvme := bool_decide (detected_type_ d = StorageDeviceDetectedType.Nvme) in
  negb (is_virtual_ d) && supported && negb is_nvme.

Definition get_device_size_str (d : StorageDevice) : string := default "" (size_ d).
Definition get_model_name (d : StorageDevice) : string := default "" (model_name_ d).
Definition get_family_name (d : StorageDevice) : string := default "" (family_name_ d).
Definition get_serial_number (d : StorageDevice) : string := default "" (serial_number_ d).

(** *** [read_common_properties] *)

Definition lookup (key : string) : M StorageProperty :=
  repo ← gets property_repository_;
  mret (lookup_property repo key).

Definition read_common_properties : M unit :=
  (prop ← lookup "smart_support/available";
   if negb (empty prop) then
     b ← get_value (get_value_bool prop);
     modify (assign_smart_supported_ (Some b))
   else mret tt);;
  (prop ← lookup "smart_support/enabled";
   if negb (empty prop) then
     b ← get_value (get_value_bool prop);
     modify (assign_smart_enabled_ (Some b))
   else mret tt);;
  (prop ← lookup "model_name";
   if negb (empty prop) then
     v ← get_value (get_value_string prop);
     modify (assign_model_name_ (Some v))
   else
     prop ← lookup "scsi_model_name";  (* USB flash *)
     if negb (empty prop) then
       v ← get_value (get_value_string prop);
       modify (assign_model_name_ (Some v))
     else mret tt);;
  (prop ← lookup "model_family";
   if negb (empty prop) then
     v ← get_value (get_value_string prop);
     modify (assign_family_name_ (Some v))
   else
     prop ← lookup "scsi_vendor";  (* USB flash *)
     if negb (empty prop) then
       v ← get_value (get_value_string prop);
       modify (assign_family_name_ (Some v))
     else mret tt);;
  (prop ← lookup "serial_number";
   if negb (empty prop) then
     v ← get_value (get_value_string prop);
     modify (assign_serial_number_ (Some v))
   else mret tt);;
  (prop ← lookup "user_capacity/bytes/_short";
   if negb (empty prop) then
     modify (assign_size_ (Some (readable_value prop)))
   else
     prop2 ← lookup "user_capacity/bytes";
     (* the source tests [prop] here, not [prop2] *)
     if negb (empty prop) then
       modify (assign_size_ (Some (readable_value prop2)))
     else mret tt).

(** *** [detect_drive_type_from_properties] *)

Definition detect_drive_type_from_properties
    (property_repo : StoragePropertyRepository) : M unit :=
  (* This is set by Text parser *)
  (let drive_type_prop :=
     lookup_property property_repo "_text_only/custom/parser_detected_drive_type" in
   if negb (empty drive_type_prop) then
     drive_type_storable_str ← get_value (get_value_string drive_type_prop);
     set_detected_type
       (get_by_storable_name C drive_type_storable_str StorageDeviceDetectedType.BasicScsi);;
     detected ← get_detected_type;
     if bool_decide (detected = StorageDeviceDetectedType.AtaAny) then
       (* Find out if it's SSD or HDD *)
       let rpm_prop := lookup_property property_repo "rotation_rate" in
       if empty rpm_prop then set_detected_type StorageDeviceDetectedType.AtaSsd
       else
         rpm ← get_value (get_value_int64 rpm_prop);
         if bool_decide (rpm = 0)
         then set_detected_type StorageDeviceDetectedType.AtaSsd
         else set_detected_type StorageDeviceDetectedType.AtaHdd
     else mret tt
   else mret tt);;
  (* This is set by JSON parser *)
  (let device_type_prop := lookup_property property_repo "device/type" in
   if negb (empty device_type_prop) then
     smartctl_type ← get_value (get_value_string device_type_prop);
     lowercase_protocol ←
       (let device_protocol_prop := lookup_property property_repo "device/protocol" in
        if negb (empty device_protocol_prop) then
          p ← get_value (get_value_string device_protocol_prop);
          mret (string_to_lower_copy p)
        else mret "");
     if bool_decide (smartctl_type = "scsi") then
       device_base ← get_device_base;
       if is_kernel_linux C && starts_with device_base "sr"
       then set_detected_type StorageDeviceDetectedType.CdDvd
       else set_detected_type StorageDeviceDetectedType.BasicScsi
     else if bool_decide (smartctl_type = "sat") || bool_decide (lowercase_protocol = "ata") then
       (* Find out if it's SSD or HDD *)
       let rpm_prop := lookup_property property_repo "rotation_rate" in
       if empty rpm_prop then set_detected_type StorageDeviceDetectedType.AtaSsd
       else
         rpm ← get_value (get_value_int64 rpm_prop);
         if bool_decide (rpm = 0)
         then set_detected_type StorageDeviceDetectedType.AtaSsd
         else set_detected_type StorageDeviceDetectedType.AtaHdd
     else if bool_decide (smartctl_type = "nvme") || bool_decide (lowercase_protocol = "nvme") then
       set_detected_type StorageDeviceDetectedType.Nvme
     else
       debug_out UnsupportedTypeReported
   else mret tt);;
  (detected ← get_detected_type;
   if bool_decide (detected = StorageDeviceDetectedType.Unknown)
   then set_detected_type StorageDeviceDetectedType.BasicScsi
   else mret tt);;
  debug_out DetectedAfterParser.

(** *** [get_device_options], [execute_device_smartctl] *)

Definition get_device_options : M (list string) :=
  is_virtual ← get_is_virtual;
  if (is_virtual : bool) then
    debug_out NoDeviceOptionsOnVirtual;;
    mret []
  else
    (* lowest priority - the detected type *)
    type_argument ← get_type_argument;
    let args := if bool_decide (type_argument = "") then [] else ["-d"; type_argument] in
    (* extra args, as specified manually in CLI or when adding the drive *)
    extra_args ← get_extra_arguments;
    let args := (args ++ extra_args)%list in
    (* config options, as specified in preferences. *)
    device ← get_device;
    let config_options := app_get_device_options C device type_argument in
    mret (args ++ config_options)%list.

(** [smartctl_output] is a reference parameter: the method returns its new
    contents next to the status.  Callers that do not pass [check_type] get
    [false]. *)
Definition execute_device_smartctl (command_options : list string)
    (smartctl_output : string) (check_type : bool)
  : M (ExpectedVoid StorageDeviceError.t * string) :=
  is_virtual ← get_is_virtual;
  if (is_virtual : bool) then
    debug_out NoExecuteOnVirtual;;
    mret (Unexpected StorageDeviceError.CannotExecuteOnVirtual
            "Cannot execute smartctl on a virtual device.", smartctl_output)
  else
    device ← get_device;
    device_options ← get_device_options;
    '(smartctl_status, smartctl_output) ←
      call_execute_smartctl device device_options command_options smartctl_output;
    match smartctl_status with
    | Unexpected _ message =>
        debug_out SmartctlNotExecutedCleanly;;
        detected ← get_detected_type;
        (if check_type
            && bool_decide (detected = StorageDeviceDetectedType.Unknown)
            && app_regex_partial_match C
                 "/specify device type with the -d option/mi" smartctl_output
         then set_detected_type StorageDeviceDetectedType.NeedsExplicitType
         else mret tt);;
        mret (Unexpected StorageDeviceError.ExecutionError message, smartctl_output)
    | Ok _ => mret (Ok tt, smartctl_output)
    end.

(** *** [parse_basic_data] *)

Definition parse_basic_data : M (ExpectedVoid StorageDeviceError.t) :=
  (* Clear everything fetched before, except outputs and type *)
  clear_parse_results;;
  (* Detect the output format. *)
  basic_output ← get_basic_output;
  output_format ←
    match detect_output_format C basic_output with
    | Ok f => mret f
    | Unexpected _ _ =>
        debug_out CannotDetectOutputFormat;;
        mret SmartctlOutputFormat.Text
    end;
  (* Parse using Basic parser. This supports all drive types. *)
  match SmartctlParser_create C SmartctlParserType.Basic output_format with
  | None =>
      debug_out AssertionFailed;;
      mret (Unexpected StorageDeviceError.ParseError "Cannot create parser")
  | Some basic_parser =>
      basic_output ← get_basic_output;
      match basic_parser basic_output with
      | Unexpected _ message =>
          mret (Unexpected StorageDeviceError.ParseError
                  ("Cannot parse smartctl output: " +:+ message))
      | Ok basic_property_repo =>
          (* Make detected type more exact. *)
          detect_drive_type_from_properties basic_property_repo;;
          (* Add property descriptions and set to the drive. *)
          detected ← get_detected_type;
          set_property_repository (process_properties C basic_property_repo detected);;
          debug_out DriveSetToBe;;
          read_common_properties;;  (* sets model_name_, etc. *)
          (* A model field (and its aliases) is a good indication whether
             there was any data or not *)
          model_name ← gets model_name_;
          set_parse_status
            (if model_name is Some _ then ParseStatus.Basic else ParseStatus.None);;
          signal_changed_emit;;  (* notify listeners *)
          mret (Ok tt)
      end
  end.

(** *** [fetch_basic_data_and_parse]

    The method calls itself ("try again with scsi"); [fuel] bounds the depth
    of that recursion. *)
Fixpoint fetch_basic_data_and_parse (fuel : nat) : M (ExpectedVoid StorageDeviceError.t) :=
  match fuel with
  | O => out_of_fuel
  | S fuel =>
      test_is_active ← get_test_is_active;
      if (test_is_active : bool) then
        mret (Unexpected StorageDeviceError.TestRunning
                "A test is currently being performed on this drive.")
      else
        (* Clear everything fetched before, including outputs *)
        clear_parse_results;;
        clear_outputs;;
        let default_parser_type := get_default_format C SmartctlParserType.Basic in
        let command_options :=
          (["--info"; "--health"; "--capabilities"]
           ++ (if bool_decide (default_parser_type = SmartctlOutputFormat.Json)
               then ["--json=o"] else []))%list in
        (* the output goes to this->basic_output_ *)
        basic_output ← get_basic_output;
        '(execute_status, basic_output) ←
          execute_device_smartctl command_options basic_output true;
        set_info_output basic_output;;
        detected ← get_detected_type;
        type_argument ← get_type_argument;
        if (match execute_status with
            | Ok _ => true
            | Unexpected data _ => bool_decide (data = StorageDeviceError.ExecutionError)
            end)
           && bool_decide (detected = StorageDeviceDetectedType.NeedsExplicitType)
           && bool_decide (type_argument = "")
        then
          debug_out TryingAgainWithScsi;;
          set_type_argument "scsi";;
          set_detected_type StorageDeviceDetectedType.BasicScsi;;
          fetch_basic_data_and_parse fuel  (* try again with scsi *)
        else
          (* Set some properties too *)
          parse_basic_data
  end.

(** *** [parse_full_data] *)

Definition parse_full_data (parser_type : SmartctlParserType.t)
    (format : SmartctlOutputFormat.t) : M (ExpectedVoid StorageDeviceError.t) :=
  (* Clear everything fetched before, except outputs and disk type *)
  clear_parse_results;;
  match SmartctlParser_create C parser_type format with
  | None =>
      debug_out AssertionFailed;;
      mret (Unexpected StorageDeviceError.ParseError "Cannot create parser")
  | Some parser =>
      full_output ← get_full_output;
      match parser full_output with
      | Ok property_repo =>
          set_parse_status
            (if bool_decide (parser_type = SmartctlParserType.Basic)
             then ParseStatus.Basic else ParseStatus.Full);;
          (* Detect drive type based on parsed properties *)
          detect_drive_type_from_properties property_repo;;
          (* Set the full properties, overwriting old data. *)
          detected ← get_detected_type;
          set_property_repository (process_properties C property_repo detected);;
          (* Read common properties from the repository. *)
          read_common_properties;;
          signal_changed_emit;;  (* notify listeners *)
          mret (Ok tt)
      | Unexpected _ message =>
          mret (Unexpected StorageDeviceError.ParseError
                  ("Cannot parse smartctl output: " +:+ message))
      end
  end.

(** *** [fetch_full_data_and_parse] *)

Definition fetch_full_data_and_parse : M (ExpectedVoid StorageDeviceError.t) :=
  test_is_active ← get_test_is_active;
  if (test_is_active : bool) then
    mret (Unexpected StorageDeviceError.TestRunning
            "A test is currently being performed on this drive.")
  else
    (* Drive type must be already set at this point *)
    detected ← get_detected_type;
    (if bool_decide (detected = StorageDeviceDetectedType.Unknown)
     then debug_out AssertionFailed else mret tt);;
    (* Clear everything fetched before, including outputs *)
    clear_parse_results;;
    clear_outputs;;
    (* Type was detected by Basic parser *)
    detected ← get_detected_type;
    command_options ←
      match detected with
      | StorageDeviceDetectedType.Unknown
      | StorageDeviceDetectedType.NeedsExplicitType =>
          debug_out AssertionFailed;;
          mret []
      | StorageDeviceDetectedType.AtaAny
      | StorageDeviceDetectedType.AtaHdd
      | StorageDeviceDetectedType.AtaSsd =>
          mret ["--health"; "--info"; "--get=all"; "--capabilities";
                "--attributes"; "--format=brief"; "--log=xerror,50,error";
                "--log=xselftest,50,selftest"; "--log=selective";
                "--log=directory"; "--log=scttemp"; "--log=scterc";
                "--log=devstat"; "--log=sataphy"]
      | StorageDeviceDetectedType.Nvme =>
          mret ["--xall"]
      | StorageDeviceDetectedType.BasicScsi
      | StorageDeviceDetectedType.CdDvd
      | StorageDeviceDetectedType.UnsupportedRaid =>
          mret ["--xall"]
      end;
    detected ← get_detected_type;
    let parser_type := get_default_parser_type C detected in
    let parser_format := get_default_format C parser_type in
    let command_options :=
      (command_options
       ++ (if bool_decide (parser_format = SmartctlOutputFormat.Json)
           then ["--json=o"] else []))%list in
    '(execute_status, output) ← execute_device_smartctl command_options "" false;
    match execute_status with
    | Unexpected data message => mret (Unexpected data message)
    | Ok _ =>
        set_full_output output;;
        parse_full_data parser_type parser_format
    end.

(** *** [parse_any_data_for_virtual] *)

Definition parse_any_data_for_virtual : M (ExpectedVoid StorageDeviceError.t) :=
  (* Clear everything fetched before, except outputs and disk type *)
  clear_parse_results;;
  full_output ← get_full_output;
  match detect_output_format C full_output with
  | Unexpected _ message => mret (Unexpected StorageDeviceError.ParseError message)
  | Ok parser_format =>
      match SmartctlParser_create C SmartctlParserType.Basic parser_format with
      | None => mret (Unexpected StorageDeviceError.ParseError "Cannot create parser")
      | Some basic_parser =>
          full_output ← get_full_output;
          match basic_parser full_output with
          | Unexpected _ message =>
              mret (Unexpected StorageDeviceError.ParseError
                      ("Cannot parse smartctl output: " +:+ message))
          | Ok basic_property_repo =>
              (* Make detected type more exact. *)
              detect_drive_type_from_properties basic_property_repo;;
              (* Set properties from the basic parser. *)
              detected ← get_detected_type;
              set_property_repository
                (process_properties C basic_property_repo detected);;
              (* Read common properties from the repository. *)
              read_common_properties;;
              (* Try to parse with a specialized parser based on drive type *)
              detected ← get_detected_type;
              let parser_type := get_default_parser_type C detected in
              let finish : M (ExpectedVoid StorageDeviceError.t) :=
                parse_status ← get_parse_status;
                (if negb (bool_decide (parse_status = ParseStatus.Full)) then
                   (* Only basic data available *)
                   set_parse_status ParseStatus.Basic;;
                   detected ← get_detected_type;
                   set_property_repository
                     (process_properties C basic_property_repo detected)
                 else mret tt);;
                signal_changed_emit;;  (* notify listeners *)
                mret (Ok tt) in
              if negb (bool_decide (parser_type = SmartctlParserType.Basic)) then
                (* Try specialized parser *)
                match SmartctlParser_create C parser_type parser_format with
                | None =>
                    debug_out AssertionFailed;;
                    mret (Unexpected StorageDeviceError.ParseError "Cannot create parser.")
                | Some parser =>
                    full_output ← get_full_output;
                    match parser full_output with
                    | Ok property_repo =>
                        set_parse_status ParseStatus.Full;;
                        (* set the full properties. *)
                        detected ← get_detected_type;
                        set_property_repository
                          (process_properties C property_repo detected);;
                        finish
                    | Unexpected _ _ => finish
                    end
                end
              else finish
          end
      end
  end.

(** *** [set_smart_enabled] *)

Definition set_smart_enabled (b : bool) : M (ExpectedVoid StorageDeviceError.t) :=
  test_is_active ← get_test_is_active;
  if (test_is_active : bool) then
    mret (Unexpected StorageDeviceError.TestRunning
            "A test is currently being performed on this drive.")
  else
    let on_command := ["--smart=on"; "--saveauto=on"] in
    let off_command := ["--smart=off"] in
    '(status, output) ←
      execute_device_smartctl (if b then on_command else off_command) "" false;
    match status with
    | Unexpected data message => mret (Unexpected data message)
    | Ok _ =>
        (* search at line start, because they are sometimes present in other
           sentences too. *)
        if app_regex_partial_match C "/^SMART Enabled/mi" output
           || app_regex_partial_match C "/^SMART Disabled/mi" output
        then mret (Ok tt)  (* success *)
        else if app_regex_partial_match C "/^A mandatory SMART command failed/mi" output
        then mret (Unexpected StorageDeviceError.CommandFailed
                     "Mandatory SMART command failed.")
        else mret (Unexpected StorageDeviceError.CommandUnknownError
                     "Unknown error occurred.")
    end.

End Device.

Arguments self {C} s.
Arguments world {C} s.
Arguments events {C} s.

(** ** The earlier revision

    [gsmartcontrol/src/applib/storage_device.cpp] is an earlier revision of
    the same file.  Its [get_smart_status] reads the two members through
    [OptionalValue] ([defined()], [value()]) and returns a [status_t]. *)
Module Legacy.
Inductive status_t :=
  | status_enabled
  | status_disabled
  | status_unsupported
  | status_unknown.

Definition get_smart_status (smart_enabled_ smart_supported_ : option bool) : status_t :=
  match smart_enabled_ with
  | Some true => status_enabled
  | Some false =>
      match smart_supported_ with
      | Some true => status_disabled
      | Some false => status_unsupported
      | None => status_disabled
      end
  | None =>
      match smart_supported_ with
      | Some true => status_disabled
      | Some false => status_unsupported
      | None => status_unsupported
      end
  end.

Definition of_smart_status (status : SmartStatus.t) : status_t :=
  match status with
  | SmartStatus.Enabled => status_enabled
  | SmartStatus.Disabled => status_disabled
  | SmartStatus.Unsupported => status_unsupported
  end.
End Legacy.

(** ** Example collaborators

    Concrete stand-ins for the collaborators, used to run the methods on
    explicit inputs. *)

(** A matcher for the two shapes of pattern the file uses, ["/text/mi"] and
    ["/^text/mi"]: case-insensitive, [^] matching at the start of any line. *)
Fixpoint is_prefix_ci (p s : string) : bool :=
  match p, s with
  | EmptyString, _ => true
  | String a p, String b s => bool_decide (to_lower a = to_lower b) && is_prefix_ci p s
  | String _ _, EmptyString => false
  end.

Fixpoint find_ci (text : string) (anchored at_line_start : bool) (s : string) : bool :=
  ((negb anchored || at_line_start) && is_prefix_ci text s)
  || match s with
     | EmptyString => false
     | String c r => find_ci text anchored (bool_decide (c = "010"%char)) r
     end.

Definition simple_regex_partial_match (pattern subject : string) : bool :=
  let body := String.substring 1 (String.length pattern - 4) pattern in
  match body with
  | String "^"%char text => find_ci text true true subject
  | _ => find_ci body false true subject
  end.

(** Stored names of detected types, as the text parser writes them. *)
Definition example_get_by_storable_name (name : string) (default_value : DetectedType)
  : DetectedType :=
  if bool_decide (name = "ata_any") then StorageDeviceDetectedType.AtaAny
  else if bool_decide (name = "nvme") then StorageDeviceDetectedType.Nvme
  else if bool_decide (name = "cd_dvd") then StorageDeviceDetectedType.CdDvd
  else default_value.

Definition example_get_default_parser_type (t : DetectedType) : SmartctlParserType.t :=
  match t with
  | StorageDeviceDetectedType.AtaAny
  | StorageDeviceDetectedType.AtaHdd
  | StorageDeviceDetectedType.AtaSsd => SmartctlParserType.Ata
  | StorageDeviceDetectedType.Nvme => SmartctlParserType.Nvme
  | _ => SmartctlParserType.Basic
  end.

(** The world counts the processes started so far. *)
Definition example_collaborators
    (execute : nat -> list string -> ExpectedVoid unit * string)
    (parse : SmartctlParserType.t -> string -> Expected unit StoragePropertyRepository)
  : Collaborators :=
  {| World := nat;
     SmartctlExecutorError := unit;
     SmartctlParserError := unit;
     execute_smartctl := λ w _ _ command_opts _,
       (S w, fst (execute w command_opts), snd (execute w command_opts));
     app_regex_partial_match := simple_regex_partial_match;
     app_get_device_options := λ _ _, [];
     is_kernel_linux := true;
     get_default_format := λ _, SmartctlOutputFormat.Text;
     get_default_parser_type := example_get_default_parser_type;
     detect_output_format := λ output,
       if starts_with output "{" then Ok SmartctlOutputFormat.Json
       else Ok SmartctlOutputFormat.Text;
     SmartctlParser_create := λ type _, Some (parse type);
     process_properties := λ repo _, repo;
     get_by_storable_name := example_get_by_storable_name |}.

Definition start (C : Collaborators) (w : World C) (d : StorageDevice) : State C :=
  {| self := d; world := w; events := [] |}.

(** smartctl refusing to guess the device type, whatever it is asked. *)
Definition needs_type_output : string :=
  "/dev/sdb: Unknown USB bridge [0x1234:0x5678]
Please specify device type with the -d option.".

Definition execute_needs_type (w : nat) (command_opts : list string)
  : ExpectedVoid unit * string :=
  (Unexpected tt "Smartctl exited with an error", needs_type_output).

Definition parse_nothing (type : SmartctlParserType.t) (output : string)
  : Expected unit StoragePropertyRepository :=
  Unexpected tt "No version information found".

Definition needs_type_collaborators : Collaborators :=
  example_collaborators execute_needs_type parse_nothing.

(** smartctl confirming that SMART was switched on. *)
Definition smart_enabled_output : string :=
  "=== START OF ENABLE/DISABLE COMMANDS SECTION ===
SMART Enabled.
SMART Attribute Autosave Enabled.".

Definition execute_smart_on (w : nat) (command_opts : list string)
  : ExpectedVoid unit * string :=
  (Ok (), smart_enabled_output).

Definition smart_on_collaborators : Collaborators :=
  example_collaborators execute_smart_on parse_nothing.

(** Fact repositories a parser could hand over. *)
Definition fact (v : PropertyValue) : StorageProperty :=
  {| value := v; readable_value := "" |}.

(** An ATA disk seen by the text parser, spinning at 7200 rpm. *)
Definition ata_hdd_text_facts : StoragePropertyRepository :=
  <["_text_only/custom/parser_detected_drive_type" := fact (VString "ata_any")]>
  (<["rotation_rate" := fact (VInt64 7200)]>
  (<["model_name" := fact (VString "WDC WD5000AAKS-00V1A0")]>
  (<["serial_number" := fact (VString "WD-WCAWF1234567")]> ∅))).

(** A SATA SSD seen by the JSON parser: no rotation rate. *)
Definition sat_ssd_json_facts : StoragePropertyRepository :=
  <["device/type" := fact (VString "sat")]>
  (<["device/protocol" := fact (VString "ATA")]>
  (<["model_name" := fact (VString "Samsung SSD 860 EVO 500GB")]> ∅)).

(** Facts of both dialects at once: the text parser's drive type and a
    structured device type. *)
Definition mixed_dialect_facts : StoragePropertyRepository :=
  <["_text_only/custom/parser_detected_drive_type" := fact (VString "ata_any")]>
  (<["rotation_rate" := fact (VInt64 7200)]>
  (<["device/type" := fact (VString "nvme")]> ∅)).

(** A device that reports no model: only that SMART is unavailable. *)
Definition nameless_facts : StoragePropertyRepository :=
  <["smart_support/available" := fact (VBool false)]> ∅.

(** A USB flash drive: the SCSI aliases of model and vendor only. *)
Definition usb_flash_facts : StoragePropertyRepository :=
  <["scsi_model_name" := fact (VString "DataTraveler 3.0")]>
  (<["scsi_vendor" := fact (VString "Kingston")]> ∅).

(** A capacity reported under the plain key only, not under its [_short]
    variant. *)
Definition capacity_fact : StorageProperty :=
  {| value := VInt64 500107862016;
     readable_value := "500.11 GB [465.76 GiB, 500107862016 bytes]" |}.

Definition capacity_only_facts : StoragePropertyRepository :=
  <["user_capacity/bytes" := capacity_fact]> ∅.

Definition parse_to (repo : StoragePropertyRepository)
    (type : SmartctlParserType.t) (output : string)
  : Expected unit StoragePropertyRepository :=
  Ok repo.

Definition execute_ok (output : string) (w : nat) (command_opts : list string)
  : ExpectedVoid unit * string :=
  (Ok (), output).

(** A parser that accepts only output that begins like smartctl's. *)
Definition parse_if_smartctl (repo : StoragePropertyRepository)
    (type : SmartctlParserType.t) (output : string)
  : Expected unit StoragePropertyRepository :=
  if starts_with output "smartctl" then Ok repo
  else Unexpected () "No version information found".

Definition picky_collaborators : Collaborators :=
  example_collaborators execute_needs_type (parse_if_smartctl ata_hdd_text_facts).

Definition smartctl_banner : string :=
  "smartctl 7.2 2020-12-30 r5155 [x86_64-linux-5.10.0] (local build)".

(** A healthy ATA disk, and a device that reports no model. *)
Definition ata_hdd_collaborators : Collaborators :=
  example_collaborators (execute_ok smartctl_banner) (parse_to ata_hdd_text_facts).

Definition nameless_collaborators : Collaborators :=
  example_collaborators (execute_ok smartctl_banner) (parse_to nameless_facts).

(** smartctl asks for a type although one was given, and the parser makes
    do with what it gets. *)
Definition stubborn_collaborators : Collaborators :=
  example_collaborators execute_needs_type (parse_to nameless_facts).

(** smartctl refusing the toggle, and smartctl printing something else. *)
Definition mandatory_failed_output : string :=
  "A mandatory SMART command failed: exiting. To continue, add one or more '-T permissive' options.".

Definition mandatory_failed_collaborators : Collaborators :=
  example_collaborators (execute_ok mandatory_failed_output) parse_nothing.

Definition unrelated_output : string :=
  "=== START OF ENABLE/DISABLE COMMANDS SECTION ===
Warning: SMART Enabled status could not be read back.".

Definition unrelated_collaborators : Collaborators :=
  example_collaborators (execute_ok unrelated_output) parse_nothing.

(** ** Vocabulary of the statements *)

(** What [clear_parse_results] leaves of a device. *)
Definition cleared (d : StorageDevice) : StorageDevice :=
  {| is_virtual_ := is_virtual_ d;
     virtual_file_ := virtual_file_ d;
     device_ := device_ d;
     type_arg_ := type_arg_ d;
     extra_args_ := extra_args_ d;
     detected_type_ := detected_type_ d;
     parse_status_ := ParseStatus.None;
     test_is_active_ := test_is_active_ d;
     basic_output_ := basic_output_ d;
     full_output_ := full_output_ d;
     property_repository_ := ∅;
     smart_supported_ := None;
     smart_enabled_ := None;
     model_name_ := None;
     family_name_ := None;
     serial_number_ := serial_number_ d;
     size_ := None;
     health_property_ := None |}.

Definition with_self {C} (d : StorageDevice) (s : State C) : State C :=
  {| self := d; world := world s; events := events s |}.

(** Counting events of one kind. *)
Fixpoint count_events (p : Event -> bool) (evs : list Event) : nat :=
  match evs with
  | [] => 0%nat
  | e :: evs => ((if p e then 1 else 0) + count_events p evs)%nat
  end.

Definition is_retry (e : Event) : bool := bool_decide (e = DebugOut TryingAgainWithScsi).

Definition is_execution (e : Event) : bool :=
  match e with ExecuteSmartctl _ _ _ => true | _ => false end.

Definition is_notification (e : Event) : bool := bool_decide (e = SignalChanged).

(** The ambiguous-type retries, the external process invocations and the
    change notifications recorded so far. *)
Definition retries {C} (s : State C) : nat := count_events is_retry (events s).
Definition executions {C} (s : State C) : nat := count_events is_execution (events s).
Definition notifications {C} (s : State C) : nat := count_events is_notification (events s).

(** The device-targeting arguments [get_device_options] computes for a real
    device. *)
Definition device_options (C : Collaborators) (d : StorageDevice) : list string :=
  ((if bool_decide (type_arg_ d = "") then [] else ["-d"; type_arg_ d])
   ++ extra_args_ d
   ++ app_get_device_options C (device_ d) (type_arg_ d))%list.

(** The executor answers every request with a failure whose output carries
    the "specify device type" diagnostic. *)
Definition always_needs_type (C : Collaborators) : Prop :=
  ∀ w device device_opts command_opts buffer,
    ∃ w' data message output,
      execute_smartctl C w device device_opts command_opts buffer
      = (w', Unexpected data message, output)
      ∧ app_regex_partial_match C "/specify device type with the -d option/mi" output = true.

(** A fact is absent or holds the alternative the code reads from it. *)
Definition absent_or_string (p : StorageProperty) : bool :=
  match value p with monostate | VString _ => true | _ => false end.

Definition absent_or_int64 (p : StorageProperty) : bool :=
  match value p with monostate | VInt64 _ => true | _ => false end.

(** The facts the type resolver reads have the types it reads them at. *)
Definition resolver_facts_typed (repo : StoragePropertyRepository) : bool :=
  absent_or_string (lookup_property repo "_text_only/custom/parser_detected_drive_type")
  && absent_or_string (lookup_property repo "device/type")
  && absent_or_string (lookup_property repo "device/protocol")
  && absent_or_int64 (lookup_property repo "rotation_rate").

(** HDD or SSD, as the rotation-rate fact says: absent or zero is an SSD. *)
Definition by_rotation_rate (repo : StoragePropertyRepository) : DetectedType :=
  match value (lookup_property repo "rotation_rate") with
  | VInt64 z => if bool_decide (z = 0) then StorageDeviceDetectedType.AtaSsd
                else StorageDeviceDetectedType.AtaHdd
  | _ => StorageDeviceDetectedType.AtaSsd
  end.

(** The resolver reaches the ATA case of the structured dialect: a
    [device/type] fact other than "scsi" that is "sat", or comes with a
    protocol fact spelling "ata" in any letter case. *)
Definition structured_ata (repo : StoragePropertyRepository) : bool :=
  match value (lookup_property repo "device/type") with
  | VString smartctl_type =>
      negb (bool_decide (smartctl_type = "scsi"))
      && (bool_decide (smartctl_type = "sat")
          || match value (lookup_property repo "device/protocol") with
             | VString protocol => bool_decide (string_to_lower_copy protocol = "ata")
             | _ => false
             end)
  | _ => false
  end.

(** The resolver reaches the ATA case of the legacy-text dialect: the stored
    drive type names [AtaAny]. *)
Definition legacy_text_ata (C : Collaborators) (repo : StoragePropertyRepository) : bool :=
  match value (lookup_property repo "_text_only/custom/parser_detected_drive_type") with
  | VString name =>
      bool_decide (get_by_storable_name C name StorageDeviceDetectedType.BasicScsi
                   = StorageDeviceDetectedType.AtaAny)
  | _ => false
  end.

(** The three parse entry points, and for each the answer of the parser it
    selects first to the buffer it parses (if it gets as far as a parser). *)
Inductive ParseEntry :=
| BasicEntry
| FullEntry (parser_type : SmartctlParserType.t) (format : SmartctlOutputFormat.t)
| VirtualEntry.

Definition run_entry (C : Collaborators) (e : ParseEntry)
  : M C (ExpectedVoid StorageDeviceError.t) :=
  match e with
  | BasicEntry => parse_basic_data C
  | FullEntry parser_type format => parse_full_data C parser_type format
  | VirtualEntry => parse_any_data_for_virtual C
  end.

Definition selected_parse (C : Collaborators) (e : ParseEntry) (d : StorageDevice)
  : option (Expected (SmartctlParserError C) StoragePropertyRepository) :=
  match e with
  | BasicEntry =>
      let format := match detect_output_format C (basic_output_ d) with
                    | Ok f => f
                    | Unexpected _ _ => SmartctlOutputFormat.Text
                    end in
      parser ← SmartctlParser_create C SmartctlParserType.Basic format;
      Some (parser (basic_output_ d))
  | FullEntry parser_type format =>
      parser ← SmartctlParser_create C parser_type format;
      Some (parser (full_output_ d))
  | VirtualEntry =>
      match detect_output_format C (full_output_ d) with
      | Ok format =>
          parser ← SmartctlParser_create C SmartctlParserType.Basic format;
          Some (parser (full_output_ d))
      | Unexpected _ _ => None
      end
  end.

(** Frames.  [preserves R m]: whichever way [m] ends, its final state is
    [R]-related to its initial state.  The relations of interest: a member of
    the device keeps its value; no event of some kind is added; the world is
    not touched. *)
Definition preserves {C A} (R : relation (State C)) (m : M C A) : Prop :=
  ∀ s, R s (snd (m s)).

Definition unchanged {C X} (member : StorageDevice -> X) : relation (State C) :=
  λ s s', member (self s') = member (self s).

Definition no_new {C} (p : Event -> bool) : relation (State C) :=
  λ s s', count_events p (events s') = count_events p (events s).

Definition same_world {C} : relation (State C) :=
  λ s s', world s' = world s.

(** The error of the Test-Active guard. *)
Definition test_running : ExpectedVoid StorageDeviceError.t :=
  Unexpected StorageDeviceError.TestRunning
    "A test is currently being performed on this drive.".

(** Events that only report: debug output. *)
Definition only_debug (evs : list Event) : Prop :=
  Forall (λ e, ∃ m, e = DebugOut m) evs.

(** A fixed-priority lookup chain: the fact under the primary key, else the
    fact under the alias key, if either is there. *)
Definition first_present (repo : StoragePropertyRepository) (primary alias : string)
  : option StorageProperty :=
  if negb (empty (lookup_property repo primary)) then Some (lookup_property repo primary)
  else if negb (empty (lookup_property repo alias)) then Some (lookup_property repo alias)
  else None.

(** A method that never runs out of recursion budget. *)
Definition fuel_free {C A} (m : M C A) : Prop :=
  ∀ s, fst (m s) ≠ OutOfFuel.

(** The command line of the basic fetch. *)
Definition basic_command_options (C : Collaborators) : list string :=
  (["--info"; "--health"; "--capabilities"]
   ++ (if bool_decide (get_default_format C SmartctlParserType.Basic
                       = SmartctlOutputFormat.Json)
       then ["--json=o"] else []))%list.

(** ** More of the class: accessors over sectioned lookups

    [lookup_property(name, section)] and [has_properties_for_section]
    belong to the repository (storage_property_repository.h), the sections
    to storage_property.h; they are taken as they are called. *)

(** [StorageDevice::SelfTestSupportStatus]. *)
Module SelfTestSupportStatus.
Inductive t := Unknown | Unsupported | Supported.

#[global] Instance eq_dec : EqDecision t.
Proof. solve_decision. Defined.
End SelfTestSupportStatus.

Section Sectioned.
Variable C : Collaborators.
Variable StoragePropertySection : Type.
Variables OverallHealth SelftestLog : StoragePropertySection.
Variable lookup_property_in :
  StoragePropertyRepository -> string -> StoragePropertySection -> StorageProperty.
Variable has_properties_for_section :
  StoragePropertyRepository -> StoragePropertySection -> bool.

(** [get_health_property] is [const], its cache [health_property_] is
    [mutable]. *)
Definition get_health_property : M C StorageProperty :=
  cached ← gets C health_property_;
  match cached with
  | Some p => mret p  (* cached return value *)
  | None =>
      repo ← gets C property_repository_;
      let p := lookup_property_in repo "smart_status/passed" OverallHealth in
      (if negb (empty p) then modify C (assign_health_property_ (Some p))  (* store to cache *)
       else mret ());;
      mret p
  end.

(** [get_self_test_support_status]. *)
Definition get_self_test_support_status (d : StorageDevice) : SelfTestSupportStatus.t :=
  if bool_decide (parse_status_ d = ParseStatus.Full) then
    if has_properties_for_section (property_repository_ d) SelftestLog
    then SelfTestSupportStatus.Supported else SelfTestSupportStatus.Unsupported
  else if bool_decide (parse_status_ d = ParseStatus.Basic) then
    if bool_decide (get_smart_status d = SmartStatus.Enabled)
    then SelfTestSupportStatus.Unknown else SelfTestSupportStatus.Unsupported
  else SelfTestSupportStatus.Unknown.

End Sectioned.

(** The command line of the full fetch, by detected type. *)
Definition full_command_options (C : Collaborators) (t : DetectedType) : list string :=
  (match t with
   | StorageDeviceDetectedType.Unknown
   | StorageDeviceDetectedType.NeedsExplicitType => []
   | StorageDeviceDetectedType.AtaAny
   | StorageDeviceDetectedType.AtaHdd
   | StorageDeviceDetectedType.AtaSsd =>
       ["--health"; "--info"; "--get=all"; "--capabilities";
        "--attributes"; "--format=brief"; "--log=xerror,50,error";
        "--log=xselftest,50,selftest"; "--log=selective";
        "--log=directory"; "--log=scttemp"; "--log=scterc";
        "--log=devstat"; "--log=sataphy"]
   | _ => ["--xall"]
   end
   ++ (if bool_decide (get_default_format C (get_default_parser_type C t)
                       = SmartctlOutputFormat.Json)
       then ["--json=o"] else []))%list.

(** What a fetch leaves of a device before it runs smartctl. *)
Definition cleared_for_fetch (d : StorageDevice) : StorageDevice :=
  assign_full_output_ "" (assign_basic_output_ "" (cleared d)).

(** A string without ['/']. *)
Fixpoint no_slash (s : string) : bool :=
  match s with
  | EmptyString => true
  | String c r => negb (bool_decide (c = "/"%char)) && no_slash r
  end.

(** The assertions a full fetch trips over when the type is not resolved:
    [DBG_ASSERT(type != Unknown)] and the [DBG_ASSERT(0)] of the switch. *)
Definition full_fetch_assertions (t : DetectedType) : list Event :=
  match t with
  | StorageDeviceDetectedType.Unknown => [DebugOut AssertionFailed; DebugOut AssertionFailed]
  | StorageDeviceDetectedType.NeedsExplicitType => [DebugOut AssertionFailed]
  | _ => []
  end.

(** The error for virtual devices. *)
Definition cannot_execute_on_virtual : ExpectedVoid StorageDeviceError.t :=
  Unexpected StorageDeviceError.CannotExecuteOnVirtual
    "Cannot execute smartctl on a virtual device.".

(** A method that notifies the listeners once when it returns success, and
    not at all when it returns an error or does not return. *)
Definition notifies_on_success {C} (m : M C (ExpectedVoid StorageDeviceError.t)) : Prop :=
  ∀ s, notifications (snd (m s))
       = (notifications s
          + match fst (m s) with Returned (Ok _) => 1 | _ => 0 end)%nat.




Definition read_short_size (repo : StoragePropertyRepository) (old : option string)
  : option string :=
  let short := lookup_property repo "user_capacity/bytes/_short" in
  if negb (empty short) then Some (readable_value short) else old.

Definition absent_or_bool (p : StorageProperty) : bool :=
  match value p with monostate | VBool _ => true | _ => false end.

(** The facts [read_common_properties] reads have the types it reads them
    at.  An alias is only read when the primary fact is absent. *)
Definition common_facts_typed (repo : StoragePropertyRepository) : bool :=
  absent_or_bool (lookup_property repo "smart_support/available")
  && absent_or_bool (lookup_property repo "smart_support/enabled")
  && absent_or_string (lookup_property repo "model_name")
  && (negb (empty (lookup_property repo "model_name"))
      || absent_or_string (lookup_property repo "scsi_model_name"))
  && absent_or_string (lookup_property repo "model_family")
  && (negb (empty (lookup_property repo "model_family"))
      || absent_or_string (lookup_property repo "scsi_vendor"))
  && absent_or_string (lookup_property repo "serial_number").


(** The classification the structured dialect gives, if the resolver
    recognises it: the [device/type] fact, helped by the lower-cased
    [device/protocol] fact. *)
Definition structured_type (C : Collaborators) (repo : StoragePropertyRepository)
    (device_base : string) : option DetectedType :=
  match value (lookup_property repo "device/type") with
  | VString smartctl_type =>
      let lowercase_protocol :=
        match value (lookup_property repo "device/protocol") with
        | VString p => string_to_lower_copy p
        | _ => ""
        end in
      if bool_decide (smartctl_type = "scsi") then
        Some (if is_kernel_linux C && starts_with device_base "sr"
              then StorageDeviceDetectedType.CdDvd
              else StorageDeviceDetectedType.BasicScsi)
      else if bool_decide (smartctl_type = "sat") || bool_decide (lowercase_protocol = "ata")
      then Some (by_rotation_rate repo)
      else if bool_decide (smartctl_type = "nvme") || bool_decide (lowercase_protocol = "nvme")
      then Some StorageDeviceDetectedType.Nvme
      else None
  | _ => None
  end.

(** The classification the legacy-text dialect gives: the stored type
    name, with [AtaAny] told apart by the rotation rate. *)
Definition legacy_type (C : Collaborators) (repo : StoragePropertyRepository)
  : option DetectedType :=
  match value (lookup_property repo "_text_only/custom/parser_detected_drive_type") with
  | VString name =>
      let t := get_by_storable_name C name StorageDeviceDetectedType.BasicScsi in
      Some (if bool_decide (t = StorageDeviceDetectedType.AtaAny)
            then by_rotation_rate repo else t)
  | _ => None
  end.

(** The type the resolver leaves: the structured classification, else the
    legacy one, else the type before; never [Unknown]. *)
Definition resolved_type (C : Collaborators) (repo : StoragePropertyRepository)
    (device_base : string) (before : DetectedType) : DetectedType :=
  let t := default (default before (legacy_type C repo))
                   (structured_type C repo device_base) in
  if bool_decide (t = StorageDeviceDetectedType.Unknown)
  then StorageDeviceDetectedType.BasicScsi else t.

(** What [parse_any_data_for_virtual] makes of the loaded output of a
    device [d] once the type is resolved to [t]: the facts of the parser of
    the drive family and [Full] when there is such a parser and it accepts
    the output, else the facts of the Basic parser and [Basic].  There is no
    result where the method returns an error. *)
Definition virtual_parse_result (C : Collaborators) (d : StorageDevice) (t : DetectedType)
  : option (ParseStatus.t * StoragePropertyRepository) :=
  match detect_output_format C (full_output_ d) with
  | Ok parser_format =>
      basic_parser ← SmartctlParser_create C SmartctlParserType.Basic parser_format;
      match basic_parser (full_output_ d) with
      | Ok basic_property_repo =>
          let basic := (ParseStatus.Basic, process_properties C basic_property_repo t) in
          let parser_type := get_default_parser_type C t in
          if bool_decide (parser_type = SmartctlParserType.Basic) then Some basic
          else
            parser ← SmartctlParser_create C parser_type parser_format;
            Some match parser (full_output_ d) with
                 | Ok property_repo =>
                     (ParseStatus.Full, process_properties C property_repo t)
                 | Unexpected _ _ => basic
                 end
      | Unexpected _ _ => None
      end
  | Unexpected _ _ => None
  end.

(** ** More scenarios *)

(** A disk already resolved as a rotating ATA disk. *)
Definition resolved_ata_hdd : StorageDevice :=
  assign_detected_type_ StorageDeviceDetectedType.AtaHdd (new_device "/dev/sda" false).

(** A saved smartctl output, loaded as a virtual device. *)
Definition loaded_capture : StorageDevice :=
  assign_full_output_ smartctl_banner (new_device "capture.txt" true).


(** An optical drive seen by the JSON parser, with a stale fact of the text
    dialect beside it. *)
Definition optical_facts : StoragePropertyRepository :=
  <["_text_only/custom/parser_detected_drive_type" := fact (VString "ata_any")]>
  (<["device/type" := fact (VString "scsi")]> ∅).

(** ** The earlier revision: Automatic Offline Data Collection

    [get_aodc_status] of the earlier revision scans the property list of the
    device.  Of a property it reads [section], [generic_name] and
    [value_bool]; of the sections only [section_internal] matters, so the
    type of sections is left open.  The method is [const]; its cache
    [aodc_status_] is [mutable].  Each line it writes to the debug log is
    recorded as the status the line names. *)
#[global] Instance Legacy_status_eq_dec : EqDecision Legacy.status_t.
Proof. solve_decision. Defined.

Module LegacyDevice.
Section Properties.
Context {section_t : Type} `{EqDecision section_t}.
Variable section_internal : section_t.

Record StorageProperty := {
  section : section_t;
  generic_name : string;
  value_bool : bool;
}.

Record t := {
  smart_enabled_ : option bool;
  smart_supported_ : option bool;
  aodc_status_ : option Legacy.status_t;
  properties_ : list StorageProperty;
}.

Definition assign_aodc_status_ (x : option Legacy.status_t) (d : t) : t :=
  {| smart_enabled_ := smart_enabled_ d;
     smart_supported_ := smart_supported_ d;
     aodc_status_ := x;
     properties_ := properties_ d |}.

Definition get_smart_status (d : t) : Legacy.status_t :=
  Legacy.get_smart_status (smart_enabled_ d) (smart_supported_ d).

(** The loop over [properties_], from the property at the iterator on, with
    the locals [status], [aodc_supported] and [found].  [found] is an [int]
    that counts properties of the list, far from its bounds; the [break] is
    reached only at an internal property of another name. *)
Fixpoint scan_properties (props : list StorageProperty) (status : Legacy.status_t)
    (aodc_supported : bool) (found : Z) : Legacy.status_t * bool :=
  match props with
  | [] => (status, aodc_supported)
  | p :: rest =>
      if bool_decide (section p = section_internal) then
        if bool_decide (generic_name p = "aodc_enabled") then
          (* if this is not present at all, we set the unknown status. *)
          scan_properties rest
            (if value_bool p then Legacy.status_enabled else Legacy.status_disabled)
            aodc_supported found
        else if bool_decide (generic_name p = "aodc_support") then
          scan_properties rest status (value_bool p) (found + 1)
        else if bool_decide (2 <= found) then (status, aodc_supported)
        else scan_properties rest status aodc_supported found
      else scan_properties rest status aodc_supported found
  end.

Definition get_aodc_status (d : t) : Legacy.status_t * t * list Legacy.status_t :=
  (* smart-disabled drives are known to print some garbage *)
  if negb (bool_decide (get_smart_status d = Legacy.status_enabled)) then
    (Legacy.status_unsupported, d, [])
  else
    match aodc_status_ d with
    | Some cached => (cached, d, [])  (* cached return value *)
    | None =>
        let '(status, aodc_supported) :=
          scan_properties (properties_ d) Legacy.status_unknown false 0 in
        let status := if negb aodc_supported then Legacy.status_unsupported else status in
        (* if it's supported, then status may be enabled, disabled or unknown. *)
        (status, assign_aodc_status_ (Some status) d, [status])
    end.

(** An internal property of the given name and value. *)
Definition internal_fact (name : string) (v : bool) (p : StorageProperty) : Prop :=
  section p = section_internal ∧ generic_name p = name ∧ value_bool p = v.

End Properties.
End LegacyDevice.

(** A drive of the earlier revision with SMART enabled, whose internal
    properties say that AODC is supported and on. *)
Inductive example_section := example_section_info | example_section_internal.

#[global] Instance example_section_eq_dec : EqDecision example_section.
Proof. solve_decision. Defined.

Definition aodc_drive : LegacyDevice.t :=
  {| LegacyDevice.smart_enabled_ := Some true;
     LegacyDevice.smart_supported_ := Some true;
     LegacyDevice.aodc_status_ := None;
     LegacyDevice.properties_ :=
       [ {| LegacyDevice.section := example_section_info;
            LegacyDevice.generic_name := "model";
            LegacyDevice.value_bool := false |};
         {| LegacyDevice.section := example_section_internal;
            LegacyDevice.generic_name := "aodc_support";
            LegacyDevice.value_bool := true |};
         {| LegacyDevice.section := example_section_internal;
            LegacyDevice.generic_name := "aodc_enabled";
            LegacyDevice.value_bool := true |} ] |}.

(** ** Scenarios of the amended claims *)

(** An installation that has the Basic parser only: no parser is created
    for any drive family. *)
Definition basic_only_collaborators : Collaborators :=
  {| World := nat;
     SmartctlExecutorError := unit;
     SmartctlParserError := unit;
     execute_smartctl := λ w _ _ command_opts _, (S w, Ok (), smartctl_banner);
     app_regex_partial_match := simple_regex_partial_match;
     app_get_device_options := λ _ _, [];
     is_kernel_linux := true;
     get_default_format := λ _, SmartctlOutputFormat.Text;
     get_default_parser_type := example_get_default_parser_type;
     detect_output_format := λ output,
       if starts_with output "{" then Ok SmartctlOutputFormat.Json
       else Ok SmartctlOutputFormat.Text;
     SmartctlParser_create := λ type _,
       if bool_decide (type = SmartctlParserType.Basic)
       then Some (parse_to ata_hdd_text_facts type) else None;
     process_properties := λ repo _, repo;
     get_by_storable_name := example_get_by_storable_name |}.

(** An ATA disk behind a RAID controller: the text dialect says ATA at 7200
    rpm, and the structured dialect names a device type the resolver does
    not know. *)
Definition raid_member_facts : StoragePropertyRepository :=
  <["_text_only/custom/parser_detected_drive_type" := fact (VString "ata_any")]>
  (<["rotation_rate" := fact (VInt64 7200)]>
  (<["device/type" := fact (VString "megaraid")]> ∅)).

(** ** Lines of an output

    [app_regex_partial_match] (app_regex.h) is not among the sources.  The
    patterns [set_smart_enabled] hands to it have the form ["/^text/mi"]
    with a literal text: flag [m] lets [^] match at the start of the output
    and after every newline, flag [i] makes the match ignore letter case.
    What follows says that in terms of the lines of the output. *)

(** The lines of a string: the pieces between its newline characters. *)
Fixpoint lines (s : string) : list string :=
  match s with
  | EmptyString => [EmptyString]
  | String c r =>
      if bool_decide (c = "010"%char) then EmptyString :: lines r
      else match lines r with
           | line :: rest => String c line :: rest
           | [] => [String c EmptyString]
           end
  end.

(** The line starts with the text, whatever the case of the letters. *)
Definition starts_with_in_any_case (line text : string) : bool :=
  starts_with (string_to_lower_copy line) (string_to_lower_copy text).

(** Some line of the output starts with the text, whatever the case of the
    letters. *)
Definition some_line_starts_with (text output : string) : bool :=
  existsb (λ line, starts_with_in_any_case line text) (lines output).

(** Some line of the output starts with the text as it is spelt. *)
Definition some_line_starts_with_exactly (text output : string) : bool :=
  existsb (λ line, starts_with line text) (lines output).

(** The texts [set_smart_enabled] looks for, and the pattern it writes for
    each. *)
Definition toggle_texts : list string :=
  ["SMART Enabled"; "SMART Disabled"; "A mandatory SMART command failed"].

Definition line_start_pattern (text : string) : string := "/^" +:+ text +:+ "/mi".

(** The matcher gives the patterns of [set_smart_enabled] their meaning. *)
Definition matches_line_starts (C : Collaborators) : Prop :=
  ∀ text output,
    text ∈ toggle_texts ->
    app_regex_partial_match C (line_start_pattern text) output
    = some_line_starts_with text output.

(** A text without a newline character. *)
Fixpoint no_newline (text : string) : bool :=
  match text with
  | EmptyString => true
  | String c r => negb (bool_decide (c = "010"%char)) && no_newline r
  end.

(** smartctl refusing the command and, on a second line, naming the state
    in small letters. *)
Definition small_letters_output : string :=
  "A mandatory SMART command failed: exiting
smart disabled".

Definition small_letters_collaborators : Collaborators :=
  example_collaborators (execute_ok small_letters_output) parse_nothing.
(** * Reasoning about methods *)

Section Reasoning.
Context {C : Collaborators}.
Implicit Types s : State C.

(** ** Sequencing *)

Lemma bind_returned {A B} (m : M C A) (f : A -> M C B) s b s' :
  (m ≫= f) s = (Returned b, s') ->
  ∃ a s1, m s = (Returned a, s1) ∧ f a s1 = (Returned b, s').
Proof.
  unfold mbind, M_bind. destruct (m s) as [[a| |] s1]; intros H; try discriminate.
  exists a, s1. auto.
Qed.

Lemma bind_run {A B} (m : M C A) (f : A -> M C B) s a s1 :
  m s = (Returned a, s1) -> (m ≫= f) s = f a s1.
Proof. unfold mbind, M_bind. intros ->. reflexivity. Qed.

(** ** Frames: what a method leaves alone

    The relations below are preorders, so frames compose along [≫=]. *)
Section Frames.
Variable R : relation (State C).
Context `{!PreOrder R}.

Lemma preserves_ret {A} (a : A) : preserves R (mret a : M C A).
Proof. intros s. reflexivity. Qed.

Lemma preserves_bind {A B} (m : M C A) (f : A -> M C B) :
  preserves R m -> (∀ a, preserves R (f a)) -> preserves R (m ≫= f).
Proof.
  intros Hm Hf s. unfold mbind, M_bind.
  specialize (Hm s). destruct (m s) as [[a| |] s1]; simpl in *; auto.
  etransitivity; [exact Hm | apply Hf].
Qed.

Lemma preserves_gets {A} (f : StorageDevice -> A) : preserves R (gets C f).
Proof. intros s. reflexivity. Qed.

Lemma preserves_throw {A} e : preserves R (throw C e : M C A).
Proof. intros s. reflexivity. Qed.

Lemma preserves_out_of_fuel {A} : preserves R (out_of_fuel C : M C A).
Proof. intros s. reflexivity. Qed.

Lemma preserves_get_value {A} (o : option A) : preserves R (get_value C o).
Proof. destruct o; [apply preserves_ret | apply preserves_throw]. Qed.

Lemma preserves_lookup key : preserves R (lookup C key).
Proof. apply preserves_bind; [apply preserves_gets | intros; apply preserves_ret]. Qed.

Lemma preserves_if {A} (b : bool) (m1 m2 : M C A) :
  preserves R m1 -> preserves R m2 -> preserves R (if b then m1 else m2).
Proof. destruct b; auto. Qed.

End Frames.

#[global] Instance unchanged_preorder {X} (member : StorageDevice -> X) :
  PreOrder (unchanged (C:=C) member).
Proof. split; [intros s; reflexivity | intros s1 s2 s3 H1 H2; unfold unchanged in *; congruence]. Qed.

#[global] Instance no_new_preorder (p : Event -> bool) : PreOrder (no_new (C:=C) p).
Proof. split; [intros s; reflexivity | intros s1 s2 s3 H1 H2; unfold no_new in *; congruence]. Qed.

#[global] Instance same_world_preorder : PreOrder (same_world (C:=C)).
Proof. split; [intros s; reflexivity | intros s1 s2 s3 H1 H2; unfold same_world in *; congruence]. Qed.

Lemma count_events_app p (l1 l2 : list Event) :
  count_events p (l1 ++ l2) = (count_events p l1 + count_events p l2)%nat.
Proof. induction l1 as [|e l1 IH]; simpl; [reflexivity | rewrite IH; lia]. Qed.

Lemma preserves_modify_unchanged {X} (member : StorageDevice -> X) f :
  (∀ d, member (f d) = member d) -> preserves (unchanged member) (modify C f).
Proof. intros H s. apply H. Qed.

Lemma preserves_emit_unchanged {X} (member : StorageDevice -> X) e :
  preserves (unchanged member) (emit C e).
Proof. intros s. reflexivity. Qed.

Lemma preserves_execute_unchanged {X} (member : StorageDevice -> X) device o c b :
  preserves (unchanged member) (call_execute_smartctl C device o c b).
Proof.
  intros s. unfold call_execute_smartctl.
  destruct (execute_smartctl C _ _ _ _ _) as [[w st] out]. reflexivity.
Qed.

Lemma preserves_modify_no_new p f : preserves (no_new p) (modify C f).
Proof. intros s. reflexivity. Qed.

Lemma preserves_emit_no_new p e : p e = false -> preserves (no_new p) (emit C e).
Proof.
  intros H s. unfold no_new. simpl. rewrite count_events_app. simpl. rewrite H. lia.
Qed.

Lemma preserves_modify_same_world f : preserves same_world (modify C f).
Proof. intros s. reflexivity. Qed.

Lemma preserves_emit_same_world e : preserves same_world (emit C e).
Proof. intros s. reflexivity. Qed.

End Reasoning.

(** Frame goals are settled by walking through the method. *)
Ltac frame_step :=
  first
    [ apply preserves_ret; solve [apply _]
    | apply preserves_gets; solve [apply _]
    | apply preserves_throw; solve [apply _]
    | apply preserves_out_of_fuel; solve [apply _]
    | apply preserves_get_value; solve [apply _]
    | apply preserves_lookup; solve [apply _]
    | apply preserves_modify_unchanged; intros ?; reflexivity
    | apply preserves_modify_no_new
    | apply preserves_modify_same_world
    | apply preserves_emit_unchanged
    | apply preserves_emit_no_new; reflexivity
    | apply preserves_emit_same_world
    | apply preserves_bind; [ solve [apply _] | | intros ? ]
    | match goal with
      | |- preserves _ (if ?b then _ else _) => destruct b
      | |- preserves _ (match ?x with _ => _ end) => destruct x
      | |- preserves _ (let _ := _ in _) => cbv zeta
      end ].

Ltac frame := repeat frame_step.

(** * The SMART status table *)

(** C2. For each of the nine combinations of smart-enabled and
    smart-supported in {true, false, unknown}, [get_smart_status] returns the
    value of the precedence table: enabled gives Enabled whatever the support;
    disabled gives Disabled when supported or when support is unknown, and
    Unsupported when unsupported; unknown gives Disabled when supported and
    Unsupported otherwise.  The function of the earlier revision of the file
    computes the same table. *)
Theorem get_smart_status_table (d : StorageDevice) :
  let status enabled supported :=
    get_smart_status (assign_smart_enabled_ enabled (assign_smart_supported_ supported d)) in
  status (Some true) (Some true) = SmartStatus.Enabled
  ∧ status (Some true) (Some false) = SmartStatus.Enabled
  ∧ status (Some true) None = SmartStatus.Enabled
  ∧ status (Some false) (Some true) = SmartStatus.Disabled
  ∧ status (Some false) (Some false) = SmartStatus.Unsupported
  ∧ status (Some false) None = SmartStatus.Disabled
  ∧ status None (Some true) = SmartStatus.Disabled
  ∧ status None (Some false) = SmartStatus.Unsupported
  ∧ status None None = SmartStatus.Unsupported
  ∧ ∀ enabled supported,
      Legacy.get_smart_status enabled supported
      = Legacy.of_smart_status (status enabled supported).
Proof. repeat split. intros [[]|] [[]|]; reflexivity. Qed.

(** * The Test-Active guard *)

(** C3. While the test-active flag is set, [fetch_basic_data_and_parse],
    [fetch_full_data_and_parse] and [set_smart_enabled] return the
    [TestRunning] error at once: the state they leave is the state they
    found, so nothing was executed (no event, same world) and no member of the
    device changed. *)
Theorem test_active_guard (C : Collaborators) (s : State C) (fuel : nat) (b : bool) :
  test_is_active_ (self s) = true ->
  fetch_basic_data_and_parse C (S fuel) s = (Returned test_running, s)
  ∧ fetch_full_data_and_parse C s = (Returned test_running, s)
  ∧ set_smart_enabled C b s = (Returned test_running, s).
Proof.
  intros H.
  assert (Hget : get_test_is_active C s = (Returned true, s))
    by (unfold get_test_is_active, gets; rewrite H; reflexivity).
  repeat split.
  - cbn [fetch_basic_data_and_parse]. rewrite (bind_run _ _ _ _ _ Hget). reflexivity.
  - unfold fetch_full_data_and_parse. rewrite (bind_run _ _ _ _ _ Hget). reflexivity.
  - unfold set_smart_enabled. rewrite (bind_run _ _ _ _ _ Hget). reflexivity.
Qed.

Lemma test_active_guard_witness :
  let s := start needs_type_collaborators 0%nat
             (assign_test_is_active_ true (new_device "/dev/sda" false)) in
  test_is_active_ (self s) = true
  ∧ fetch_basic_data_and_parse needs_type_collaborators 2 s = (Returned test_running, s)
  ∧ fetch_full_data_and_parse needs_type_collaborators s = (Returned test_running, s)
  ∧ set_smart_enabled needs_type_collaborators true s = (Returned test_running, s).
Proof.
  split; [reflexivity |].
  apply (test_active_guard needs_type_collaborators _ 1 true). reflexivity.
Defined.

(** * Running the external command *)

Section Execution.
Context {C : Collaborators}.
Implicit Types s : State C.

Lemma get_device_options_real s :
  is_virtual_ (self s) = false ->
  get_device_options C s = (Returned (device_options C (self s)), s).
Proof.
  intros H. unfold get_device_options, get_is_virtual, gets, mbind, M_bind.
  rewrite H. unfold device_options. cbv beta iota zeta.
  unfold get_type_argument, get_extra_arguments, get_device, gets, mret, M_ret.
  rewrite (assoc_L (++)). reflexivity.
Qed.

(** What [execute_device_smartctl] does on a real device, from the answer of
    the executor. *)
Lemma execute_device_smartctl_real command_options buffer check_type s w status output :
  is_virtual_ (self s) = false ->
  execute_smartctl C (world s) (device_ (self s)) (device_options C (self s))
    command_options buffer = (w, status, output) ->
  execute_device_smartctl C command_options buffer check_type s =
  let invocation := ExecuteSmartctl (device_ (self s)) (device_options C (self s)) command_options in
  match status with
  | Ok _ =>
      (Returned (Ok (), output),
       {| self := self s; world := w; events := events s ++ [invocation] |})
  | Unexpected _ message =>
      (Returned (Unexpected StorageDeviceError.ExecutionError message, output),
       {| self :=
            if check_type
               && bool_decide (detected_type_ (self s) = StorageDeviceDetectedType.Unknown)
               && app_regex_partial_match C
                    "/specify device type with the -d option/mi" output
            then assign_detected_type_ StorageDeviceDetectedType.NeedsExplicitType (self s)
            else self s;
          world := w;
          events := (events s ++ [invocation]) ++ [DebugOut SmartctlNotExecutedCleanly] |})
  end.
Proof.
  intros Hreal Hexec. unfold execute_device_smartctl.
  unfold get_is_virtual at 1. unfold gets at 1. unfold mbind at 1. unfold M_bind at 1.
  rewrite Hreal. cbv beta iota.
  unfold get_device at 1. unfold gets at 1. unfold mbind at 1. unfold M_bind at 1.
  cbv beta iota.
  unfold mbind at 1. unfold M_bind at 1. rewrite (get_device_options_real s Hreal).
  cbv beta iota.
  unfold mbind at 1. unfold M_bind at 1. unfold call_execute_smartctl.
  cbn [self world events]. rewrite Hexec. cbv beta iota zeta.
  destruct status as [[]|data message].
  - reflexivity.
  - unfold debug_out, emit, get_detected_type, gets, mbind, M_bind. cbn [self world events].
    destruct (check_type && _ && _); reflexivity.
Qed.

(** On a virtual device nothing is executed. *)
Lemma execute_device_smartctl_virtual command_options buffer check_type s :
  is_virtual_ (self s) = true ->
  execute_device_smartctl C command_options buffer check_type s =
  (Returned (Unexpected StorageDeviceError.CannotExecuteOnVirtual
               "Cannot execute smartctl on a virtual device.", buffer),
   {| self := self s; world := world s;
      events := events s ++ [DebugOut NoExecuteOnVirtual] |}).
Proof.
  intros H. unfold execute_device_smartctl, get_is_virtual, gets, mbind, M_bind.
  rewrite H. reflexivity.
Qed.

End Execution.

(** * Line starts *)

Lemma to_lower_newline (c : ascii) : to_lower c = "010"%char -> c = "010"%char.
Proof.
  destruct c as [[] [] [] [] [] [] [] []]; vm_compute; intros H;
    first [reflexivity | discriminate H].
Qed.

Lemma lines_cons (c : ascii) (r : string) :
  lines (String c r)
  = if bool_decide (c = "010"%char) then EmptyString :: lines r
    else String c (hd EmptyString (lines r)) :: tl (lines r).
Proof.
  cbn [lines]. destruct (bool_decide (c = "010"%char)); [reflexivity |].
  destruct (lines r) eqn:Hlines; [| reflexivity].
  destruct r; cbn [lines] in Hlines; [discriminate Hlines |].
  destruct (bool_decide _); [discriminate Hlines |].
  destruct (lines r); discriminate Hlines.
Qed.

(** A match of a text without newline lies within one line. *)
Lemma is_prefix_ci_first_line (text s : string) :
  no_newline text = true ->
  is_prefix_ci text s = is_prefix_ci text (hd EmptyString (lines s)).
Proof.
  revert s. induction text as [|a p IH]; intros s Htext.
  { destruct s, (hd EmptyString (lines _)); reflexivity. }
  cbn [no_newline] in Htext. apply andb_true_iff in Htext as [Ha Hp].
  apply negb_true_iff, bool_decide_eq_false in Ha.
  destruct s as [|b r]; [reflexivity |].
  rewrite lines_cons. destruct (bool_decide (b = "010"%char)) eqn:Hb.
  - apply bool_decide_eq_true in Hb as ->. cbn [hd is_prefix_ci].
    rewrite bool_decide_eq_false_2; [reflexivity |].
    intros H. apply Ha, to_lower_newline. exact H.
  - cbn [hd is_prefix_ci]. rewrite (IH r Hp). reflexivity.
Qed.

Lemma find_ci_lines (text s : string) :
  no_newline text = true ->
  find_ci text true true s = existsb (is_prefix_ci text) (lines s)
  ∧ find_ci text true false s = existsb (is_prefix_ci text) (tl (lines s)).
Proof.
  intros Htext. induction s as [|c r [IHstart IHinside]].
  { cbn [find_ci lines existsb tl negb orb andb]. rewrite orb_false_r. auto. }
  cbn [find_ci negb orb andb]. rewrite lines_cons.
  rewrite (is_prefix_ci_first_line text (String c r) Htext), lines_cons.
  destruct (bool_decide (c = "010"%char)); cbn [hd tl existsb].
  - rewrite IHstart. auto.
  - rewrite IHinside. auto.
Qed.

Lemma is_prefix_ci_in_any_case (text line : string) :
  is_prefix_ci text line = starts_with_in_any_case line text.
Proof.
  unfold starts_with_in_any_case, starts_with.
  revert line. induction text as [|a p IH]; intros line.
  { destruct line; reflexivity. }
  destruct line as [|b l]; [reflexivity |].
  cbn [is_prefix_ci string_to_lower_copy String.prefix].
  destruct (ascii_dec (to_lower a) (to_lower b)) as [Heq | Hne].
  - rewrite bool_decide_eq_true_2 by exact Heq. apply IH.
  - rewrite bool_decide_eq_false_2 by exact Hne. reflexivity.
Qed.

(** The matcher of the scenarios gives the patterns their meaning. *)
Lemma simple_regex_matches_line_starts (text output : string) :
  text ∈ toggle_texts ->
  simple_regex_partial_match (line_start_pattern text) output
  = some_line_starts_with text output.
Proof.
  intros Htext.
  assert (Hfind : simple_regex_partial_match (line_start_pattern text) output
                  = find_ci text true true output ∧ no_newline text = true).
  { unfold toggle_texts in Htext.
    repeat (apply elem_of_cons in Htext as [-> | Htext]; [split; reflexivity |]).
    apply elem_of_nil in Htext. contradiction. }
  destruct Hfind as [-> Hno].
  rewrite (proj1 (find_ci_lines text output Hno)). unfold some_line_starts_with.
  induction (lines output) as [|line rest IH]; [reflexivity |].
  cbn [existsb]. rewrite IH, is_prefix_ci_in_any_case. reflexivity.
Qed.

Lemma example_matches_line_starts execute parse :
  matches_line_starts (example_collaborators execute parse).
Proof. intros text output Htext. apply simple_regex_matches_line_starts. exact Htext. Qed.

(** * Switching SMART on and off *)

(** C8, as amended. Let the matcher give the three patterns of
    [set_smart_enabled] their meaning (["/^text/mi"]: some line of the output
    starts with the text, in any letter case).  When the executor ran the
    toggle command cleanly, the result is read off the output alone: success
    exactly when a line starts, in any letter case, with "SMART Enabled" or
    "SMART Disabled"; failing that, [CommandFailed] when a line starts, in
    any letter case, with "A mandatory SMART command failed"; failing that
    too, [CommandUnknownError].  A clean execution alone never makes a
    success.  The device is left as it was and one process was run. *)
Theorem set_smart_enabled_classification (C : Collaborators) (b : bool) (s : State C)
    (w : World C) (output : string) :
  matches_line_starts C ->
  test_is_active_ (self s) = false ->
  is_virtual_ (self s) = false ->
  execute_smartctl C (world s) (device_ (self s)) (device_options C (self s))
    (if b then ["--smart=on"; "--saveauto=on"] else ["--smart=off"]) ""
  = (w, Ok (), output) ->
  let line_starts_with text := some_line_starts_with text output = true in
  let toggled := line_starts_with "SMART Enabled" ∨ line_starts_with "SMART Disabled" in
  let mandatory_failed := line_starts_with "A mandatory SMART command failed" in
  ∃ result s',
    set_smart_enabled C b s = (Returned result, s')
    ∧ (result = Ok () ↔ toggled)
    ∧ (¬ toggled -> mandatory_failed ->
       ∃ message, result = Unexpected StorageDeviceError.CommandFailed message)
    ∧ (¬ toggled -> ¬ mandatory_failed ->
       ∃ message, result = Unexpected StorageDeviceError.CommandUnknownError message)
    ∧ self s' = self s
    ∧ executions s' = S (executions s).
Proof.
  intros Hmatch Hidle Hreal Hexec line_starts_with toggled mandatory_failed.
  pose proof (Hmatch "SMART Enabled" output ltac:(repeat constructor)) as Henabled.
  pose proof (Hmatch "SMART Disabled" output ltac:(repeat constructor)) as Hdisabled.
  pose proof (Hmatch "A mandatory SMART command failed" output ltac:(repeat constructor))
    as Hmandatory.
  change (line_start_pattern "SMART Enabled") with "/^SMART Enabled/mi" in Henabled.
  change (line_start_pattern "SMART Disabled") with "/^SMART Disabled/mi" in Hdisabled.
  change (line_start_pattern "A mandatory SMART command failed")
    with "/^A mandatory SMART command failed/mi" in Hmandatory.
  assert (Hget : get_test_is_active C s = (Returned false, s))
    by (unfold get_test_is_active, gets; rewrite Hidle; reflexivity).
  unfold set_smart_enabled. rewrite (bind_run _ _ _ _ _ Hget). cbv beta iota zeta.
  pose proof (execute_device_smartctl_real _ "" false s w (Ok ()) output Hreal Hexec) as Hrun.
  cbv beta iota zeta in Hrun. rewrite (bind_run _ _ _ _ _ Hrun). cbv beta iota.
  assert (Hcount : ∀ e, executions (C:=C) {| self := self s; world := w;
             events := events s ++ [ExecuteSmartctl (device_ (self s)) (device_options C (self s)) e] |}
           = S (executions s)).
  { intros e. unfold executions. cbn [events]. rewrite count_events_app. simpl. lia. }
  subst toggled mandatory_failed line_starts_with. cbv beta.
  rewrite Henabled, Hdisabled, Hmandatory.
  destruct (some_line_starts_with "SMART Enabled" output) eqn:He;
    [| destruct (some_line_starts_with "SMART Disabled" output) eqn:Hd;
       [| destruct (some_line_starts_with "A mandatory SMART command failed" output) eqn:Hm]];
    cbn [orb]; eexists _, _; (split; [reflexivity |]);
    repeat split; auto; try (intros; exfalso; intuition congruence);
    try (intros; eexists; reflexivity); try (intros; intuition congruence).
Qed.

(** smartctl confirming the change, under the matcher of the scenarios. *)
Lemma set_smart_enabled_classification_witness :
  matches_line_starts smart_on_collaborators
  ∧ ∃ result s',
      set_smart_enabled smart_on_collaborators true
        (start smart_on_collaborators 0%nat (new_device "/dev/sda" false))
      = (Returned result, s')
      ∧ result = Ok ().
Proof.
  split; [apply example_matches_line_starts |].
  destruct (set_smart_enabled_classification smart_on_collaborators true
              (start smart_on_collaborators 0%nat (new_device "/dev/sda" false))
              1%nat smart_enabled_output
              (example_matches_line_starts _ _) eq_refl eq_refl eq_refl)
    as (result & s' & Hrun & Hok & _).
  exists result, s'. split; [exact Hrun |].
  apply Hok. left. vm_compute. reflexivity.
Defined.

(** C8 as stated fails: the letters need not be spelt as quoted.  smartctl
    answers with a line that starts with "A mandatory SMART command failed"
    and a second line "smart disabled".  No line starts with "SMART Enabled"
    or "SMART Disabled" as spelt, so the claim gives [CommandFailed]; the
    patterns ignore letter case, and the result is success. *)
Lemma small_letters_toggle_succeeds :
  let r := set_smart_enabled small_letters_collaborators true
             (start small_letters_collaborators 0%nat (new_device "/dev/sda" false)) in
  matches_line_starts small_letters_collaborators
  ∧ lines small_letters_output
    = ["A mandatory SMART command failed: exiting"; "smart disabled"]
  ∧ some_line_starts_with_exactly "SMART Enabled" small_letters_output = false
  ∧ some_line_starts_with_exactly "SMART Disabled" small_letters_output = false
  ∧ some_line_starts_with_exactly "A mandatory SMART command failed" small_letters_output
    = true
  ∧ some_line_starts_with "SMART Disabled" small_letters_output = true
  ∧ fst r = Returned (Ok ()).
Proof.
  intros r.
  split; [apply example_matches_line_starts |].
  repeat split; vm_compute; reflexivity.
Qed.

(** The other two answers: a refused command, and text in which "SMART
    Enabled" occurs, but not at the start of a line. *)
Example set_smart_enabled_failures :
  fst (set_smart_enabled mandatory_failed_collaborators true
         (start mandatory_failed_collaborators 0%nat (new_device "/dev/sda" false)))
  = Returned (Unexpected StorageDeviceError.CommandFailed "Mandatory SMART command failed.")
  ∧ fst (set_smart_enabled unrelated_collaborators true
           (start unrelated_collaborators 0%nat (new_device "/dev/sda" false)))
    = Returned (Unexpected StorageDeviceError.CommandUnknownError "Unknown error occurred.").
Proof. split; vm_compute; reflexivity. Qed.

(** * Parse attempts that do not get through their first parser *)

(** One step of a run whose first action computes. *)
Ltac mrun :=
  erewrite bind_run by reflexivity;
  cbn [self world events with_self cleared basic_output_ full_output_].

Section FirstParse.
Context {C : Collaborators}.
Implicit Types s : State C.

Lemma clear_parse_results_run s :
  clear_parse_results C s = (Returned (), with_self (cleared (self s)) s).
Proof. reflexivity. Qed.

Lemma only_debug_nil : only_debug [].
Proof. constructor. Qed.

Lemma only_debug_one m : only_debug [DebugOut m].
Proof. repeat constructor. eexists; reflexivity. Qed.

Lemma only_debug_count p evs :
  (∀ m, p (DebugOut m) = false) -> only_debug evs -> count_events p evs = 0%nat.
Proof.
  intros Hp. induction 1 as [|e evs [m ->] _ IH]; simpl; [reflexivity |].
  rewrite Hp, IH. reflexivity.
Qed.

Lemma run_entry_first_parse (e : ParseEntry) s :
  match selected_parse C e (self s) with
  | Some (Ok _) => True
  | Some (Unexpected _ message) =>
      ∃ evs, only_debug evs ∧
        run_entry C e s =
        (Returned (Unexpected StorageDeviceError.ParseError
                     ("Cannot parse smartctl output: " +:+ message)),
         {| self := cleared (self s); world := world s; events := events s ++ evs |})
  | None =>
      ∃ message evs, only_debug evs ∧
        run_entry C e s =
        (Returned (Unexpected StorageDeviceError.ParseError message),
         {| self := cleared (self s); world := world s; events := events s ++ evs |})
  end.
Proof.
  destruct e as [|parser_type format|]; unfold selected_parse, run_entry.
  - unfold parse_basic_data.
    rewrite (bind_run _ _ _ _ _ (clear_parse_results_run s)). mrun.
    destruct (detect_output_format C (basic_output_ (self s))) as [f|d m].
    + mrun.
      destruct (SmartctlParser_create C SmartctlParserType.Basic f) as [parser|]; simpl.
      * mrun. destruct (parser (basic_output_ (self s))) as [repo|d m]; [exact I |].
        exists []. split; [apply only_debug_nil |]. rewrite (right_id_L [] (++)). reflexivity.
      * eexists _, [DebugOut AssertionFailed]. split; [apply only_debug_one | reflexivity].
    + mrun.
      destruct (SmartctlParser_create C SmartctlParserType.Basic SmartctlOutputFormat.Text)
        as [parser|]; simpl.
      * mrun. destruct (parser (basic_output_ (self s))) as [repo|d' m']; [exact I |].
        exists [DebugOut CannotDetectOutputFormat]. split; [apply only_debug_one | reflexivity].
      * eexists _, [DebugOut CannotDetectOutputFormat; DebugOut AssertionFailed].
        split; [repeat constructor; eexists; reflexivity |].
        change [DebugOut CannotDetectOutputFormat; DebugOut AssertionFailed]
          with ([DebugOut CannotDetectOutputFormat] ++ [DebugOut AssertionFailed])%list.
        rewrite (assoc_L (++)). reflexivity.
  - unfold parse_full_data.
    rewrite (bind_run _ _ _ _ _ (clear_parse_results_run s)).
    destruct (SmartctlParser_create C parser_type format) as [parser|]; simpl.
    + mrun. destruct (parser (full_output_ (self s))) as [repo|d m]; [exact I |].
      exists []. split; [apply only_debug_nil |]. rewrite (right_id_L [] (++)). reflexivity.
    + eexists _, [DebugOut AssertionFailed]. split; [apply only_debug_one | reflexivity].
  - unfold parse_any_data_for_virtual.
    rewrite (bind_run _ _ _ _ _ (clear_parse_results_run s)). mrun.
    destruct (detect_output_format C (full_output_ (self s))) as [f|d m].
    + destruct (SmartctlParser_create C SmartctlParserType.Basic f) as [parser|]; simpl.
      * mrun. destruct (parser (full_output_ (self s))) as [repo|d m]; [exact I |].
        exists []. split; [apply only_debug_nil |]. rewrite (right_id_L [] (++)). reflexivity.
      * eexists _, []. split; [apply only_debug_nil |]. rewrite (right_id_L [] (++)). reflexivity.
    + eexists _, []. split; [apply only_debug_nil |]. rewrite (right_id_L [] (++)). reflexivity.
Qed.

(** The entry points do not look at what [clear_parse_results] resets. *)
Lemma run_entry_clears_first (e : ParseEntry) s :
  run_entry C e s = run_entry C e (with_self (cleared (self s)) s).
Proof.
  destruct e; unfold run_entry, parse_basic_data, parse_full_data, parse_any_data_for_virtual;
    rewrite (bind_run _ _ _ _ _ (clear_parse_results_run s));
    rewrite (bind_run _ _ _ _ _ (clear_parse_results_run (with_self (cleared (self s)) s)));
    reflexivity.
Qed.

End FirstParse.

(** C6, as amended. When the parser an entry point selects rejects the
    buffer, the entry point returns [ParseError] with the parser's message
    appended to "Cannot parse smartctl output: "; Parse Status is [None]
    afterwards; no parsed facts are stored and no change notification is sent.
    The Fact Store is however not what it was before the call: it is empty.
    Detected type, raw outputs, override and serial number are kept. *)
Theorem parse_failure_reported (C : Collaborators) (e : ParseEntry) (s : State C)
    (data : SmartctlParserError C) (message : string) :
  selected_parse C e (self s) = Some (Unexpected data message) ->
  let r := run_entry C e s in
  fst r = Returned (Unexpected StorageDeviceError.ParseError
                      ("Cannot parse smartctl output: " +:+ message))
  ∧ parse_status_ (self (snd r)) = ParseStatus.None
  ∧ property_repository_ (self (snd r)) = ∅
  ∧ detected_type_ (self (snd r)) = detected_type_ (self s)
  ∧ type_arg_ (self (snd r)) = type_arg_ (self s)
  ∧ basic_output_ (self (snd r)) = basic_output_ (self s)
  ∧ full_output_ (self (snd r)) = full_output_ (self s)
  ∧ serial_number_ (self (snd r)) = serial_number_ (self s)
  ∧ notifications (snd r) = notifications s
  ∧ executions (snd r) = executions s
  ∧ world (snd r) = world s.
Proof.
  intros H r. subst r.
  pose proof (run_entry_first_parse e s) as Hrun. rewrite H in Hrun.
  destruct Hrun as (evs & Hevs & ->). cbn [fst snd self world events cleared
    parse_status_ property_repository_ detected_type_ type_arg_ basic_output_
    full_output_ serial_number_].
  repeat split.
  - unfold notifications. cbn [events]. rewrite count_events_app.
    rewrite (only_debug_count is_notification evs); [lia | reflexivity | exact Hevs].
  - unfold executions. cbn [events]. rewrite count_events_app.
    rewrite (only_debug_count is_execution evs); [lia | reflexivity | exact Hevs].
Qed.

(** A device with cached facts, whose full output is then replaced by text no
    parser accepts. *)
Lemma parse_failure_reported_witness :
  let s0 := start picky_collaborators 0%nat
              (assign_full_output_ "smartctl 7.2 2020-12-30 r5155"
                 (new_device "/dev/sda" false)) in
  let s1 := snd (parse_full_data picky_collaborators SmartctlParserType.Ata
                   SmartctlOutputFormat.Text s0) in
  let s2 := with_self (assign_full_output_ "Segmentation fault" (self s1)) s1 in
  let r := run_entry picky_collaborators
             (FullEntry SmartctlParserType.Ata SmartctlOutputFormat.Text) s2 in
  fst r = Returned (Unexpected StorageDeviceError.ParseError
                      "Cannot parse smartctl output: No version information found")
  ∧ parse_status_ (self (snd r)) = ParseStatus.None.
Proof.
  intros s0 s1 s2 r.
  destruct (parse_failure_reported picky_collaborators
              (FullEntry SmartctlParserType.Ata SmartctlOutputFormat.Text) s2
              () "No version information found" eq_refl) as (H1 & H2 & _).
  split; [exact H1 | exact H2].
Defined.

(** C6 as stated fails: the failed attempt does not leave the previously
    cached state alone.  After a successful parse the device holds the disk's
    facts and model; a following attempt on unparsable output returns
    [ParseError] and the Fact Store and the cached model are gone. *)
Lemma parse_failure_discards_cached_state :
  let s0 := start picky_collaborators 0%nat
              (assign_full_output_ "smartctl 7.2 2020-12-30 r5155"
                 (new_device "/dev/sda" false)) in
  let s1 := snd (parse_full_data picky_collaborators SmartctlParserType.Ata
                   SmartctlOutputFormat.Text s0) in
  let s2 := with_self (assign_full_output_ "Segmentation fault" (self s1)) s1 in
  let r := parse_full_data picky_collaborators SmartctlParserType.Ata
             SmartctlOutputFormat.Text s2 in
  lookup_property (property_repository_ (self s2)) "model_name"
  = fact (VString "WDC WD5000AAKS-00V1A0")
  ∧ model_name_ (self s2) = Some "WDC WD5000AAKS-00V1A0"
  ∧ parse_status_ (self s2) = ParseStatus.Full
  ∧ fst r = Returned (Unexpected StorageDeviceError.ParseError
                        "Cannot parse smartctl output: No version information found")
  ∧ lookup_property (property_repository_ (self (snd r))) "model_name" = empty_property
  ∧ property_repository_ (self (snd r)) ≠ property_repository_ (self s2)
  ∧ model_name_ (self (snd r)) = None.
Proof.
  intros s0 s1 s2 r.
  split; [vm_compute; reflexivity |].
  split; [vm_compute; reflexivity |].
  split; [vm_compute; reflexivity |].
  split; [vm_compute; reflexivity |].
  split; [vm_compute; reflexivity |].
  split; [| vm_compute; reflexivity].
  intros Heq.
  apply (f_equal (λ repo, empty (lookup_property repo "model_name"))) in Heq.
  vm_compute in Heq. discriminate.
Qed.

(** * What the resolver and the reader of common properties leave alone *)

(** The frame of the computation on the left of an equation [m s = (o, s')],
    instantiated at that run. *)
Ltac frame_of H R :=
  match type of H with
  | ?m ?s = (_, _) =>
      let F := fresh "F" in
      assert (F : preserves R m) by frame;
      specialize (F s); rewrite H in F; cbn [snd] in F;
      unfold unchanged, no_new, same_world in F
  end.

Ltac split_bind H :=
  let a := fresh "a" in
  let s := fresh "s" in
  let H1 := fresh H in
  apply bind_returned in H as (a & s & H1 & H);
  try match type of a with unit => destruct a end.

Section MethodFrames.
Context {C : Collaborators}.
Implicit Types s : State C.

Lemma mret_returned {A} (a b : A) s s' :
  (mret a : M C A) s = (Returned b, s') -> a = b ∧ s = s'.
Proof. unfold mret, M_ret. intros [= -> ->]. auto. Qed.

Lemma read_common_properties_keeps {X} (member : StorageDevice -> X) :
  (∀ x d, member (assign_smart_supported_ x d) = member d) ->
  (∀ x d, member (assign_smart_enabled_ x d) = member d) ->
  (∀ x d, member (assign_model_name_ x d) = member d) ->
  (∀ x d, member (assign_family_name_ x d) = member d) ->
  (∀ x d, member (assign_serial_number_ x d) = member d) ->
  (∀ x d, member (assign_size_ x d) = member d) ->
  preserves (unchanged member) (read_common_properties C).
Proof.
  intros H1 H2 H3 H4 H5 H6. unfold read_common_properties.
  repeat first [ apply preserves_modify_unchanged; solve [auto] | frame_step ].
Qed.

Lemma read_common_properties_quiet p :
  preserves (no_new p) (read_common_properties C).
Proof. unfold read_common_properties. frame. Qed.

Lemma read_common_properties_same_world :
  preserves same_world (read_common_properties C).
Proof. unfold read_common_properties. frame. Qed.

Lemma detect_drive_type_keeps {X} (member : StorageDevice -> X) repo :
  (∀ x d, member (assign_detected_type_ x d) = member d) ->
  preserves (unchanged member) (detect_drive_type_from_properties C repo).
Proof.
  intros H. unfold detect_drive_type_from_properties.
  repeat first [ apply preserves_modify_unchanged; solve [auto] | frame_step ].
Qed.

Lemma detect_drive_type_quiet p repo :
  (∀ m, p (DebugOut m) = false) ->
  preserves (no_new p) (detect_drive_type_from_properties C repo).
Proof.
  intros H. unfold detect_drive_type_from_properties.
  repeat first [ apply preserves_emit_no_new; solve [auto] | frame_step ].
Qed.

Lemma detect_drive_type_same_world repo :
  preserves same_world (detect_drive_type_from_properties C repo).
Proof. unfold detect_drive_type_from_properties. frame. Qed.

End MethodFrames.

(** * Parse Status after a successful parse *)

Ltac mrun_in H :=
  erewrite bind_run in H by reflexivity;
  cbn [self world events with_self cleared basic_output_ full_output_] in H.

Ltac absurd_return H :=
  repeat split_bind H; apply mret_returned in H as [? _]; discriminate.

Section ParseStatusAfter.
Context {C : Collaborators}.
Implicit Types s : State C.

(** The model name found by the lookup chain of [read_common_properties]. *)
Lemma read_common_properties_model_name s s' :
  read_common_properties C s = (Returned (), s') ->
  let repo := property_repository_ (self s) in
  property_repository_ (self s') = repo
  ∧ match first_present repo "model_name" "scsi_model_name" with
    | Some p => ∃ v, value p = VString v ∧ model_name_ (self s') = Some v
    | None => model_name_ (self s') = model_name_ (self s)
    end.
Proof.
  intros H repo. subst repo.
  split.
  { pose proof (read_common_properties_keeps property_repository_
                  ltac:(reflexivity) ltac:(reflexivity) ltac:(reflexivity)
                  ltac:(reflexivity) ltac:(reflexivity) ltac:(reflexivity) s) as F.
    rewrite H in F. exact F. }
  unfold read_common_properties in H.
  split_bind H. split_bind H. split_bind H.
  frame_of H0 (unchanged (C:=C) model_name_).
  frame_of H0 (unchanged (C:=C) property_repository_).
  frame_of H1 (unchanged (C:=C) model_name_).
  frame_of H1 (unchanged (C:=C) property_repository_).
  frame_of H (unchanged (C:=C) model_name_).
  assert (Hrepo : property_repository_ (self s1) = property_repository_ (self s)) by congruence.
  assert (Hold : model_name_ (self s1) = model_name_ (self s)) by congruence.
  rewrite F3. clear - H2 Hrepo Hold.
  cbv beta iota zeta delta [lookup gets mbind M_bind mret M_ret get_value throw modify] in H2.
  rewrite <- Hrepo, <- Hold. unfold first_present, get_value_string in *.
  clear Hrepo Hold.
  destruct (empty (lookup_property (property_repository_ (self s1)) "model_name"));
    cbn [negb] in *; cbv beta iota in H2.
  - destruct (empty (lookup_property (property_repository_ (self s1)) "scsi_model_name"));
      cbn [negb] in *; cbv beta iota in H2.
    + injection H2 as <-. reflexivity.
    + destruct (value (lookup_property (property_repository_ (self s1)) "scsi_model_name"));
        try discriminate H2.
      injection H2 as <-. eexists. split; reflexivity.
  - destruct (value (lookup_property (property_repository_ (self s1)) "model_name"));
      try discriminate H2.
    injection H2 as <-. eexists. split; reflexivity.
Qed.

(** The closing steps of [parse_any_data_for_virtual]. *)
Lemma virtual_finish_status (repo : StoragePropertyRepository) s s' :
  (parse_status ← get_parse_status C;
   (if negb (bool_decide (parse_status = ParseStatus.Full)) then
      set_parse_status C ParseStatus.Basic;;
      detected ← get_detected_type C;
      set_property_repository C (process_properties C repo detected)
    else mret ());;
   signal_changed_emit C;;
   (mret (Ok ()) : M C (ExpectedVoid StorageDeviceError.t))) s
  = (Returned (Ok ()), s') ->
  parse_status_ (self s') = ParseStatus.Basic
  ∨ parse_status_ (self s') = ParseStatus.Full.
Proof.
  intros H. mrun_in H.
  destruct (parse_status_ (self s)) eqn:Hstatus; cbn [bool_decide negb] in H;
    cbv beta iota in H.
  - repeat mrun_in H. apply mret_returned in H as [_ <-]. left. reflexivity.
  - repeat mrun_in H. apply mret_returned in H as [_ <-]. left. reflexivity.
  - repeat mrun_in H. apply mret_returned in H as [_ <-]. right. exact Hstatus.
Qed.

(** C7, as amended. After [parse_full_data] returns success, Parse Status
    is [Basic] when the Basic-capability parser ran and [Full] when a
    family-specific parser ran.  After [parse_basic_data] returns success,
    Parse Status is [Basic] only if the stored facts hold a model name (under
    "model_name" or its alias "scsi_model_name"); without one it is [None],
    although the parse succeeded.  After [parse_any_data_for_virtual]
    returns success it is [Basic] or [Full]. *)
Theorem parse_status_after_success (e : ParseEntry) s s' :
  run_entry C e s = (Returned (Ok ()), s') ->
  match e with
  | BasicEntry =>
      parse_status_ (self s') =
      match first_present (property_repository_ (self s')) "model_name" "scsi_model_name" with
      | Some _ => ParseStatus.Basic
      | None => ParseStatus.None
      end
  | FullEntry parser_type _ =>
      parse_status_ (self s') =
      if bool_decide (parser_type = SmartctlParserType.Basic)
      then ParseStatus.Basic else ParseStatus.Full
  | VirtualEntry =>
      parse_status_ (self s') = ParseStatus.Basic
      ∨ parse_status_ (self s') = ParseStatus.Full
  end.
Proof.
  destruct e as [|parser_type format|]; unfold run_entry; intros H.
  - unfold parse_basic_data in H.
    rewrite (bind_run _ _ _ _ _ (clear_parse_results_run s)) in H. mrun_in H.
    split_bind H.
    assert (Hs0 : self s0 = cleared (self s)).
    { destruct (detect_output_format C (basic_output_ (self s))).
      - apply mret_returned in H0 as [_ <-]. reflexivity.
      - split_bind H0. apply mret_returned in H0 as [_ <-].
        injection H1 as <-. reflexivity. }
    clear H0.
    destruct (SmartctlParser_create C SmartctlParserType.Basic a) as [parser|];
      [| absurd_return H].
    mrun_in H.
    destruct (parser (basic_output_ (self s0))) as [repo|d m];
      [| apply mret_returned in H as [? _]; discriminate].
    split_bind H. frame_of H0 (unchanged (C:=C) model_name_).
    do 3 mrun_in H. split_bind H. do 3 mrun_in H.
    apply mret_returned in H as [_ <-].
    apply read_common_properties_model_name in H1 as [Hrepo Hmodel].
    cbn [self parse_status_ property_repository_ model_name_
         assign_parse_status_ assign_property_repository_] in *.
    rewrite Hrepo.
    destruct (first_present _ _ _) as [p|].
    + destruct Hmodel as (v & _ & ->). reflexivity.
    + rewrite Hmodel, F, Hs0. reflexivity.
  - unfold parse_full_data in H.
    rewrite (bind_run _ _ _ _ _ (clear_parse_results_run s)) in H.
    destruct (SmartctlParser_create C parser_type format) as [parser|];
      [| absurd_return H].
    mrun_in H.
    destruct (parser (full_output_ (self s))) as [repo|d m];
      [| apply mret_returned in H as [? _]; discriminate].
    mrun_in H. split_bind H.
    frame_of H0 (unchanged (C:=C) parse_status_).
    do 2 mrun_in H. split_bind H.
    pose proof (read_common_properties_keeps parse_status_
                  ltac:(reflexivity) ltac:(reflexivity) ltac:(reflexivity)
                  ltac:(reflexivity) ltac:(reflexivity) ltac:(reflexivity)
                  {| self := assign_property_repository_
                               (process_properties C repo (detected_type_ (self s0))) (self s0);
                     world := world s0; events := events s0 |}) as F1.
    rewrite H1 in F1. unfold unchanged in F1. cbn [snd self parse_status_
      assign_property_repository_] in F1.
    mrun_in H. apply mret_returned in H as [_ <-]. cbn [self].
    rewrite F1, F. reflexivity.
  - unfold parse_any_data_for_virtual in H.
    rewrite (bind_run _ _ _ _ _ (clear_parse_results_run s)) in H. mrun_in H.
    destruct (detect_output_format C (full_output_ (self s))) as [f|d m];
      [| apply mret_returned in H as [? _]; discriminate].
    destruct (SmartctlParser_create C SmartctlParserType.Basic f) as [parser|];
      [| apply mret_returned in H as [? _]; discriminate].
    mrun_in H.
    destruct (parser (full_output_ (self s))) as [repo|d m];
      [| apply mret_returned in H as [? _]; discriminate].
    split_bind H. do 2 mrun_in H. split_bind H. mrun_in H. cbv zeta in H.
    destruct (negb (bool_decide (get_default_parser_type C (detected_type_ (self s1))
                                 = SmartctlParserType.Basic)));
      [| exact (virtual_finish_status _ _ _ H)].
    destruct (SmartctlParser_create C _ f) as [parser'|]; [| absurd_return H].
    mrun_in H.
    destruct (parser' (full_output_ (self s1))) as [repo'|d m];
      [| exact (virtual_finish_status _ _ _ H)].
    do 3 mrun_in H. exact (virtual_finish_status _ _ _ H).
Qed.

End ParseStatusAfter.

(** The ATA disk of the scenario: the basic fetch succeeds, the resolver
    says [AtaHdd], and Parse Status is [Basic]. *)
Lemma parse_status_after_success_witness :
  let s := snd (fetch_basic_data_and_parse ata_hdd_collaborators 2
                  (start ata_hdd_collaborators 0%nat (new_device "/dev/sda" false))) in
  let s' := snd (run_entry ata_hdd_collaborators BasicEntry s) in
  run_entry ata_hdd_collaborators BasicEntry s = (Returned (Ok ()), s')
  ∧ parse_status_ (self s') = ParseStatus.Basic
  ∧ detected_type_ (self s') = StorageDeviceDetectedType.AtaHdd.
Proof.
  intros s s'.
  assert (Hfst : fst (run_entry ata_hdd_collaborators BasicEntry s) = Returned (Ok ()))
    by (vm_compute; reflexivity).
  assert (H : run_entry ata_hdd_collaborators BasicEntry s = (Returned (Ok ()), s'))
    by (rewrite <- Hfst; apply surjective_pairing).
  split; [exact H |].
  split; [| vm_compute; reflexivity].
  rewrite (parse_status_after_success BasicEntry s s' H).
  vm_compute. reflexivity.
Defined.

(** C7 as stated fails: a basic fetch whose parse succeeds on facts without a
    model name returns success, notifies the listeners, and leaves Parse
    Status at [None], not [Basic]. *)
Lemma successful_basic_parse_without_model :
  let r := fetch_basic_data_and_parse nameless_collaborators 2
             (start nameless_collaborators 0%nat (new_device "/dev/sdc" false)) in
  fst r = Returned (Ok ())
  ∧ lookup_property (property_repository_ (self (snd r))) "smart_support/available"
    = fact (VBool false)
  ∧ notifications (snd r) = 1%nat
  ∧ parse_status_ (self (snd r)) = ParseStatus.None
  ∧ parse_status_ (self (snd r)) ≠ ParseStatus.Basic.
Proof.
  intros r.
  split; [vm_compute; reflexivity |].
  split; [vm_compute; reflexivity |].
  split; [vm_compute; reflexivity |].
  split; [vm_compute; reflexivity |].
  intros H. vm_compute in H. discriminate H.
Qed.

(** * The lookup chains of [read_common_properties] *)

Section CommonProperties.
Context {C : Collaborators}.
Implicit Types s : State C.

(** The size chain: only the [_short] key is ever read into [size_]; the
    plain key "user_capacity/bytes" is looked up but its presence is never
    tested. *)
Lemma read_common_properties_size s s' :
  read_common_properties C s = (Returned (), s') ->
  let short := lookup_property (property_repository_ (self s)) "user_capacity/bytes/_short" in
  size_ (self s') = if negb (empty short) then Some (readable_value short) else size_ (self s).
Proof.
  intros H. unfold read_common_properties in H.
  do 5 split_bind H.
  frame_of H0 (unchanged (C:=C) size_). frame_of H0 (unchanged (C:=C) property_repository_).
  frame_of H1 (unchanged (C:=C) size_). frame_of H1 (unchanged (C:=C) property_repository_).
  frame_of H2 (unchanged (C:=C) size_). frame_of H2 (unchanged (C:=C) property_repository_).
  frame_of H3 (unchanged (C:=C) size_). frame_of H3 (unchanged (C:=C) property_repository_).
  frame_of H4 (unchanged (C:=C) size_). frame_of H4 (unchanged (C:=C) property_repository_).
  assert (Hrepo : property_repository_ (self s4) = property_repository_ (self s)) by congruence.
  assert (Hold : size_ (self s4) = size_ (self s)) by congruence.
  cbv zeta. rewrite <- Hrepo, <- Hold. clear - H.
  cbv beta iota zeta delta [lookup gets mbind M_bind mret M_ret modify] in H.
  destruct (empty (lookup_property (property_repository_ (self s4))
                     "user_capacity/bytes/_short"));
    cbn [negb] in *; cbv beta iota in H; injection H as <-; reflexivity.
Qed.

End CommonProperties.

(** C9, where the code departs from it. A repository that holds the capacity
    under the fallback key "user_capacity/bytes" only: [read_common_properties]
    returns and leaves the cached size unset. *)
Theorem capacity_fallback_key_ignored :
  let s := start needs_type_collaborators 0%nat
             (assign_property_repository_ capacity_only_facts
                (new_device "/dev/sda" false)) in
  let r := read_common_properties needs_type_collaborators s in
  empty (lookup_property capacity_only_facts "user_capacity/bytes/_short") = true
  ∧ lookup_property capacity_only_facts "user_capacity/bytes" = capacity_fact
  ∧ fst r = Returned ()
  ∧ size_ (self (snd r)) = None
  ∧ get_device_size_str (self (snd r)) = "".
Proof.
  intros s r. repeat split; vm_compute; reflexivity.
Qed.

(** The sibling chains do fall back: a USB flash drive gets its model and
    family from the SCSI alias keys. *)
Example model_and_family_fall_back :
  let s := start needs_type_collaborators 0%nat
             (assign_property_repository_ usb_flash_facts
                (new_device "/dev/sdd" false)) in
  let r := read_common_properties needs_type_collaborators s in
  fst r = Returned ()
  ∧ model_name_ (self (snd r)) = Some "DataTraveler 3.0"
  ∧ family_name_ (self (snd r)) = Some "Kingston".
Proof.
  intros s r. repeat split; vm_compute; reflexivity.
Qed.

(** * The type resolver *)

Ltac bool_decide_facts :=
  repeat match goal with
    | H : bool_decide _ = true |- _ => apply bool_decide_eq_true in H
    | H : bool_decide _ = false |- _ => apply bool_decide_eq_false in H
    | H : negb _ = true |- _ => apply negb_true_iff in H
    | H : negb _ = false |- _ => apply negb_false_iff in H
    end.

Ltac unfold_resolver :=
  cbv beta iota zeta delta
    [detect_drive_type_from_properties mbind M_bind mret M_ret get_value throw
     modify gets set_detected_type get_detected_type get_device_base debug_out emit
     get_value_string get_value_int64 empty
     resolver_facts_typed absent_or_string absent_or_int64
     by_rotation_rate structured_ata legacy_text_ata].

Ltac resolver_cases :=
  repeat (case_match;
          cbn [self world events fst snd detected_type_ assign_detected_type_
               negb andb orb] in *;
          try discriminate);
  simplify_eq;
  cbn [self world events fst snd detected_type_ assign_detected_type_
       negb andb orb] in *;
  bool_decide_facts.

Section Resolver.
Context {C : Collaborators}.
Implicit Types s : State C.

(** C4, as amended. On every fact repository on which it returns (and it
    returns whenever the facts it reads have their types), the resolver
    leaves a Detected Type other than [Unknown]: a type still [Unknown] after
    the heuristics becomes [BasicScsi], and no classification is ever turned
    back into [Unknown].  The other transient classification is not covered
    by the fallback: the type is [NeedsExplicitType] afterwards only if it was
    so before, or if the stored legacy-text name maps to it.  With no
    dialect fact at all, the type is kept, [Unknown] becoming [BasicScsi]. *)
Theorem resolver_never_leaves_unknown repo s :
  let r := detect_drive_type_from_properties C repo s in
  let before := detected_type_ (self s) in
  let after := detected_type_ (self (snd r)) in
  let legacy := lookup_property repo "_text_only/custom/parser_detected_drive_type" in
  (resolver_facts_typed repo = true -> fst r = Returned ())
  ∧ (fst r = Returned () ->
     after ≠ StorageDeviceDetectedType.Unknown
     ∧ (after = StorageDeviceDetectedType.NeedsExplicitType ->
        before = StorageDeviceDetectedType.NeedsExplicitType
        ∨ ∃ name, value legacy = VString name
                  ∧ get_by_storable_name C name StorageDeviceDetectedType.BasicScsi
                    = StorageDeviceDetectedType.NeedsExplicitType)
     ∧ (value legacy = monostate ->
        value (lookup_property repo "device/type") = monostate ->
        after = if bool_decide (before = StorageDeviceDetectedType.Unknown)
                then StorageDeviceDetectedType.BasicScsi else before)).
Proof.
  intros r before after legacy. subst r before after legacy.
  split.
  - unfold_resolver. resolver_cases. all: reflexivity.
  - unfold_resolver. resolver_cases.
    all: intros _; split; [congruence |]; split; [| intros; try discriminate; try congruence].
    all: try (intros Hafter; solve [ discriminate Hafter | left; congruence | right; eauto ]).
Qed.

(** C5, as amended. Provided the facts the resolver reads have the types it
    reads them at (the legacy drive type, [device/type] and [device/protocol]
    as strings, [rotation_rate] as an integer; a typed read of anything else
    throws): when the resolver reaches the ATA case of the structured
    dialect, or the ATA case of the legacy-text dialect while the structured
    dialect does not classify the drive (no [device/type] fact, or one that
    is none of the types the resolver knows), the resulting Detected Type
    follows the rotation rate: [AtaSsd] when the fact is absent or zero,
    [AtaHdd] when it is nonzero. *)
Theorem ata_disambiguation repo s :
  resolver_facts_typed repo = true ->
  structured_ata repo = true
  ∨ (legacy_text_ata C repo = true
     ∧ structured_type C repo (get_device_base_of (self s)) = None) ->
  let r := detect_drive_type_from_properties C repo s in
  fst r = Returned ()
  ∧ detected_type_ (self (snd r)) = by_rotation_rate repo.
Proof.
  intros Htyped Hreach r. subst r. revert Htyped Hreach.
  unfold structured_type.
  unfold_resolver. resolver_cases.
  all: repeat match goal with
         | H : context [get_device_base_of (assign_detected_type_ ?x ?d)] |- _ =>
             change (get_device_base_of (assign_detected_type_ x d))
               with (get_device_base_of d) in H
         end.
  all: intros _ [Hs | [Hl Hd]]; try discriminate; bool_decide_facts;
    try congruence; try (split; congruence).
  all: repeat match goal with
         | H : _ || _ = false |- _ => apply orb_false_iff in H as [? ?]
         | H : _ && _ = true |- _ => apply andb_true_iff in H as [? ?]
         end;
       repeat match goal with
         | H : _ || _ = true |- _ => apply orb_true_iff in H as [?|?]
         end;
       bool_decide_facts; try discriminate; try congruence.
Qed.

End Resolver.

(** C4 as stated fails: a device that is [NeedsExplicitType] when the
    resolver runs, and whose facts do not reclassify it, is still
    [NeedsExplicitType], a transient classification, when the resolver
    returns.  This is also how a whole basic fetch can end: a device added
    with an explicit type for which smartctl still asks for one. *)
Lemma needs_explicit_type_survives_resolver :
  let d := assign_detected_type_ StorageDeviceDetectedType.NeedsExplicitType
             (new_device "/dev/sdb" false) in
  let r := detect_drive_type_from_properties needs_type_collaborators nameless_facts
             (start needs_type_collaborators 0%nat d) in
  let r' := fetch_basic_data_and_parse stubborn_collaborators 2
              (start stubborn_collaborators 0%nat (new_device_with_type "/dev/sdb" "sat")) in
  fst r = Returned ()
  ∧ detected_type_ (self (snd r)) = StorageDeviceDetectedType.NeedsExplicitType
  ∧ fst r' = Returned (Ok ())
  ∧ detected_type_ (self (snd r')) = StorageDeviceDetectedType.NeedsExplicitType.
Proof.
  intros d r r'. repeat split; vm_compute; reflexivity.
Qed.

(** A device without dialect facts, not classified yet: [BasicScsi]. *)
Lemma resolver_never_leaves_unknown_witness :
  let s := start needs_type_collaborators 0%nat (new_device "/dev/sdb" false) in
  let r := detect_drive_type_from_properties needs_type_collaborators nameless_facts s in
  resolver_facts_typed nameless_facts = true
  ∧ fst r = Returned ()
  ∧ detected_type_ (self (snd r)) = StorageDeviceDetectedType.BasicScsi.
Proof.
  intros s r.
  assert (Htyped : resolver_facts_typed nameless_facts = true)
    by (vm_compute; reflexivity).
  destruct (resolver_never_leaves_unknown (C:=needs_type_collaborators) nameless_facts s)
    as [Hreturns Hafter].
  specialize (Hreturns Htyped). destruct (Hafter Hreturns) as (_ & _ & Hplain).
  split; [exact Htyped |]. split; [exact Hreturns |].
  subst r. rewrite Hplain; [reflexivity | vm_compute; reflexivity | vm_compute; reflexivity].
Defined.

(** The SATA SSD of the scenario: [device/type] is "sat", no rotation rate.
    And an ATA disk behind a RAID controller: the text dialect says ATA at
    7200 rpm, the [device/type] "megaraid" is not one the resolver knows and
    leaves that classification alone. *)
Lemma ata_disambiguation_witness :
  let s := start ata_hdd_collaborators 0%nat (new_device "/dev/sda" false) in
  let r := detect_drive_type_from_properties ata_hdd_collaborators sat_ssd_json_facts s in
  let r' := detect_drive_type_from_properties ata_hdd_collaborators raid_member_facts s in
  (resolver_facts_typed sat_ssd_json_facts = true
   ∧ structured_ata sat_ssd_json_facts = true
   ∧ fst r = Returned ()
   ∧ detected_type_ (self (snd r)) = StorageDeviceDetectedType.AtaSsd)
  ∧ (resolver_facts_typed raid_member_facts = true
     ∧ legacy_text_ata ata_hdd_collaborators raid_member_facts = true
     ∧ structured_type ata_hdd_collaborators raid_member_facts
         (get_device_base_of (self s)) = None
     ∧ fst r' = Returned ()
     ∧ detected_type_ (self (snd r')) = StorageDeviceDetectedType.AtaHdd).
Proof.
  intros s r r'. split.
  - assert (Htyped : resolver_facts_typed sat_ssd_json_facts = true)
      by (vm_compute; reflexivity).
    assert (Hreach : structured_ata sat_ssd_json_facts = true)
      by (vm_compute; reflexivity).
    destruct (ata_disambiguation (C:=ata_hdd_collaborators) sat_ssd_json_facts s
                Htyped (or_introl Hreach)) as [Hret Htype].
    split; [exact Htyped |]. split; [exact Hreach |]. split; [exact Hret |].
    subst r. rewrite Htype. vm_compute. reflexivity.
  - assert (Htyped : resolver_facts_typed raid_member_facts = true)
      by (vm_compute; reflexivity).
    assert (Hlegacy : legacy_text_ata ata_hdd_collaborators raid_member_facts = true)
      by (vm_compute; reflexivity).
    assert (Hnone : structured_type ata_hdd_collaborators raid_member_facts
                      (get_device_base_of (self s)) = None)
      by (vm_compute; reflexivity).
    destruct (ata_disambiguation (C:=ata_hdd_collaborators) raid_member_facts s
                Htyped (or_intror (conj Hlegacy Hnone))) as [Hret Htype].
    split; [exact Htyped |]. split; [exact Hlegacy |]. split; [exact Hnone |].
    split; [exact Hret |].
    subst r'. rewrite Htype. vm_compute. reflexivity.
Defined.

(** The ATA disk of the other scenario: the text parser says ATA and the
    rotation rate is 7200. *)
Example ata_hdd_by_rotation_rate :
  let r := detect_drive_type_from_properties ata_hdd_collaborators ata_hdd_text_facts
             (start ata_hdd_collaborators 0%nat (new_device "/dev/sda" false)) in
  legacy_text_ata ata_hdd_collaborators ata_hdd_text_facts = true
  ∧ lookup_property ata_hdd_text_facts "rotation_rate" = fact (VInt64 7200)
  ∧ detected_type_ (self (snd r)) = StorageDeviceDetectedType.AtaHdd.
Proof.
  intros r. repeat split; vm_compute; reflexivity.
Qed.

(** C5 as stated fails: the resolver reaches the ATA case of the legacy-text
    dialect (stored type [AtaAny], rotation rate 7200) and sets [AtaHdd], but
    the facts also hold a structured [device/type] of "nvme"; that check runs
    afterwards, and the resulting type is [Nvme]. *)
Lemma structured_type_overrides_legacy_ata :
  let r := detect_drive_type_from_properties ata_hdd_collaborators mixed_dialect_facts
             (start ata_hdd_collaborators 0%nat (new_device "/dev/sda" false)) in
  legacy_text_ata ata_hdd_collaborators mixed_dialect_facts = true
  ∧ lookup_property mixed_dialect_facts "rotation_rate" = fact (VInt64 7200)
  ∧ by_rotation_rate mixed_dialect_facts = StorageDeviceDetectedType.AtaHdd
  ∧ fst r = Returned ()
  ∧ detected_type_ (self (snd r)) = StorageDeviceDetectedType.Nvme
  ∧ detected_type_ (self (snd r)) ≠ StorageDeviceDetectedType.AtaHdd.
Proof.
  intros r.
  do 5 (split; [vm_compute; reflexivity |]).
  intros H. vm_compute in H. discriminate H.
Qed.

(** * The ambiguous-type retry *)

Section FuelFree.
Context {C : Collaborators}.

Lemma fuel_free_ret {A} (a : A) : fuel_free (mret a : M C A).
Proof. intros s. discriminate. Qed.

Lemma fuel_free_bind {A B} (m : M C A) (f : A -> M C B) :
  fuel_free m -> (∀ a, fuel_free (f a)) -> fuel_free (m ≫= f).
Proof.
  intros Hm Hf s. unfold mbind, M_bind.
  specialize (Hm s). destruct (m s) as [[a| |] s1]; simpl in *;
    [apply Hf | discriminate | congruence].
Qed.

Lemma fuel_free_gets {A} (f : StorageDevice -> A) : fuel_free (gets C f).
Proof. intros s. discriminate. Qed.

Lemma fuel_free_modify f : fuel_free (modify C f).
Proof. intros s. discriminate. Qed.

Lemma fuel_free_emit e : fuel_free (emit C e).
Proof. intros s. discriminate. Qed.

Lemma fuel_free_throw {A} e : fuel_free (throw C e : M C A).
Proof. intros s. discriminate. Qed.

Lemma fuel_free_get_value {A} (o : option A) : fuel_free (get_value C o).
Proof. destruct o; [apply fuel_free_ret | apply fuel_free_throw]. Qed.

Lemma fuel_free_lookup key : fuel_free (lookup C key).
Proof. apply fuel_free_bind; [apply fuel_free_gets | intros; apply fuel_free_ret]. Qed.

End FuelFree.

Ltac fuel_free_step :=
  first
    [ apply fuel_free_ret
    | apply fuel_free_gets
    | apply fuel_free_modify
    | apply fuel_free_emit
    | apply fuel_free_throw
    | apply fuel_free_get_value
    | apply fuel_free_lookup
    | apply fuel_free_bind; [ | intros ? ]
    | match goal with
      | |- fuel_free (if ?b then _ else _) => destruct b
      | |- fuel_free (match ?x with _ => _ end) => destruct x
      | |- fuel_free (let _ := _ in _) => cbv zeta
      end ].

Section BasicParse.
Context {C : Collaborators}.
Implicit Types s : State C.

Lemma parse_basic_data_fuel_free : fuel_free (parse_basic_data C).
Proof.
  unfold parse_basic_data, clear_parse_results, detect_drive_type_from_properties,
    read_common_properties.
  repeat fuel_free_step.
Qed.

Lemma parse_basic_data_keeps_type_argument :
  preserves (unchanged type_arg_) (parse_basic_data C).
Proof.
  unfold parse_basic_data, clear_parse_results, detect_drive_type_from_properties,
    read_common_properties.
  frame.
Qed.

Lemma parse_basic_data_no_retry : preserves (no_new is_retry) (parse_basic_data C).
Proof.
  unfold parse_basic_data, clear_parse_results, detect_drive_type_from_properties,
    read_common_properties.
  frame.
Qed.

Lemma parse_basic_data_no_execution : preserves (no_new is_execution) (parse_basic_data C).
Proof.
  unfold parse_basic_data, clear_parse_results, detect_drive_type_from_properties,
    read_common_properties.
  frame.
Qed.

Lemma parse_basic_data_same_world : preserves same_world (parse_basic_data C).
Proof.
  unfold parse_basic_data, clear_parse_results, detect_drive_type_from_properties,
    read_common_properties.
  frame.
Qed.

End BasicParse.

Ltac mrun_members :=
  cbn [self world events with_self cleared
       is_virtual_ virtual_file_ device_ type_arg_ extra_args_ detected_type_
       parse_status_ test_is_active_ basic_output_ full_output_ property_repository_
       smart_supported_ smart_enabled_ model_name_ family_name_ serial_number_ size_
       health_property_
       assign_type_arg_ assign_detected_type_ assign_parse_status_ assign_test_is_active_
       assign_basic_output_ assign_full_output_ assign_property_repository_
       assign_smart_supported_ assign_smart_enabled_ assign_model_name_
       assign_family_name_ assign_serial_number_ assign_size_ assign_health_property_].

Section Retry.
Context {C : Collaborators}.
Implicit Types s : State C.

Lemma executions_app s evs w d :
  executions (C:=C) {| self := d; world := w; events := events s ++ evs |}
  = (executions s + count_events is_execution evs)%nat.
Proof. unfold executions. cbn [events]. apply count_events_app. Qed.

Lemma retries_app s evs w d :
  retries (C:=C) {| self := d; world := w; events := events s ++ evs |}
  = (retries s + count_events is_retry evs)%nat.
Proof. unfold retries. cbn [events]. apply count_events_app. Qed.

Lemma is_retry_execute device o c : is_retry (ExecuteSmartctl device o c) = false.
Proof. reflexivity. Qed.

Lemma is_retry_not_clean : is_retry (DebugOut SmartctlNotExecutedCleanly) = false.
Proof. reflexivity. Qed.

(** An attempt on a real, idle device that has an override: one execution,
    no retry, then [parse_basic_data]; the recursion budget plays no part. *)
Lemma fetch_attempt_with_override s :
  is_virtual_ (self s) = false ->
  test_is_active_ (self s) = false ->
  type_arg_ (self s) ≠ "" ->
  ∃ s3,
    (∀ fuel, fetch_basic_data_and_parse C (S fuel) s = parse_basic_data C s3)
    ∧ type_arg_ (self s3) = type_arg_ (self s)
    ∧ retries s3 = retries s
    ∧ executions s3 = S (executions s).
Proof.
  intros Hreal Hidle Harg.
  assert (Hget : get_test_is_active C s = (Returned false, s))
    by (unfold get_test_is_active, gets; rewrite Hidle; reflexivity).
  destruct (execute_smartctl C (world s) (device_ (self s)) (device_options C (self s))
              (basic_command_options C) "") as [[w status] out] eqn:Hexec.
  destruct status as [[]|data message];
    [| destruct (bool_decide (detected_type_ (self s) = StorageDeviceDetectedType.Unknown))
         eqn:Hunknown;
       destruct (app_regex_partial_match C "/specify device type with the -d option/mi" out)
         eqn:Hregex ].
  all: eexists; split;
    [ intros fuel; cbn [fetch_basic_data_and_parse];
      rewrite (bind_run _ _ _ _ _ Hget); cbv beta iota zeta;
      do 3 mrun;
      match goal with
      | |- context [mbind _ (execute_device_smartctl C ?cmds ?buf true) ?st] =>
          pose proof (execute_device_smartctl_real cmds buf true st w _ out Hreal Hexec)
            as Hrun
      end;
      cbv beta iota zeta in Hrun; rewrite (bind_run _ _ _ _ _ Hrun); clear Hrun;
      cbv beta iota zeta; do 3 mrun; mrun_members;
      rewrite ?Hunknown, ?Hregex; cbn [andb]; cbv beta iota; mrun_members;
      rewrite (bool_decide_eq_false_2 _ Harg), andb_false_r;
      reflexivity
    | mrun_members;
      rewrite <- ?(assoc_L (++));
      rewrite retries_app, executions_app; cbn [count_events is_execution app];
      rewrite is_retry_execute, ?is_retry_not_clean;
      repeat split; lia ].
Qed.

(** The first attempt on a fresh device for which smartctl asks for a type:
    it ends in the recursive call, made with the override set. *)
Lemma fetch_first_attempt_retries fuel s :
  always_needs_type C ->
  is_virtual_ (self s) = false ->
  test_is_active_ (self s) = false ->
  type_arg_ (self s) = "" ->
  detected_type_ (self s) = StorageDeviceDetectedType.Unknown
  ∨ detected_type_ (self s) = StorageDeviceDetectedType.NeedsExplicitType ->
  ∃ s2,
    fetch_basic_data_and_parse C (S fuel) s = fetch_basic_data_and_parse C fuel s2
    ∧ type_arg_ (self s2) = "scsi"
    ∧ detected_type_ (self s2) = StorageDeviceDetectedType.BasicScsi
    ∧ is_virtual_ (self s2) = false
    ∧ test_is_active_ (self s2) = false
    ∧ retries s2 = S (retries s)
    ∧ executions s2 = S (executions s).
Proof.
  intros Hdiag Hreal Hidle Harg Htype.
  assert (Hget : get_test_is_active C s = (Returned false, s))
    by (unfold get_test_is_active, gets; rewrite Hidle; reflexivity).
  destruct (Hdiag (world s) (device_ (self s)) (device_options C (self s))
              (basic_command_options C) "") as (w & data & message & out & Hexec & Hregex).
  destruct Htype as [Htype | Htype].
  all: eexists; split;
    [ cbn [fetch_basic_data_and_parse];
      rewrite (bind_run _ _ _ _ _ Hget); cbv beta iota zeta;
      do 3 mrun;
      match goal with
      | |- context [mbind _ (execute_device_smartctl C ?cmds ?buf true) ?st] =>
          pose proof (execute_device_smartctl_real cmds buf true st w _ out Hreal Hexec)
            as Hrun
      end;
      cbv beta iota zeta in Hrun; rewrite (bind_run _ _ _ _ _ Hrun); clear Hrun;
      cbv beta iota zeta; do 3 mrun; mrun_members;
      rewrite Hregex, Htype;
      change (bool_decide (StorageDeviceDetectedType.Unknown
                           = StorageDeviceDetectedType.Unknown)) with true;
      change (bool_decide (StorageDeviceDetectedType.NeedsExplicitType
                           = StorageDeviceDetectedType.Unknown)) with false;
      cbn [andb]; cbv beta iota; mrun_members; rewrite ?Htype, Harg;
      change (bool_decide (StorageDeviceError.ExecutionError
                           = StorageDeviceError.ExecutionError)) with true;
      change (bool_decide (StorageDeviceDetectedType.NeedsExplicitType
                           = StorageDeviceDetectedType.NeedsExplicitType)) with true;
      change (bool_decide ("" = "")) with true;
      cbn [andb]; cbv beta iota;
      do 3 mrun; reflexivity
    | mrun_members;
      rewrite <- ?(assoc_L (++));
      rewrite retries_app, executions_app; cbn [count_events is_execution app];
      rewrite is_retry_execute, is_retry_not_clean;
      change (is_retry (DebugOut TryingAgainWithScsi)) with true;
      repeat split; try assumption; lia ].
Qed.

(** C1, as amended. Take a real device with the test flag clear, no
    override yet, and a Detected Type still [Unknown] (or already
    [NeedsExplicitType]), whose executor always fails with the "specify device
    type" diagnostic.  Then one invocation of [fetch_basic_data_and_parse]
    retries exactly once: the first attempt ends in the recursive call, made
    with override "scsi" and Detected Type [BasicScsi]; the second attempt
    makes no recursive call (it needs no recursion budget) because its
    override is not empty.  The invocation ends within the budget after two
    executions and one retry, with override "scsi". *)
Theorem single_retry fuel s :
  always_needs_type C ->
  is_virtual_ (self s) = false ->
  test_is_active_ (self s) = false ->
  type_arg_ (self s) = "" ->
  detected_type_ (self s) = StorageDeviceDetectedType.Unknown
  ∨ detected_type_ (self s) = StorageDeviceDetectedType.NeedsExplicitType ->
  let r := fetch_basic_data_and_parse C (S (S fuel)) s in
  ∃ s2,
    fetch_basic_data_and_parse C (S (S fuel)) s = fetch_basic_data_and_parse C (S fuel) s2
    ∧ type_arg_ (self s2) = "scsi"
    ∧ detected_type_ (self s2) = StorageDeviceDetectedType.BasicScsi
    ∧ retries s2 = S (retries s)
    ∧ fetch_basic_data_and_parse C (S fuel) s2 = fetch_basic_data_and_parse C 1 s2
    ∧ fst r ≠ OutOfFuel
    ∧ retries (snd r) = S (retries s)
    ∧ executions (snd r) = S (S (executions s))
    ∧ type_arg_ (self (snd r)) = "scsi".
Proof.
  intros Hdiag Hreal Hidle Harg Htype r. subst r.
  destruct (fetch_first_attempt_retries (S fuel) s Hdiag Hreal Hidle Harg Htype)
    as (s2 & Hfirst & Harg2 & Htype2 & Hreal2 & Hidle2 & Hretries2 & Hexecutions2).
  destruct (fetch_attempt_with_override s2 Hreal2 Hidle2)
    as (s3 & Hsecond & Harg3 & Hretries3 & Hexecutions3);
    [rewrite Harg2; discriminate |].
  exists s2. rewrite Hfirst, !Hsecond.
  pose proof (parse_basic_data_fuel_free (C:=C) s3) as Hfuel.
  pose proof (parse_basic_data_no_retry (C:=C) s3) as Hquiet.
  pose proof (parse_basic_data_no_execution (C:=C) s3) as Hquiet'.
  pose proof (parse_basic_data_keeps_type_argument (C:=C) s3) as Hkeeps.
  unfold no_new, unchanged in *. unfold retries, executions in *.
  repeat split; try assumption; try congruence; try lia.
Qed.

(** Any attempt, on any device: it is refused, or it goes on to
    [parse_basic_data] without retrying, or it retries with the override
    set. *)
Lemma fetch_attempt_cases s :
  (∀ fuel, fetch_basic_data_and_parse C (S fuel) s = (Returned test_running, s))
  ∨ (∃ s3, (∀ fuel, fetch_basic_data_and_parse C (S fuel) s = parse_basic_data C s3)
           ∧ retries s3 = retries s)
  ∨ (∃ s2, (∀ fuel, fetch_basic_data_and_parse C (S fuel) s
                    = fetch_basic_data_and_parse C fuel s2)
           ∧ type_arg_ (self s) = ""
           ∧ type_arg_ (self s2) = "scsi"
           ∧ is_virtual_ (self s2) = false
           ∧ test_is_active_ (self s2) = false
           ∧ retries s2 = S (retries s)).
Proof.
  destruct (test_is_active_ (self s)) eqn:Hidle.
  { left. intros fuel. cbn [fetch_basic_data_and_parse].
    assert (Hget : get_test_is_active C s = (Returned true, s))
      by (unfold get_test_is_active, gets; rewrite Hidle; reflexivity).
    rewrite (bind_run _ _ _ _ _ Hget). reflexivity. }
  right.
  assert (Hget : get_test_is_active C s = (Returned false, s))
    by (unfold get_test_is_active, gets; rewrite Hidle; reflexivity).
  destruct (is_virtual_ (self s)) eqn:Hreal.
  { left. eexists. split.
    - intros fuel. cbn [fetch_basic_data_and_parse].
      rewrite (bind_run _ _ _ _ _ Hget). cbv beta iota zeta. do 3 mrun.
      match goal with
      | |- context [mbind _ (execute_device_smartctl C ?cmds ?buf true) ?st] =>
          rewrite (bind_run _ _ _ _ _ (execute_device_smartctl_virtual cmds buf true st Hreal))
      end.
      cbv beta iota zeta. do 3 mrun. mrun_members.
      change (bool_decide (StorageDeviceError.CannotExecuteOnVirtual
                           = StorageDeviceError.ExecutionError)) with false.
      cbn [andb]. reflexivity.
    - rewrite retries_app.
      change (count_events is_retry [DebugOut NoExecuteOnVirtual]) with 0%nat. lia. }
  destruct (decide (type_arg_ (self s) = "")) as [Harg | Harg].
  2: { left. destruct (fetch_attempt_with_override s Hreal Hidle Harg)
         as (s3 & Hs3 & _ & Hretries & _). eauto. }
  destruct (execute_smartctl C (world s) (device_ (self s)) (device_options C (self s))
              (basic_command_options C) "") as [[w status] out] eqn:Hexec.
  destruct (bool_decide (detected_type_ (self s) = StorageDeviceDetectedType.NeedsExplicitType))
    eqn:Hneeds;
  destruct (bool_decide (detected_type_ (self s) = StorageDeviceDetectedType.Unknown))
    eqn:Hunknown;
  destruct (app_regex_partial_match C "/specify device type with the -d option/mi" out)
    eqn:Hregex;
  destruct status as [[]|data message].
  all: try (apply bool_decide_eq_true in Hneeds; apply bool_decide_eq_true in Hunknown;
            congruence).
  all: let run :=
         (intros fuel; cbn [fetch_basic_data_and_parse];
          rewrite (bind_run _ _ _ _ _ Hget); cbv beta iota zeta;
          do 3 mrun;
          match goal with
          | |- context [mbind _ (execute_device_smartctl C ?cmds ?buf true) ?st] =>
              pose proof (execute_device_smartctl_real cmds buf true st w _ out Hreal Hexec)
                as Hrun
          end;
          cbv beta iota zeta in Hrun; rewrite (bind_run _ _ _ _ _ Hrun); clear Hrun;
          cbv beta iota zeta; do 3 mrun; mrun_members;
          rewrite ?Hunknown, ?Hregex; cbn [andb]; cbv beta iota; mrun_members;
          rewrite ?Hneeds, ?Harg;
          change (bool_decide (StorageDeviceError.ExecutionError
                               = StorageDeviceError.ExecutionError)) with true;
          change (bool_decide (StorageDeviceDetectedType.NeedsExplicitType
                               = StorageDeviceDetectedType.NeedsExplicitType)) with true;
          change (bool_decide ("" = "")) with true;
          cbn [andb]; cbv beta iota;
          repeat mrun; reflexivity) in
       let count :=
         (mrun_members;
          rewrite <- ?(assoc_L (++));
          rewrite retries_app; cbn [count_events app];
          rewrite is_retry_execute, ?is_retry_not_clean;
          change (is_retry (DebugOut TryingAgainWithScsi)) with true;
          repeat split; try assumption; lia) in
       first
         [ left; eexists; split; [ run | count ]
         | right; eexists; split; [ run | count ] ].
Qed.

(** Whatever the device and the executor, a budget of two is never
    exhausted, more budget changes nothing, and the retry fires at most
    once. *)
Lemma retry_at_most_once fuel s :
  let r := fetch_basic_data_and_parse C (S (S fuel)) s in
  fst r ≠ OutOfFuel
  ∧ r = fetch_basic_data_and_parse C 2 s
  ∧ (retries s <= retries (snd r) <= S (retries s))%nat.
Proof.
  intros r. subst r.
  destruct (fetch_attempt_cases s) as [Hrefused | [(s3 & Hs3 & Hretries) | Hretry]].
  - rewrite !Hrefused. cbn [fst snd]. repeat split; [discriminate | lia | lia].
  - rewrite !Hs3.
    pose proof (parse_basic_data_fuel_free (C:=C) s3) as Hfuel.
    pose proof (parse_basic_data_no_retry (C:=C) s3) as Hquiet.
    unfold no_new, retries in *. repeat split; [assumption | lia | lia].
  - destruct Hretry as (s2 & Hs2 & _ & Harg2 & Hreal2 & Hidle2 & Hretries2).
    destruct (fetch_attempt_with_override s2 Hreal2 Hidle2)
      as (s3 & Hs3 & _ & Hretries3 & _); [rewrite Harg2; discriminate |].
    rewrite !Hs2, !Hs3.
    pose proof (parse_basic_data_fuel_free (C:=C) s3) as Hfuel.
    pose proof (parse_basic_data_no_retry (C:=C) s3) as Hquiet.
    unfold no_new, retries in *. repeat split; [assumption | lia | lia].
Qed.

End Retry.

Lemma needs_type_collaborators_always : always_needs_type needs_type_collaborators.
Proof.
  intros w device device_opts command_opts buffer.
  exists (S w), (), "Smartctl exited with an error", needs_type_output.
  split; [reflexivity | vm_compute; reflexivity].
Qed.

(** A fresh device behind a USB bridge smartctl cannot identify. *)
Lemma single_retry_witness :
  let s := start needs_type_collaborators 0%nat (new_device "/dev/sdb" false) in
  let r := fetch_basic_data_and_parse needs_type_collaborators 2 s in
  always_needs_type needs_type_collaborators
  ∧ is_virtual_ (self s) = false
  ∧ test_is_active_ (self s) = false
  ∧ type_arg_ (self s) = ""
  ∧ detected_type_ (self s) = StorageDeviceDetectedType.Unknown
  ∧ fst r ≠ OutOfFuel
  ∧ retries (snd r) = 1%nat
  ∧ executions (snd r) = 2%nat
  ∧ type_arg_ (self (snd r)) = "scsi".
Proof.
  intros s r.
  destruct (single_retry (C:=needs_type_collaborators) 0 s
              needs_type_collaborators_always eq_refl eq_refl eq_refl (or_introl eq_refl))
    as (s2 & _ & _ & _ & _ & _ & Hfuel & Hretries & Hexecutions & Harg).
  split; [exact needs_type_collaborators_always |].
  do 4 (split; [reflexivity |]).
  split; [exact Hfuel |]. split; [exact Hretries |]. split; [exact Hexecutions | exact Harg].
Defined.

(** The run of the witness, event by event. *)
Example needs_type_first_fetch :
  let r := fetch_basic_data_and_parse needs_type_collaborators 2
             (start needs_type_collaborators 0%nat (new_device "/dev/sdb" false)) in
  detected_type_ (self (snd r)) = StorageDeviceDetectedType.BasicScsi
  ∧ world (snd r) = 2%nat
  ∧ events (snd r) =
      [ExecuteSmartctl "/dev/sdb" [] ["--info"; "--health"; "--capabilities"];
       DebugOut SmartctlNotExecutedCleanly;
       DebugOut TryingAgainWithScsi;
       ExecuteSmartctl "/dev/sdb" ["-d"; "scsi"] ["--info"; "--health"; "--capabilities"];
       DebugOut SmartctlNotExecutedCleanly].
Proof. intros r. repeat split; vm_compute; reflexivity. Qed.

(** C1 as stated fails: not every real device whose executor always
    answers with the diagnostic retries once per invocation.  Fetching the
    device of the witness a second time does not retry at all, since the
    override is already "scsi"; and a device added with an explicit type
    ("sat") never retries and keeps its override. *)
Lemma retry_not_once_per_invocation :
  let s0 := start needs_type_collaborators 0%nat (new_device "/dev/sdb" false) in
  let s1 := snd (fetch_basic_data_and_parse needs_type_collaborators 2 s0) in
  let s2 := snd (fetch_basic_data_and_parse needs_type_collaborators 2 s1) in
  let r := fetch_basic_data_and_parse needs_type_collaborators 2
             (start needs_type_collaborators 0%nat (new_device_with_type "/dev/sdb" "sat")) in
  always_needs_type needs_type_collaborators
  ∧ is_virtual_ (self s1) = false
  ∧ retries s1 = 1%nat
  ∧ retries s2 = retries s1
  ∧ executions s2 = S (executions s1)
  ∧ retries (snd r) = 0%nat
  ∧ executions (snd r) = 1%nat
  ∧ type_arg_ (self (snd r)) = "sat"
  ∧ type_arg_ (self (snd r)) ≠ "scsi".
Proof.
  intros s0 s1 s2 r.
  split; [exact needs_type_collaborators_always |].
  do 7 (split; [vm_compute; reflexivity |]).
  intros H. vm_compute in H. discriminate H.
Qed.

(** * Parse attempts that return an error *)

Section FailedParse.
Context {C : Collaborators}.
Implicit Types s : State C.

(** [parse_basic_data] and [parse_full_data] return no error once their
    parser has accepted the buffer. *)
Lemma accepted_parse_returns_no_error (e : ParseEntry) s repo error message s' :
  e ≠ VirtualEntry ->
  selected_parse C e (self s) = Some (Ok repo) ->
  run_entry C e s = (Returned (Unexpected error message), s') ->
  False.
Proof.
  intros Hentry Hselected H.
  destruct e as [|parser_type format|]; [| | congruence];
    unfold selected_parse in Hselected; unfold run_entry in H.
  - unfold parse_basic_data in H.
    rewrite (bind_run _ _ _ _ _ (clear_parse_results_run s)) in H. mrun_in H.
    destruct (detect_output_format C (basic_output_ (self s))) as [f|d m];
      cbv zeta in Hselected; repeat mrun_in H.
    all: match type of Hselected with
         | context [SmartctlParser_create C ?t ?f] =>
             destruct (SmartctlParser_create C t f) as [parser|];
               [| discriminate Hselected]
         end.
    all: cbn [mbind option_bind] in Hselected; injection Hselected as Hselected.
    all: mrun_in H; rewrite Hselected in H.
    all: repeat split_bind H; apply mret_returned in H as [H _]; discriminate H.
  - unfold parse_full_data in H.
    rewrite (bind_run _ _ _ _ _ (clear_parse_results_run s)) in H.
    destruct (SmartctlParser_create C parser_type format) as [parser|];
      [| discriminate Hselected].
    cbn [mbind option_bind] in Hselected; injection Hselected as Hselected.
    mrun_in H; rewrite Hselected in H.
    repeat split_bind H; apply mret_returned in H as [H _]; discriminate H.
Qed.

End FailedParse.

(** C10, as amended. Every parse entry point begins with
    [clear_parse_results], which empties the property repository, resets
    Parse Status to [None] and resets the cached smart-supported,
    smart-enabled, model, family, size and health values; what the entry
    point does never depends on their old values.  When [parse_basic_data]
    or [parse_full_data] returns an error, and when
    [parse_any_data_for_virtual] returns one without its Basic parser having
    accepted the output, the error is [ParseError] and the device is exactly
    the cleared one: empty Fact Store and reset caches, not the state from
    before the call. *)
Theorem failed_parse_leaves_cleared_device (C : Collaborators) (e : ParseEntry)
    (s : State C) (error : StorageDeviceError.t) (message : string) :
  fst (run_entry C e s) = Returned (Unexpected error message) ->
  (e = VirtualEntry -> ∀ repo, selected_parse C e (self s) ≠ Some (Ok repo)) ->
  let r := run_entry C e s in
  clear_parse_results C s = (Returned (), with_self (cleared (self s)) s)
  ∧ run_entry C e s = run_entry C e (with_self (cleared (self s)) s)
  ∧ error = StorageDeviceError.ParseError
  ∧ self (snd r) = cleared (self s)
  ∧ property_repository_ (self (snd r)) = ∅
  ∧ parse_status_ (self (snd r)) = ParseStatus.None
  ∧ smart_supported_ (self (snd r)) = None
  ∧ smart_enabled_ (self (snd r)) = None
  ∧ model_name_ (self (snd r)) = None
  ∧ family_name_ (self (snd r)) = None
  ∧ size_ (self (snd r)) = None
  ∧ health_property_ (self (snd r)) = None.
Proof.
  intros Hfailed Hvirtual r.
  split; [apply clear_parse_results_run |].
  split; [apply run_entry_clears_first |].
  assert (Hfirst : ∀ repo, selected_parse C e (self s) ≠ Some (Ok repo)).
  { intros repo Hselected.
    assert (e = VirtualEntry ∨ e ≠ VirtualEntry) as [Hentry | Hentry]
      by (destruct e; [right | right | left]; congruence);
      [exact (Hvirtual Hentry repo Hselected) |].
    apply (accepted_parse_returns_no_error e s repo error message (snd (run_entry C e s))
             Hentry Hselected).
    rewrite <- Hfailed. apply surjective_pairing. }
  assert (∃ message' evs, run_entry C e s =
            (Returned (Unexpected StorageDeviceError.ParseError message'),
             {| self := cleared (self s); world := world s; events := events s ++ evs |}))
    as (message' & evs & Hrun).
  { pose proof (run_entry_first_parse e s) as H.
    destruct (selected_parse C e (self s)) as [[repo|data message']|].
    - exfalso. exact (Hfirst repo eq_refl).
    - destruct H as (evs & _ & H). eauto.
    - destruct H as (message' & evs & _ & H). eauto. }
  subst r. rewrite Hrun in Hfailed |- *. cbn [fst snd self] in *.
  split; [congruence |]. repeat split.
Qed.

(** A disk parsed in full, then parsed again from output the parser
    rejects. *)
Lemma failed_parse_leaves_cleared_device_witness :
  let s0 := start picky_collaborators 0%nat
              (assign_full_output_ "smartctl 7.2 2020-12-30 r5155"
                 (new_device "/dev/sda" false)) in
  let s1 := snd (parse_full_data picky_collaborators SmartctlParserType.Ata
                   SmartctlOutputFormat.Text s0) in
  let s2 := with_self (assign_full_output_ "Segmentation fault" (self s1)) s1 in
  let r := run_entry picky_collaborators
             (FullEntry SmartctlParserType.Ata SmartctlOutputFormat.Text) s2 in
  model_name_ (self s2) = Some "WDC WD5000AAKS-00V1A0"
  ∧ fst r = Returned (Unexpected StorageDeviceError.ParseError
                        "Cannot parse smartctl output: No version information found")
  ∧ model_name_ (self (snd r)) = None
  ∧ property_repository_ (self (snd r)) = ∅.
Proof.
  intros s0 s1 s2 r.
  split; [vm_compute; reflexivity |].
  assert (Hfailed : fst r = Returned (Unexpected StorageDeviceError.ParseError
                      "Cannot parse smartctl output: No version information found"))
    by (vm_compute; reflexivity).
  destruct (failed_parse_leaves_cleared_device picky_collaborators
              (FullEntry SmartctlParserType.Ata SmartctlOutputFormat.Text) s2 _ _ Hfailed
              ltac:(intros H; discriminate H))
    as (_ & _ & _ & _ & Hrepo & _ & _ & _ & Hmodel & _).
  split; [exact Hfailed |]. split; [exact Hmodel | exact Hrepo].
Defined.

(** C10 as stated fails: not every failed parse attempt leaves an empty
    Fact Store and reset caches.  Loading a saved output of an ATA disk where
    no ATA parser can be created, [parse_any_data_for_virtual] stores the
    facts of the Basic parser and reads the common properties from them, and
    only then returns [ParseError]: the Fact Store and the cached model are
    there, under Parse Status [None]. *)
Lemma failed_virtual_parse_keeps_basic_facts :
  let s := start basic_only_collaborators 0%nat loaded_capture in
  let r := run_entry basic_only_collaborators VirtualEntry s in
  fst r = Returned (Unexpected StorageDeviceError.ParseError "Cannot create parser.")
  ∧ parse_status_ (self (snd r)) = ParseStatus.None
  ∧ detected_type_ (self (snd r)) = StorageDeviceDetectedType.AtaHdd
  ∧ lookup_property (property_repository_ (self (snd r))) "model_name"
    = fact (VString "WDC WD5000AAKS-00V1A0")
  ∧ model_name_ (self (snd r)) = Some "WDC WD5000AAKS-00V1A0"
  ∧ property_repository_ (self (snd r)) ≠ ∅
  ∧ self (snd r) ≠ cleared (self s).
Proof.
  intros s r.
  do 5 (split; [vm_compute; reflexivity |]).
  split.
  - intros Heq.
    apply (f_equal (λ repo, empty (lookup_property repo "model_name"))) in Heq.
    vm_compute in Heq. discriminate.
  - intros Heq. apply (f_equal model_name_) in Heq. vm_compute in Heq. discriminate.
Qed.

(** * Device names *)

Lemma after_last_slash_spec (s : string) :
  match after_last_slash s with
  | Some t => no_slash t = true ∧ ∃ dir, s = dir +:+ String "/"%char t
  | None => no_slash s = true
  end.
Proof.
  induction s as [|c r IH]; simpl; [reflexivity |].
  destruct (after_last_slash r) as [t|].
  - destruct IH as [Ht [dir ->]]. split; [exact Ht |]. exists (String c dir). reflexivity.
  - destruct (bool_decide (c = "/"%char)) eqn:Hc.
    + apply bool_decide_eq_true in Hc as ->. split; [exact IH |]. exists "". reflexivity.
    + simpl. exact IH.
Qed.

(** The base name of a device never contains a slash, and the device name
    is that base name, or ends in a slash followed by it; a virtual device has
    the empty base name. *)
Theorem get_device_base_is_basename (d : StorageDevice) :
  let base := get_device_base_of d in
  no_slash base = true
  ∧ if is_virtual_ d then base = ""
    else device_ d = base ∨ ∃ dir, device_ d = dir +:+ String "/"%char base.
Proof.
  unfold get_device_base_of. destruct (is_virtual_ d); [split; reflexivity |].
  pose proof (after_last_slash_spec (device_ d)) as H.
  destruct (after_last_slash (device_ d)) as [t|]; simpl.
  - destruct H as [Ht Hdir]. split; [exact Ht | right; exact Hdir].
  - split; [exact H | left; reflexivity].
Qed.

Ltac mstep := erewrite bind_run by reflexivity; mrun_members.

(** Evaluate the event counts of explicit event lists. *)
Ltac count_closed :=
  repeat match goal with
    | |- context [count_events ?p (?e :: ?l)] =>
        let v := eval vm_compute in (count_events p (e :: l)) in
        change (count_events p (e :: l)) with v
    | |- context [count_events ?p []] =>
        change (count_events p []) with 0%nat
    end.

(** * The Test-Active flag *)

(** [set_test_is_active] stores the flag and notifies the listeners exactly
    when the value changes; setting the value the flag already has is silent,
    so a repeated set notifies once at most. *)
Theorem set_test_is_active_notifies_on_change (C : Collaborators) (b : bool) (s : State C) :
  let r := set_test_is_active C b s in
  fst r = Returned ()
  ∧ self (snd r) = assign_test_is_active_ b (self s)
  ∧ world (snd r) = world s
  ∧ events (snd r)
    = (events s ++ if bool_decide (test_is_active_ (self s) = b) then [] else [SignalChanged])%list
  ∧ events (snd (set_test_is_active C b (snd r))) = events (snd r).
Proof.
  unfold set_test_is_active. mstep. mstep.
  destruct (test_is_active_ (self s)), b; cbn -[app]; rewrite ?app_nil_r; repeat split.
Qed.

(** * Requests that reach, or do not reach, the executor *)

Section Requests.
Context {C : Collaborators}.
Implicit Types s : State C.

Lemma notifications_app s evs w d :
  notifications (C:=C) {| self := d; world := w; events := events s ++ evs |}
  = (notifications s + count_events is_notification evs)%nat.
Proof. unfold notifications. cbn [events]. apply count_events_app. Qed.

Lemma get_test_is_active_run s :
  get_test_is_active C s = (Returned (test_is_active_ (self s)), s).
Proof. reflexivity. Qed.

(** [set_smart_enabled] asks smartctl and changes nothing locally: whatever
    the outcome, the device object is as before and no listener is notified.
    On an idle real device it runs exactly one process, with the "on" or the
    "off" command line, and a failed execution comes back as
    [ExecutionError] with the executor's message; a device under test or a
    virtual device runs none. *)
Theorem set_smart_enabled_is_a_request (b : bool) s :
  let r := set_smart_enabled C b s in
  let command := if b then ["--smart=on"; "--saveauto=on"] else ["--smart=off"] in
  self (snd r) = self s
  ∧ notifications (snd r) = notifications s
  ∧ if test_is_active_ (self s) || is_virtual_ (self s)
    then executions (snd r) = executions s ∧ world (snd r) = world s
    else
      let '(w, status, output) :=
        execute_smartctl C (world s) (device_ (self s)) (device_options C (self s))
          command "" in
      world (snd r) = w
      ∧ executions (snd r) = S (executions s)
      ∧ (∃ debug, only_debug debug
           ∧ events (snd r)
             = (events s ++ ExecuteSmartctl (device_ (self s)) (device_options C (self s))
                              command :: debug)%list)
      ∧ match status with
        | Unexpected _ message =>
            fst r = Returned (Unexpected StorageDeviceError.ExecutionError message)
        | Ok _ => True
        end.
Proof.
  intros r command. subst r. unfold set_smart_enabled.
  rewrite (bind_run _ _ _ _ _ (get_test_is_active_run s)).
  destruct (test_is_active_ (self s)) eqn:Hidle; cbn [orb]; cbv beta iota zeta.
  { repeat split. }
  destruct (is_virtual_ (self s)) eqn:Hreal.
  { rewrite (bind_run _ _ _ _ _ (execute_device_smartctl_virtual _ "" false s Hreal)).
    cbv beta iota. unfold mret, M_ret. cbn [fst snd self world].
    rewrite notifications_app, executions_app. count_closed.
    repeat split; try reflexivity; lia. }
  fold command.
  destruct (execute_smartctl C (world s) (device_ (self s)) (device_options C (self s))
              command "") as [[w status] output] eqn:Hexec.
  pose proof (execute_device_smartctl_real command "" false s w status output Hreal Hexec)
    as Hrun.
  destruct status as [[]|data message]; cbv beta iota zeta in Hrun;
    rewrite (bind_run _ _ _ _ _ Hrun); cbv beta iota.
  - destruct (app_regex_partial_match C "/^SMART Enabled/mi" output
              || app_regex_partial_match C "/^SMART Disabled/mi" output);
      [| destruct (app_regex_partial_match C "/^A mandatory SMART command failed/mi" output)];
      unfold mret, M_ret; cbn [fst snd self world events];
      rewrite notifications_app, executions_app; count_closed;
      (split; [reflexivity |]); (split; [lia |]); (split; [reflexivity |]);
      (split; [lia |]); (split; [| exact I]);
      exists []; (split; [apply only_debug_nil | reflexivity]).
  - unfold mret, M_ret. cbn [fst snd self world events andb].
    rewrite <- (assoc_L (++)). rewrite notifications_app, executions_app.
    cbn [app]. count_closed.
    split; [reflexivity |]. split; [lia |]. split; [reflexivity |].
    split; [lia |]. split; [| reflexivity].
    exists [DebugOut SmartctlNotExecutedCleanly]. split; [apply only_debug_one | reflexivity].
Qed.

End Requests.

(** * The full fetch *)

Section FullFetch.
Context {C : Collaborators}.
Implicit Types s : State C.

Lemma parse_full_data_keeps {X} (member : StorageDevice -> X) parser_type format :
  (∀ d, member (cleared d) = member d) ->
  (∀ x d, member (assign_parse_status_ x d) = member d) ->
  (∀ x d, member (assign_detected_type_ x d) = member d) ->
  (∀ x d, member (assign_property_repository_ x d) = member d) ->
  (∀ x d, member (assign_smart_supported_ x d) = member d) ->
  (∀ x d, member (assign_smart_enabled_ x d) = member d) ->
  (∀ x d, member (assign_model_name_ x d) = member d) ->
  (∀ x d, member (assign_family_name_ x d) = member d) ->
  (∀ x d, member (assign_serial_number_ x d) = member d) ->
  (∀ x d, member (assign_size_ x d) = member d) ->
  preserves (unchanged member) (parse_full_data C parser_type format).
Proof.
  intros Hc H0 H1 H2 H3 H4 H5 H6 H7 H8. unfold parse_full_data.
  apply preserves_bind; [apply _ | | intros _].
  { intros s. rewrite clear_parse_results_run. apply Hc. }
  pose proof (detect_drive_type_keeps (C:=C) member) as Hd.
  pose proof (read_common_properties_keeps (C:=C) member H3 H4 H5 H6 H7 H8) as Hr.
  repeat first [ apply Hr | apply Hd; solve [auto]
               | apply preserves_modify_unchanged; solve [auto] | frame_step ].
Qed.

Lemma parse_full_data_quiet p parser_type format :
  (∀ m, p (DebugOut m) = false) ->
  preserves (no_new p) (parse_full_data C parser_type format) ∨ p SignalChanged = true.
Proof.
  intros Hp. destruct (p SignalChanged) eqn:Hs; [right; reflexivity | left].
  unfold parse_full_data, clear_parse_results, detect_drive_type_from_properties,
    read_common_properties, signal_changed_emit.
  repeat first [ apply preserves_emit_no_new; solve [auto] | frame_step ].
Qed.

Lemma parse_full_data_same_world parser_type format :
  preserves same_world (parse_full_data C parser_type format).
Proof.
  unfold parse_full_data, clear_parse_results, detect_drive_type_from_properties,
    read_common_properties, signal_changed_emit.
  frame.
Qed.

(** The full fetch of an idle real device, split at the executor's answer. *)
Lemma fetch_full_real s :
  test_is_active_ (self s) = false ->
  is_virtual_ (self s) = false ->
  let t := detected_type_ (self s) in
  let invocation :=
    ExecuteSmartctl (device_ (self s)) (device_options C (self s)) (full_command_options C t) in
  let '(w, status, output) :=
    execute_smartctl C (world s) (device_ (self s)) (device_options C (self s))
      (full_command_options C t) "" in
  fetch_full_data_and_parse C s =
  match status with
  | Unexpected _ message =>
      (Returned (Unexpected StorageDeviceError.ExecutionError message),
       {| self := cleared_for_fetch (self s); world := w;
          events := events s ++ full_fetch_assertions t
                    ++ [invocation; DebugOut SmartctlNotExecutedCleanly] |})
  | Ok _ =>
      parse_full_data C (get_default_parser_type C t)
        (get_default_format C (get_default_parser_type C t))
        {| self := assign_full_output_ output (cleared_for_fetch (self s)); world := w;
           events := events s ++ full_fetch_assertions t ++ [invocation] |}
  end.
Proof.
  intros Hidle Hreal t invocation. subst t invocation.
  destruct (execute_smartctl C (world s) (device_ (self s)) (device_options C (self s))
              (full_command_options C (detected_type_ (self s))) "")
    as [[w status] output] eqn:Hexec.
  unfold fetch_full_data_and_parse.
  rewrite (bind_run _ _ _ _ _ (get_test_is_active_run s)). rewrite Hidle. cbv beta iota.
  destruct (detected_type_ (self s)) eqn:Ht.
  all: repeat (rewrite ?Ht; mstep); rewrite ?Ht; cbv zeta.
  all: match goal with
       | |- context [mbind _ (execute_device_smartctl C ?cmds ?buf false) ?st] =>
           pose proof (execute_device_smartctl_real cmds buf false st w status output
                         Hreal Hexec) as Hrun
       end.
  all: destruct status as [[]|data message]; cbv beta iota zeta in Hrun;
    rewrite (bind_run _ _ _ _ _ Hrun); clear Hrun; cbv beta iota zeta.
  all: try mstep; mrun_members; cbn [full_fetch_assertions andb];
    rewrite <- ?(assoc_L (++)); reflexivity.
Qed.
(** A full fetch whose execution fails returns [ExecutionError] with the
    executor's message and leaves a device without outputs and parse results:
    both raw buffers are empty (the output of the failed run is dropped),
    Parse Status is [None] and the Fact Store is empty.  It ran one process,
    notified nobody and kept the Detected Type. *)
Theorem fetch_full_execution_failure s w data message output :
  test_is_active_ (self s) = false ->
  is_virtual_ (self s) = false ->
  execute_smartctl C (world s) (device_ (self s)) (device_options C (self s))
    (full_command_options C (detected_type_ (self s))) ""
  = (w, Unexpected data message, output) ->
  let r := fetch_full_data_and_parse C s in
  fst r = Returned (Unexpected StorageDeviceError.ExecutionError message)
  ∧ self (snd r) = cleared_for_fetch (self s)
  ∧ full_output_ (self (snd r)) = ""
  ∧ basic_output_ (self (snd r)) = ""
  ∧ parse_status_ (self (snd r)) = ParseStatus.None
  ∧ property_repository_ (self (snd r)) = ∅
  ∧ detected_type_ (self (snd r)) = detected_type_ (self s)
  ∧ world (snd r) = w
  ∧ executions (snd r) = S (executions s)
  ∧ notifications (snd r) = notifications s.
Proof.
  intros Hidle Hreal Hexec r. subst r.
  pose proof (fetch_full_real s Hidle Hreal) as H. cbv zeta in H.
  rewrite Hexec in H. rewrite H. cbn [fst snd self world].
  rewrite executions_app, notifications_app, !count_events_app.
  destruct (detected_type_ (self s)) eqn:Ht; cbn [full_fetch_assertions]; count_closed;
    repeat split; first [exact Ht | lia].
Qed.

(** A full fetch whose execution is clean keeps the captured output
    whatever the parser then makes of it: afterwards the full buffer holds the
    executor's output and the basic buffer is empty.  It ran one process, with
    the device's options and the command line of its Detected Type. *)
Theorem fetch_full_keeps_clean_output s w output :
  test_is_active_ (self s) = false ->
  is_virtual_ (self s) = false ->
  execute_smartctl C (world s) (device_ (self s)) (device_options C (self s))
    (full_command_options C (detected_type_ (self s))) ""
  = (w, Ok (), output) ->
  let r := fetch_full_data_and_parse C s in
  full_output_ (self (snd r)) = output
  ∧ basic_output_ (self (snd r)) = ""
  ∧ type_arg_ (self (snd r)) = type_arg_ (self s)
  ∧ world (snd r) = w
  ∧ executions (snd r) = S (executions s).
Proof.
  intros Hidle Hreal Hexec r. subst r.
  pose proof (fetch_full_real s Hidle Hreal) as H. cbv zeta in H.
  rewrite Hexec in H. rewrite H.
  match goal with
  | |- context [parse_full_data C ?ty ?fmt ?st] =>
      pose proof (parse_full_data_keeps full_output_ ty fmt
                    ltac:(reflexivity) ltac:(reflexivity) ltac:(reflexivity)
                    ltac:(reflexivity) ltac:(reflexivity) ltac:(reflexivity)
                    ltac:(reflexivity) ltac:(reflexivity) ltac:(reflexivity)
                    ltac:(reflexivity) st) as Hfull;
      pose proof (parse_full_data_keeps basic_output_ ty fmt
                    ltac:(reflexivity) ltac:(reflexivity) ltac:(reflexivity)
                    ltac:(reflexivity) ltac:(reflexivity) ltac:(reflexivity)
                    ltac:(reflexivity) ltac:(reflexivity) ltac:(reflexivity)
                    ltac:(reflexivity) st) as Hbasic;
      pose proof (parse_full_data_keeps type_arg_ ty fmt
                    ltac:(reflexivity) ltac:(reflexivity) ltac:(reflexivity)
                    ltac:(reflexivity) ltac:(reflexivity) ltac:(reflexivity)
                    ltac:(reflexivity) ltac:(reflexivity) ltac:(reflexivity)
                    ltac:(reflexivity) st) as Harg;
      pose proof (parse_full_data_same_world ty fmt st) as Hworld;
      destruct (parse_full_data_quiet is_execution ty fmt ltac:(reflexivity))
        as [Hquiet | Habsurd]; [specialize (Hquiet st) | discriminate Habsurd]
  end.
  unfold unchanged, same_world, no_new in *. cbn [self world events] in *.
  rewrite Hfull, Hbasic, Harg, Hworld. unfold executions. rewrite Hquiet.
  rewrite !count_events_app.
  destruct (detected_type_ (self s)); cbn [full_fetch_assertions]; count_closed;
    repeat split; lia.
Qed.

End FullFetch.

(** * Virtual devices *)

Section Virtual.
Context {C : Collaborators}.
Implicit Types s : State C.

(** No entry point ever starts a process for a virtual device.  The full
    fetch and the SMART toggle return [CannotExecuteOnVirtual]; the full fetch
    has by then cleared the device's raw outputs and parse results.  The basic
    fetch does not return that error: it drops it and parses the emptied basic
    output, without retrying. *)
Theorem virtual_device_is_never_executed (b : bool) (fuel : nat) s :
  is_virtual_ (self s) = true ->
  test_is_active_ (self s) = false ->
  let full := fetch_full_data_and_parse C s in
  let toggle := set_smart_enabled C b s in
  let basic := fetch_basic_data_and_parse C (S fuel) s in
  (fst full = Returned cannot_execute_on_virtual
   ∧ self (snd full) = cleared_for_fetch (self s)
   ∧ executions (snd full) = executions s
   ∧ world (snd full) = world s)
  ∧ (fst toggle = Returned cannot_execute_on_virtual
     ∧ self (snd toggle) = self s
     ∧ executions (snd toggle) = executions s
     ∧ world (snd toggle) = world s)
  ∧ (basic = parse_basic_data C
               {| self := cleared_for_fetch (self s); world := world s;
                  events := events s ++ [DebugOut NoExecuteOnVirtual] |}
     ∧ executions (snd basic) = executions s
     ∧ retries (snd basic) = retries s
     ∧ world (snd basic) = world s).
Proof.
  intros Hvirtual Hidle full toggle basic. subst full toggle basic.
  split; [| split].
  - unfold fetch_full_data_and_parse.
    rewrite (bind_run _ _ _ _ _ (get_test_is_active_run s)). rewrite Hidle. cbv beta iota.
    destruct (detected_type_ (self s)) eqn:Ht.
    all: repeat (rewrite ?Ht; mstep); rewrite ?Ht; cbv zeta.
    all: match goal with
         | |- context [mbind _ (execute_device_smartctl C ?cmds ?buf false) ?st] =>
             rewrite (bind_run _ _ _ _ _
                        (execute_device_smartctl_virtual cmds buf false st Hvirtual))
         end.
    all: cbv beta iota; unfold mret, M_ret; cbn [fst snd self world events].
    all: rewrite <- ?(assoc_L (++)); rewrite executions_app; cbn [app]; count_closed.
    all: repeat split; lia.
  - unfold set_smart_enabled.
    rewrite (bind_run _ _ _ _ _ (get_test_is_active_run s)). rewrite Hidle. cbv beta iota zeta.
    rewrite (bind_run _ _ _ _ _ (execute_device_smartctl_virtual _ "" false s Hvirtual)).
    cbv beta iota. unfold mret, M_ret. cbn [fst snd self world].
    rewrite executions_app. count_closed. repeat split; lia.
  - assert (Hbasic : fetch_basic_data_and_parse C (S fuel) s
                     = parse_basic_data C
                         {| self := cleared_for_fetch (self s); world := world s;
                            events := events s ++ [DebugOut NoExecuteOnVirtual] |}).
    { cbn [fetch_basic_data_and_parse].
      rewrite (bind_run _ _ _ _ _ (get_test_is_active_run s)). rewrite Hidle.
      cbv beta iota zeta. do 3 mrun.
      match goal with
      | |- context [mbind _ (execute_device_smartctl C ?cmds ?buf true) ?st] =>
          rewrite (bind_run _ _ _ _ _
                     (execute_device_smartctl_virtual cmds buf true st Hvirtual))
      end.
      cbv beta iota zeta. do 3 mrun. mrun_members.
      change (bool_decide (StorageDeviceError.CannotExecuteOnVirtual
                           = StorageDeviceError.ExecutionError)) with false.
      cbn [andb]. reflexivity. }
    rewrite Hbasic. split; [reflexivity |].
    match goal with
    | |- context [parse_basic_data C ?st] =>
        pose proof (parse_basic_data_no_execution (C:=C) st) as Hexecutions;
        pose proof (parse_basic_data_no_retry (C:=C) st) as Hretries;
        pose proof (parse_basic_data_same_world (C:=C) st) as Hworld
    end.
    unfold no_new, same_world in *. unfold executions, retries.
    rewrite Hexecutions, Hretries, Hworld. cbn [events world].
    rewrite !count_events_app. count_closed. repeat split; lia.
Qed.

End Virtual.

(** * Change notifications *)

Section Notifications.
Context {C : Collaborators}.
Implicit Types s : State C.

Lemma notifies_bind {A} (m : M C A) (f : A -> M C (ExpectedVoid StorageDeviceError.t)) :
  preserves (no_new is_notification) m ->
  (∀ a, notifies_on_success (f a)) ->
  notifies_on_success (m ≫= f).
Proof.
  intros Hm Hf s. unfold mbind, M_bind.
  specialize (Hm s). unfold no_new in Hm. fold (notifications (snd (m s))) in Hm.
  fold (notifications s) in Hm.
  destruct (m s) as [[a| |] s1]; cbn [fst snd] in *.
  - rewrite (Hf a s1), Hm. reflexivity.
  - lia.
  - lia.
Qed.

Lemma notifies_error data message :
  notifies_on_success (mret (Unexpected data message) : M C (ExpectedVoid StorageDeviceError.t)).
Proof. intros s. cbn. lia. Qed.

Lemma notifies_signal :
  notifies_on_success
    (signal_changed_emit C;; (mret (Ok ()) : M C (ExpectedVoid StorageDeviceError.t))).
Proof.
  intros s. cbn [fst snd]. unfold signal_changed_emit, emit, mbind, M_bind, mret, M_ret.
  cbn [fst snd]. rewrite notifications_app. count_closed. reflexivity.
Qed.

Lemma preserves_execute_no_new p device o c b :
  p (ExecuteSmartctl device o c) = false ->
  preserves (no_new p) (call_execute_smartctl C device o c b).
Proof.
  intros Hp s. unfold call_execute_smartctl.
  destruct (execute_smartctl C _ _ _ _ _) as [[w st] out]. unfold no_new. cbn [snd events].
  rewrite count_events_app. cbn. rewrite Hp. lia.
Qed.

Lemma preserves_execute_device_no_new p cmds buffer check :
  (∀ m, p (DebugOut m) = false) ->
  (∀ device o c, p (ExecuteSmartctl device o c) = false) ->
  preserves (no_new p) (execute_device_smartctl C cmds buffer check).
Proof.
  intros Hd He. unfold execute_device_smartctl, get_device_options.
  repeat first [ apply preserves_emit_no_new; solve [auto]
               | apply preserves_execute_no_new; solve [auto]
               | frame_step ].
Qed.

End Notifications.

(** The walk of [frame], choosing the rule by the shape of the method. *)
Ltac quiet_step :=
  first
    [ match goal with
      | |- preserves _ (mbind _ _) => apply preserves_bind; [ solve [apply _] | | intros ? ]
      | |- preserves _ (if ?b then _ else _) => destruct b
      | |- preserves _ (match ?x with _ => _ end) => destruct x
      | |- preserves _ (let _ := _ in _) => cbv zeta
      | |- preserves _ (execute_device_smartctl _ _ _ _) =>
          apply preserves_execute_device_no_new; [reflexivity | reflexivity]
      | |- preserves _ (detect_drive_type_from_properties _ _) =>
          apply detect_drive_type_quiet; reflexivity
      | |- preserves _ (read_common_properties _) => apply read_common_properties_quiet
      end
    | frame_step ].

Ltac quiet := solve [ repeat quiet_step ].

Ltac notifies_step :=
  match goal with
  | |- notifies_on_success (mbind _ (signal_changed_emit _)) => apply notifies_signal
  | |- notifies_on_success (mbind _ _) => apply notifies_bind; [ quiet | intros ? ]
  | |- notifies_on_success (mret (Unexpected _ _)) => apply notifies_error
  | |- notifies_on_success (if ?b then _ else _) => destruct b
  | |- notifies_on_success (match ?x with _ => _ end) => destruct x
  | |- notifies_on_success (let _ := _ in _) => cbv zeta
  end.

Section NotificationDiscipline.
Context {C : Collaborators}.

(** Every parse and fetch entry point notifies the listeners exactly once
    when it returns success, and not at all when it returns an error, is left
    by an exception, or is refused. *)
Theorem notifies_exactly_on_success (e : ParseEntry) (fuel : nat) :
  notifies_on_success (run_entry C e)
  ∧ notifies_on_success (fetch_full_data_and_parse C)
  ∧ notifies_on_success (fetch_basic_data_and_parse C fuel).
Proof.
  assert (Hentry : ∀ e, notifies_on_success (run_entry C e)).
  { intros e'. destruct e'; unfold run_entry, parse_basic_data, parse_full_data,
      parse_any_data_for_virtual, clear_parse_results.
    all: repeat notifies_step. }
  pose proof (λ t f, Hentry (FullEntry t f)) as Hfull.
  pose proof (Hentry BasicEntry) as Hbasic.
  cbn [run_entry] in Hfull, Hbasic.
  split; [apply Hentry |]. split.
  - unfold fetch_full_data_and_parse, clear_parse_results, clear_outputs.
    repeat first
      [ match goal with
        | |- notifies_on_success (parse_full_data _ _ _) => apply Hfull
        end
      | notifies_step ].
  - induction fuel as [|fuel IH].
    + intros s. unfold fetch_basic_data_and_parse, out_of_fuel. cbn [fst snd]. lia.
    + cbn [fetch_basic_data_and_parse]. unfold clear_parse_results, clear_outputs.
      repeat first
        [ match goal with
          | |- notifies_on_success (parse_basic_data _) => exact Hbasic
          | |- notifies_on_success (fetch_basic_data_and_parse _ fuel) => exact IH
          end
        | notifies_step ].
Qed.

End NotificationDiscipline.

(** * The cached common properties *)

Ltac mrun_members_in H :=
  cbn [self world events with_self cleared
       is_virtual_ virtual_file_ device_ type_arg_ extra_args_ detected_type_
       parse_status_ test_is_active_ basic_output_ full_output_ property_repository_
       smart_supported_ smart_enabled_ model_name_ family_name_ serial_number_ size_
       health_property_
       assign_type_arg_ assign_detected_type_ assign_parse_status_ assign_test_is_active_
       assign_basic_output_ assign_full_output_ assign_property_repository_
       assign_smart_supported_ assign_smart_enabled_ assign_model_name_
       assign_family_name_ assign_serial_number_ assign_size_ assign_health_property_] in H.

Section Common.
Context {C : Collaborators}.
Implicit Types s : State C.

Ltac unfold_block H :=
  cbv beta iota zeta delta [lookup gets mbind M_bind mret M_ret get_value throw modify
                            get_value_bool get_value_string empty] in H.

Lemma bool_block key (assign : option bool -> StorageDevice -> StorageDevice) s o s' :
  (prop ← lookup C key;
   if negb (empty prop) then
     b ← get_value C (get_value_bool prop);
     modify C (assign (Some b))
   else mret ()) s = (o, s') ->
  match value (lookup_property (property_repository_ (self s)) key) with
  | monostate => o = Returned () ∧ s' = s
  | VBool b => o = Returned () ∧ s' = with_self (assign (Some b) (self s)) s
  | _ => o = Thrown bad_variant_access
  end.
Proof.
  intros H. unfold_block H.
  destruct (value (lookup_property (property_repository_ (self s)) key));
    cbn [negb] in H; injection H as <- <-; auto.
Qed.

Lemma string_block key (assign : option string -> StorageDevice -> StorageDevice) s o s' :
  (prop ← lookup C key;
   if negb (empty prop) then
     v ← get_value C (get_value_string prop);
     modify C (assign (Some v))
   else mret ()) s = (o, s') ->
  match value (lookup_property (property_repository_ (self s)) key) with
  | monostate => o = Returned () ∧ s' = s
  | VString v => o = Returned () ∧ s' = with_self (assign (Some v) (self s)) s
  | _ => o = Thrown bad_variant_access
  end.
Proof.
  intros H. unfold_block H.
  destruct (value (lookup_property (property_repository_ (self s)) key));
    cbn [negb] in H; injection H as <- <-; auto.
Qed.

Lemma chain_block primary alias (assign : option string -> StorageDevice -> StorageDevice)
    s o s' :
  (prop ← lookup C primary;
   if negb (empty prop) then
     v ← get_value C (get_value_string prop);
     modify C (assign (Some v))
   else
     prop ← lookup C alias;
     if negb (empty prop) then
       v ← get_value C (get_value_string prop);
       modify C (assign (Some v))
     else mret ()) s = (o, s') ->
  match value (lookup_property (property_repository_ (self s)) primary) with
  | monostate =>
      match value (lookup_property (property_repository_ (self s)) alias) with
      | monostate => o = Returned () ∧ s' = s
      | VString v => o = Returned () ∧ s' = with_self (assign (Some v) (self s)) s
      | _ => o = Thrown bad_variant_access
      end
  | VString v => o = Returned () ∧ s' = with_self (assign (Some v) (self s)) s
  | _ => o = Thrown bad_variant_access
  end.
Proof.
  intros H. unfold_block H.
  destruct (value (lookup_property (property_repository_ (self s)) primary));
    cbn [negb] in H; cbv beta iota in H;
    [destruct (value (lookup_property (property_repository_ (self s)) alias));
       cbn [negb] in H | | |];
    injection H as <- <-; auto.
Qed.

Lemma size_block s o s' :
  (prop ← lookup C "user_capacity/bytes/_short";
   if negb (empty prop) then
     modify C (assign_size_ (Some (readable_value prop)))
   else
     prop2 ← lookup C "user_capacity/bytes";
     if negb (empty prop) then
       modify C (assign_size_ (Some (readable_value prop2)))
     else mret ()) s = (o, s') ->
  o = Returned ()
  ∧ size_ (self s') = read_short_size (property_repository_ (self s)) (size_ (self s)).
Proof.
  intros H. cbv beta iota zeta delta [lookup gets mbind M_bind mret M_ret modify] in H.
  unfold read_short_size. cbv zeta.
  destruct (negb (empty (lookup_property (property_repository_ (self s))
                           "user_capacity/bytes/_short")));
    cbv beta iota in H; injection H as <- <-; auto.
Qed.








Lemma seq_outcome {B} (m : M C unit) (k : M C B) s :
  fst ((m ;; k) s)
  = match fst (m s) with
    | Returned _ => fst (k (snd (m s)))
    | Thrown e => Thrown e
    | OutOfFuel => OutOfFuel
    end.
Proof. unfold mbind, M_bind. destruct (m s) as [[[]| |] s1]; reflexivity. Qed.

Lemma bool_block_outcome key (assign : option bool -> StorageDevice -> StorageDevice) s :
  fst ((prop ← lookup C key;
        if negb (empty prop) then
          b ← get_value C (get_value_bool prop);
          modify C (assign (Some b))
        else mret ()) s)
  = if absent_or_bool (lookup_property (property_repository_ (self s)) key)
    then Returned () else Thrown bad_variant_access.
Proof.
  match goal with |- fst (?m s) = _ => destruct (m s) as [o s'] eqn:H end.
  apply bool_block in H. cbn [fst]. unfold absent_or_bool.
  destruct (value _); intuition.
Qed.

Lemma string_block_outcome key (assign : option string -> StorageDevice -> StorageDevice) s :
  fst ((prop ← lookup C key;
        if negb (empty prop) then
          v ← get_value C (get_value_string prop);
          modify C (assign (Some v))
        else mret ()) s)
  = if absent_or_string (lookup_property (property_repository_ (self s)) key)
    then Returned () else Thrown bad_variant_access.
Proof.
  match goal with |- fst (?m s) = _ => destruct (m s) as [o s'] eqn:H end.
  apply string_block in H. cbn [fst]. unfold absent_or_string.
  destruct (value _); intuition.
Qed.

Lemma chain_block_outcome primary alias
    (assign : option string -> StorageDevice -> StorageDevice) s :
  fst ((prop ← lookup C primary;
        if negb (empty prop) then
          v ← get_value C (get_value_string prop);
          modify C (assign (Some v))
        else
          prop ← lookup C alias;
          if negb (empty prop) then
            v ← get_value C (get_value_string prop);
            modify C (assign (Some v))
          else mret ()) s)
  = let repo := property_repository_ (self s) in
    if absent_or_string (lookup_property repo primary)
    then if negb (empty (lookup_property repo primary))
            || absent_or_string (lookup_property repo alias)
         then Returned () else Thrown bad_variant_access
    else Thrown bad_variant_access.
Proof.
  match goal with |- fst (?m s) = _ => destruct (m s) as [o s'] eqn:H end.
  apply chain_block in H. cbn [fst]. unfold absent_or_string, empty. cbv zeta.
  destruct (value (lookup_property _ primary)); cbn [negb orb];
    [destruct (value (lookup_property _ alias)) | | |]; intuition.
Qed.

(** [read_common_properties] returns exactly when the facts it reads have
    the types it reads them at; otherwise [get_value] throws.  The alias of
    a present primary fact is not read, and the size facts are read through
    their printed form, so neither can make it throw. *)
Theorem read_common_properties_throws_on_mistyped_facts s :
  fst (read_common_properties C s)
  = if common_facts_typed (property_repository_ (self s))
    then Returned () else Thrown bad_variant_access.
Proof.
  unfold read_common_properties, common_facts_typed.
  set (repo := property_repository_ (self s)).
  assert (Hrepo : property_repository_ (self s) = repo) by reflexivity.
  clearbody repo. revert s Hrepo.
  assert (Hnext : ∀ {B} (m : M C unit) (k : M C B) (b : bool) o s,
             preserves (unchanged property_repository_) m ->
             fst (m s) = (if b then Returned () else Thrown bad_variant_access) ->
             property_repository_ (self s) = repo ->
             (∀ s1, property_repository_ (self s1) = repo -> b = true -> fst (k s1) = o) ->
             fst ((m ;; k) s) = if b then o else Thrown bad_variant_access).
  { intros B m k b o s Hm Hb Hs Hk. rewrite seq_outcome, Hb.
    destruct b; [| reflexivity]. apply Hk; [| reflexivity].
    rewrite <- Hs. apply Hm. }
  intros s Hs.
  destruct (absent_or_bool (lookup_property repo "smart_support/available")) eqn:E1;
    cbn [andb].
  2: { erewrite Hnext with (b := false) (o := Returned ()); [reflexivity | frame | | exact Hs | discriminate].
       rewrite bool_block_outcome, Hs, E1. reflexivity. }
  erewrite Hnext with (b := true); [reflexivity | frame | | exact Hs | ].
  { rewrite bool_block_outcome, Hs, E1. reflexivity. }
  clear s Hs. intros s Hs _.
  destruct (absent_or_bool (lookup_property repo "smart_support/enabled")) eqn:E2;
    cbn [andb].
  2: { erewrite Hnext with (b := false) (o := Returned ()); [reflexivity | frame | | exact Hs | discriminate].
       rewrite bool_block_outcome, Hs, E2. reflexivity. }
  erewrite Hnext with (b := true); [reflexivity | frame | | exact Hs | ].
  { rewrite bool_block_outcome, Hs, E2. reflexivity. }
  clear s Hs. intros s Hs _.
  destruct (absent_or_string (lookup_property repo "model_name")) eqn:E3;
    cbn [andb].
  2: { erewrite Hnext with (b := false) (o := Returned ()); [reflexivity | frame | | exact Hs | discriminate].
       rewrite chain_block_outcome, Hs. cbv zeta. rewrite E3. reflexivity. }
  destruct (negb (empty (lookup_property repo "model_name"))
            || absent_or_string (lookup_property repo "scsi_model_name")) eqn:E4;
    cbn [andb].
  2: { erewrite Hnext with (b := false) (o := Returned ()); [reflexivity | frame | | exact Hs | discriminate].
       rewrite chain_block_outcome, Hs. cbv zeta. rewrite E3, E4. reflexivity. }
  erewrite Hnext with (b := true); [reflexivity | frame | | exact Hs | ].
  { rewrite chain_block_outcome, Hs. cbv zeta. rewrite E3, E4. reflexivity. }
  clear s Hs. intros s Hs _.
  destruct (absent_or_string (lookup_property repo "model_family")) eqn:E5;
    cbn [andb].
  2: { erewrite Hnext with (b := false) (o := Returned ()); [reflexivity | frame | | exact Hs | discriminate].
       rewrite chain_block_outcome, Hs. cbv zeta. rewrite E5. reflexivity. }
  destruct (negb (empty (lookup_property repo "model_family"))
            || absent_or_string (lookup_property repo "scsi_vendor")) eqn:E6;
    cbn [andb].
  2: { erewrite Hnext with (b := false) (o := Returned ()); [reflexivity | frame | | exact Hs | discriminate].
       rewrite chain_block_outcome, Hs. cbv zeta. rewrite E5, E6. reflexivity. }
  erewrite Hnext with (b := true); [reflexivity | frame | | exact Hs | ].
  { rewrite chain_block_outcome, Hs. cbv zeta. rewrite E5, E6. reflexivity. }
  clear s Hs. intros s Hs _.
  destruct (absent_or_string (lookup_property repo "serial_number")) eqn:E7.
  2: { erewrite Hnext with (b := false) (o := Returned ()); [reflexivity | frame | | exact Hs | discriminate].
       rewrite string_block_outcome, Hs, E7. reflexivity. }
  erewrite Hnext with (b := true); [reflexivity | frame | | exact Hs | ].
  { rewrite string_block_outcome, Hs, E7. reflexivity. }
  clear s Hs. intros s Hs _.
  match goal with |- fst (?m s) = _ => destruct (m s) as [o s'] eqn:H end.
  apply size_block in H as [-> _]. reflexivity.
Qed.

End Common.

(** * The type resolver in closed form *)

Section ResolverClosedForm.
Context {C : Collaborators}.
Implicit Types s : State C.

Lemma resolver_run repo s :
  resolver_facts_typed repo = true ->
  let r := detect_drive_type_from_properties C repo s in
  fst r = Returned ()
  ∧ detected_type_ (self (snd r))
    = resolved_type C repo (get_device_base_of (self s)) (detected_type_ (self s)).
Proof.
  intros Htyped r. subst r. revert Htyped.
  unfold resolved_type, structured_type, legacy_type.
  unfold_resolver. unfold default. resolver_cases.
  all: repeat match goal with
         | H : context [get_device_base_of (assign_detected_type_ ?x ?d)] |- _ =>
             change (get_device_base_of (assign_detected_type_ x d))
               with (get_device_base_of d) in H
         end.
  all: intros _; split; [reflexivity |]; cbv [id] in *; congruence.
Qed.

Lemma resolved_type_idempotent repo base t :
  resolved_type C repo base (resolved_type C repo base t) = resolved_type C repo base t.
Proof.
  unfold resolved_type.
  destruct (structured_type C repo base) as [t1|]; [reflexivity |].
  destruct (legacy_type C repo) as [t2|]; [reflexivity |].
  cbn [default from_option id]. cbv zeta.
  destruct (bool_decide (t = StorageDeviceDetectedType.Unknown)) eqn:E; [reflexivity |].
  rewrite E. reflexivity.
Qed.

(** Where the structured dialect classifies the drive, it decides: a
    [device/type] of "scsi" gives [CdDvd] for a Linux device named "sr..."
    and [BasicScsi] otherwise; "sat", or a protocol spelling "ata", gives the
    ATA type by rotation rate; "nvme", as type or protocol, gives [Nvme].
    Neither the type the device had before nor the legacy-text fact
    changes that answer. *)
Theorem structured_dialect_decides repo s t :
  resolver_facts_typed repo = true ->
  structured_type C repo (get_device_base_of (self s)) = Some t ->
  let r := detect_drive_type_from_properties C repo s in
  fst r = Returned () ∧ detected_type_ (self (snd r)) = t.
Proof.
  intros Htyped Hstructured r. subst r.
  destruct (resolver_run repo s Htyped) as [Hret Htype].
  split; [exact Hret |]. rewrite Htype. unfold resolved_type. rewrite Hstructured.
  cbn [default from_option id]. cbv zeta.
  assert (Hknown : t ≠ StorageDeviceDetectedType.Unknown).
  { revert Hstructured. unfold structured_type, by_rotation_rate.
    repeat case_match; intros [= <-]; discriminate. }
  rewrite bool_decide_eq_false_2 by exact Hknown. reflexivity.
Qed.

(** Resolving twice over the same facts gives the type that resolving once
    gives: a second pass of the resolver, as [parse_full_data] makes after
    [parse_basic_data], does not move a type the first pass settled. *)
Theorem resolver_is_idempotent repo s :
  resolver_facts_typed repo = true ->
  let once := detect_drive_type_from_properties C repo s in
  let twice := detect_drive_type_from_properties C repo (snd once) in
  fst once = Returned () ∧ fst twice = Returned ()
  ∧ detected_type_ (self (snd twice)) = detected_type_ (self (snd once)).
Proof.
  intros Htyped once twice. subst once twice.
  destruct (resolver_run repo s Htyped) as [Hret Htype].
  destruct (resolver_run repo (snd (detect_drive_type_from_properties C repo s)) Htyped)
    as [Hret' Htype'].
  split; [exact Hret |]. split; [exact Hret' |].
  rewrite Htype', Htype.
  pose proof (detect_drive_type_keeps get_device_base_of repo ltac:(reflexivity) s) as Hbase.
  unfold unchanged in Hbase. rewrite Hbase.
  apply resolved_type_idempotent.
Qed.

End ResolverClosedForm.

(** * The health cache *)

Ltac keeps_step :=
  first
    [ match goal with
      | |- preserves _ (mbind _ _) => apply preserves_bind; [ solve [apply _] | | intros ? ]
      | |- preserves _ (if ?b then _ else _) => destruct b
      | |- preserves _ (match ?x with _ => _ end) => destruct x
      | |- preserves _ (let _ := _ in _) => cbv zeta
      | |- preserves (unchanged _) (detect_drive_type_from_properties _ _) =>
          apply detect_drive_type_keeps; reflexivity
      | |- preserves (unchanged _) (read_common_properties _) =>
          apply read_common_properties_keeps; reflexivity
      end
    | frame_step ].

Ltac keeps := solve [ repeat keeps_step ].

Section HealthCache.
Context {C : Collaborators}.
Variable StoragePropertySection : Type.
Variable OverallHealth : StoragePropertySection.
Variable lookup_property_in :
  StoragePropertyRepository -> string -> StoragePropertySection -> StorageProperty.
Implicit Types s : State C.

Local Abbreviation get_health :=
  (get_health_property C StoragePropertySection OverallHealth lookup_property_in).
Local Abbreviation health_fact s :=
  (lookup_property_in (property_repository_ (self s)) "smart_status/passed" OverallHealth).

Lemma get_health_property_run s :
  get_health s
  = match health_property_ (self s) with
    | Some p => (Returned p, s)
    | None =>
        (Returned (health_fact s),
         if empty (health_fact s) then s
         else with_self (assign_health_property_ (Some (health_fact s)) (self s)) s)
    end.
Proof.
  unfold get_health_property.
  cbv beta iota zeta delta [gets mbind M_bind mret M_ret modify fst snd].
  destruct (health_property_ (self s)) as [p|]; [reflexivity |].
  destruct (empty (health_fact s)); reflexivity.
Qed.

(** [get_health_property] is a read-through cache: a cached property is
    returned as it is and nothing changes; otherwise the health fact of the
    stored repository is returned, and cached only if it is not empty.
    Asking again gives the same answer and changes nothing further. *)
Theorem get_health_property_reads_through s :
  let r := get_health s in
  match health_property_ (self s) with
  | Some p => r = (Returned p, s)
  | None =>
      r = (Returned (health_fact s),
           if empty (health_fact s) then s
           else with_self (assign_health_property_ (Some (health_fact s)) (self s)) s)
  end
  ∧ get_health (snd r) = r.
Proof.
  cbv zeta. rewrite (get_health_property_run (snd _)), get_health_property_run.
  destruct (health_property_ (self s)) as [p|] eqn:Hcache; cbn [snd].
  - split; [reflexivity |]. rewrite Hcache. reflexivity.
  - destruct (empty (health_fact s)) eqn:Hempty.
    + split; [reflexivity |]. rewrite Hcache, Hempty. reflexivity.
    + split; reflexivity.
Qed.

(** Whatever a parse entry point does and however it ends, it leaves the
    health cache empty, so the next [get_health_property] answers from the
    repository the parse left and not from an older one. *)
Theorem health_cache_is_dropped_by_parsing (e : ParseEntry) s :
  let s' := snd (run_entry C e s) in
  health_property_ (self s') = None
  ∧ fst (get_health s') = Returned (health_fact s').
Proof.
  cbv zeta.
  assert (Hdropped : health_property_ (self (snd (run_entry C e s))) = None).
  { destruct e as [|parser_type format|]; unfold run_entry.
    - unfold parse_basic_data.
      rewrite (bind_run _ _ _ _ _ (clear_parse_results_run s)).
      match goal with
      | |- health_property_ (self (snd (?rest ?s0))) = None =>
          assert (F : preserves (unchanged (C:=C) health_property_) rest) by keeps;
          exact (F s0)
      end.
    - unfold parse_full_data.
      rewrite (bind_run _ _ _ _ _ (clear_parse_results_run s)).
      match goal with
      | |- health_property_ (self (snd (?rest ?s0))) = None =>
          assert (F : preserves (unchanged (C:=C) health_property_) rest) by keeps;
          exact (F s0)
      end.
    - unfold parse_any_data_for_virtual.
      rewrite (bind_run _ _ _ _ _ (clear_parse_results_run s)).
      match goal with
      | |- health_property_ (self (snd (?rest ?s0))) = None =>
          assert (F : preserves (unchanged (C:=C) health_property_) rest) by keeps;
          exact (F s0)
      end. }
  split; [exact Hdropped |].
  rewrite get_health_property_run, Hdropped. reflexivity.
Qed.

End HealthCache.

(** * Loading a saved output *)

Section VirtualParse.
Context {C : Collaborators}.
Implicit Types s : State C.

Lemma virtual_finish_run (repo : StoragePropertyRepository) s s' :
  (parse_status ← get_parse_status C;
   (if negb (bool_decide (parse_status = ParseStatus.Full)) then
      set_parse_status C ParseStatus.Basic;;
      detected ← get_detected_type C;
      set_property_repository C (process_properties C repo detected)
    else mret ());;
   signal_changed_emit C;;
   (mret (Ok ()) : M C (ExpectedVoid StorageDeviceError.t))) s
  = (Returned (Ok ()), s') ->
  detected_type_ (self s') = detected_type_ (self s)
  ∧ (parse_status_ (self s'), property_repository_ (self s'))
    = if bool_decide (parse_status_ (self s) = ParseStatus.Full)
      then (ParseStatus.Full, property_repository_ (self s))
      else (ParseStatus.Basic, process_properties C repo (detected_type_ (self s))).
Proof.
  intros H. mrun_in H.
  destruct (parse_status_ (self s)) eqn:Hstatus; cbn [bool_decide negb] in H;
    cbv beta iota in H; repeat mrun_in H; apply mret_returned in H as [_ <-];
    mrun_members;
    match goal with
    | |- context [bool_decide ?P] =>
        first [ rewrite (bool_decide_eq_false_2 P) by discriminate
              | rewrite (bool_decide_eq_true_2 P) by reflexivity ]
    end;
    rewrite ?Hstatus; split; reflexivity.
Qed.

(** When [parse_any_data_for_virtual] returns success, Parse Status is
    [Full] exactly if the resolved type has a parser of its own and that
    parser accepts the loaded output, and the stored facts are then that
    parser's; in every other case the status is [Basic] and the stored
    facts are the Basic parser's. *)
Theorem virtual_parse_promotes_on_family_parser s s' :
  parse_any_data_for_virtual C s = (Returned (Ok ()), s') ->
  virtual_parse_result C (self s) (detected_type_ (self s'))
  = Some (parse_status_ (self s'), property_repository_ (self s')).
Proof.
  intros H. unfold parse_any_data_for_virtual in H. unfold virtual_parse_result.
  rewrite (bind_run _ _ _ _ _ (clear_parse_results_run s)) in H. mrun_in H.
  destruct (detect_output_format C (full_output_ (self s))) as [f|d m];
    [| apply mret_returned in H as [? _]; discriminate].
  destruct (SmartctlParser_create C SmartctlParserType.Basic f) as [parser|];
    [| apply mret_returned in H as [? _]; discriminate].
  mrun_in H. cbn [mbind option_bind].
  destruct (parser (full_output_ (self s))) as [repo|d m];
    [| apply mret_returned in H as [? _]; discriminate].
  apply bind_returned in H as ([] & s1 & Hdetect & H).
  frame_of Hdetect (unchanged (C:=C) parse_status_).
  frame_of Hdetect (unchanged (C:=C) full_output_).
  do 2 mrun_in H.
  apply bind_returned in H as ([] & s2 & Hread & H).
  match type of Hread with
  | _ ?s0 = _ =>
      pose proof (read_common_properties_keeps (C:=C) parse_status_
                    ltac:(reflexivity) ltac:(reflexivity) ltac:(reflexivity)
                    ltac:(reflexivity) ltac:(reflexivity) ltac:(reflexivity) s0) as Fstatus;
      pose proof (read_common_properties_keeps (C:=C) full_output_
                    ltac:(reflexivity) ltac:(reflexivity) ltac:(reflexivity)
                    ltac:(reflexivity) ltac:(reflexivity) ltac:(reflexivity) s0) as Foutput;
      pose proof (read_common_properties_keeps (C:=C) detected_type_
                    ltac:(reflexivity) ltac:(reflexivity) ltac:(reflexivity)
                    ltac:(reflexivity) ltac:(reflexivity) ltac:(reflexivity) s0) as Ftype;
      pose proof (read_common_properties_keeps (C:=C) property_repository_
                    ltac:(reflexivity) ltac:(reflexivity) ltac:(reflexivity)
                    ltac:(reflexivity) ltac:(reflexivity) ltac:(reflexivity) s0) as Frepo
  end.
  rewrite Hread in Fstatus, Foutput, Ftype, Frepo.
  unfold unchanged in Fstatus, Foutput, Ftype, Frepo.
  cbn [snd] in Fstatus, Foutput, Ftype, Frepo.
  mrun_members_in Fstatus. mrun_members_in Foutput. mrun_members_in Ftype.
  mrun_members_in Frepo.
  mrun_members_in F. mrun_members_in F0.
  assert (Hnone : parse_status_ (self s2) = ParseStatus.None) by congruence.
  assert (Hout : full_output_ (self s2) = full_output_ (self s)) by congruence.
  mrun_in H. cbv zeta in H.
  destruct (bool_decide (get_default_parser_type C (detected_type_ (self s2))
                         = SmartctlParserType.Basic)) eqn:Hbasic;
    cbn [negb] in H; cbv beta iota in H.
  - apply virtual_finish_run in H as [Htype H].
    rewrite Hnone in H. cbn [bool_decide] in H.
    rewrite bool_decide_eq_false_2 in H by discriminate.
    rewrite Htype, Hbasic. cbv zeta. rewrite <- H. reflexivity.
  - destruct (SmartctlParser_create C (get_default_parser_type C (detected_type_ (self s2))) f)
      as [parser'|] eqn:Hcreate; [| absurd_return H].
    mrun_in H. rewrite Hout in H.
    destruct (parser' (full_output_ (self s))) as [repo'|d m] eqn:Hparse.
    + do 3 mrun_in H. apply virtual_finish_run in H as [Htype H].
      mrun_members_in Htype. mrun_members_in H.
      rewrite bool_decide_eq_true_2 in H by reflexivity.
      rewrite Htype, Hbasic, Hcreate. cbv zeta. cbn [mbind option_bind].
      rewrite Hparse, <- H. reflexivity.
    + apply virtual_finish_run in H as [Htype H].
      rewrite Hnone in H. rewrite bool_decide_eq_false_2 in H by discriminate.
      rewrite Htype, Hbasic, Hcreate. cbv zeta. cbn [mbind option_bind].
      rewrite Hparse, <- H. reflexivity.
Qed.

End VirtualParse.

(** * Scenarios *)

(** A full fetch of the USB bridge smartctl cannot talk to. *)
Lemma fetch_full_execution_failure_witness :
  let s := start needs_type_collaborators 0%nat (new_device "/dev/sdb" false) in
  let r := fetch_full_data_and_parse needs_type_collaborators s in
  test_is_active_ (self s) = false
  ∧ is_virtual_ (self s) = false
  ∧ fst r = Returned (Unexpected StorageDeviceError.ExecutionError
                        "Smartctl exited with an error")
  ∧ full_output_ (self (snd r)) = ""
  ∧ parse_status_ (self (snd r)) = ParseStatus.None
  ∧ world (snd r) = 1%nat
  ∧ executions (snd r) = 1%nat.
Proof.
  intros s r.
  destruct (fetch_full_execution_failure (C:=needs_type_collaborators) s 1%nat tt
              "Smartctl exited with an error" needs_type_output
              eq_refl eq_refl eq_refl)
    as (Hret & _ & Hfull & _ & Hstatus & _ & _ & Hworld & Hexecutions & _).
  do 2 (split; [reflexivity |]).
  split; [exact Hret |]. split; [exact Hfull |]. split; [exact Hstatus |].
  split; [exact Hworld | exact Hexecutions].
Defined.

(** A full fetch of the healthy ATA disk. *)
Lemma fetch_full_keeps_clean_output_witness :
  let s := start ata_hdd_collaborators 0%nat resolved_ata_hdd in
  let r := fetch_full_data_and_parse ata_hdd_collaborators s in
  test_is_active_ (self s) = false
  ∧ is_virtual_ (self s) = false
  ∧ full_output_ (self (snd r)) = smartctl_banner
  ∧ basic_output_ (self (snd r)) = ""
  ∧ world (snd r) = 1%nat
  ∧ executions (snd r) = 1%nat.
Proof.
  intros s r.
  destruct (fetch_full_keeps_clean_output (C:=ata_hdd_collaborators) s 1%nat
              smartctl_banner eq_refl eq_refl eq_refl)
    as (Hfull & Hbasic & _ & Hworld & Hexecutions).
  do 2 (split; [reflexivity |]).
  split; [exact Hfull |]. split; [exact Hbasic |].
  split; [exact Hworld | exact Hexecutions].
Defined.

(** A saved output loaded as a virtual device: no entry point runs smartctl
    for it. *)
Lemma virtual_device_is_never_executed_witness :
  let s := start ata_hdd_collaborators 0%nat loaded_capture in
  let full := fetch_full_data_and_parse ata_hdd_collaborators s in
  let toggle := set_smart_enabled ata_hdd_collaborators true s in
  let basic := fetch_basic_data_and_parse ata_hdd_collaborators 2 s in
  is_virtual_ (self s) = true
  ∧ test_is_active_ (self s) = false
  ∧ fst full = Returned cannot_execute_on_virtual
  ∧ fst toggle = Returned cannot_execute_on_virtual
  ∧ world (snd full) = 0%nat
  ∧ world (snd toggle) = 0%nat
  ∧ world (snd basic) = 0%nat.
Proof.
  intros s full toggle basic.
  destruct (virtual_device_is_never_executed (C:=ata_hdd_collaborators) true 1 s
              eq_refl eq_refl)
    as ((Hfull & _ & _ & Hfull_world) & (Htoggle & _ & _ & Htoggle_world)
        & (_ & _ & _ & Hbasic_world)).
  do 2 (split; [reflexivity |]).
  split; [exact Hfull |]. split; [exact Htoggle |]. split; [exact Hfull_world |].
  split; [exact Htoggle_world | exact Hbasic_world].
Defined.


(** An optical drive on Linux: the structured dialect says "scsi", the
    device is "sr0", and the stale text fact is not heard. *)
Lemma structured_dialect_decides_witness :
  let s := start ata_hdd_collaborators 0%nat (new_device "/dev/sr0" false) in
  let r := detect_drive_type_from_properties ata_hdd_collaborators optical_facts s in
  resolver_facts_typed optical_facts = true
  ∧ structured_type ata_hdd_collaborators optical_facts (get_device_base_of (self s))
    = Some StorageDeviceDetectedType.CdDvd
  ∧ fst r = Returned ()
  ∧ detected_type_ (self (snd r)) = StorageDeviceDetectedType.CdDvd.
Proof.
  intros s r.
  assert (Htyped : resolver_facts_typed optical_facts = true) by (vm_compute; reflexivity).
  assert (Hstructured :
            structured_type ata_hdd_collaborators optical_facts (get_device_base_of (self s))
            = Some StorageDeviceDetectedType.CdDvd) by (vm_compute; reflexivity).
  destruct (structured_dialect_decides (C:=ata_hdd_collaborators) optical_facts s _
              Htyped Hstructured) as [Hret Htype].
  split; [exact Htyped |]. split; [exact Hstructured |].
  split; [exact Hret | exact Htype].
Defined.

(** The ATA disk of the text dialect, resolved twice. *)
Lemma resolver_is_idempotent_witness :
  let s := start ata_hdd_collaborators 0%nat (new_device "/dev/sda" false) in
  let once := detect_drive_type_from_properties ata_hdd_collaborators ata_hdd_text_facts s in
  let twice :=
    detect_drive_type_from_properties ata_hdd_collaborators ata_hdd_text_facts (snd once) in
  resolver_facts_typed ata_hdd_text_facts = true
  ∧ fst twice = Returned ()
  ∧ detected_type_ (self (snd twice)) = detected_type_ (self (snd once)).
Proof.
  intros s once twice.
  assert (Htyped : resolver_facts_typed ata_hdd_text_facts = true)
    by (vm_compute; reflexivity).
  destruct (resolver_is_idempotent (C:=ata_hdd_collaborators) ata_hdd_text_facts s Htyped)
    as (_ & Hret & Htype).
  split; [exact Htyped |]. split; [exact Hret | exact Htype].
Defined.

(** The saved output of an ATA disk: the ATA parser accepts it and the
    device is promoted to [Full]. *)
Lemma virtual_parse_promotes_on_family_parser_witness :
  let s := start ata_hdd_collaborators 0%nat loaded_capture in
  let s' := snd (parse_any_data_for_virtual ata_hdd_collaborators s) in
  parse_any_data_for_virtual ata_hdd_collaborators s = (Returned (Ok ()), s')
  ∧ virtual_parse_result ata_hdd_collaborators (self s) (detected_type_ (self s'))
    = Some (parse_status_ (self s'), property_repository_ (self s'))
  ∧ parse_status_ (self s') = ParseStatus.Full.
Proof.
  intros s s'.
  assert (Hfst : fst (parse_any_data_for_virtual ata_hdd_collaborators s)
                 = Returned (Ok ()))
    by (vm_compute; reflexivity).
  assert (Hrun : parse_any_data_for_virtual ata_hdd_collaborators s
                 = (Returned (Ok ()), s')).
  { subst s'. rewrite <- Hfst. apply surjective_pairing. }
  pose proof (virtual_parse_promotes_on_family_parser (C:=ata_hdd_collaborators) s s' Hrun)
    as Hresult.
  split; [exact Hrun |]. split; [exact Hresult |].
  vm_compute. reflexivity.
Defined.

(** * Self-test support *)

Section SelfTestSupport.
Variable StoragePropertySection : Type.
Variable SelftestLog : StoragePropertySection.
Variable has_properties_for_section :
  StoragePropertyRepository -> StoragePropertySection -> bool.

Local Abbreviation self_test_support :=
  (get_self_test_support_status StoragePropertySection SelftestLog
     has_properties_for_section).

(** Self-test support is reported as [Supported] only from full data that
    has a self-test log section.  It is [Unknown] exactly when nothing was
    parsed, or when basic data says SMART is enabled (whatever it says of
    SMART support); basic data that does not say so gives [Unsupported]. *)
Theorem self_test_support_needs_full_data (d : StorageDevice) :
  (self_test_support d = SelfTestSupportStatus.Supported
   ↔ parse_status_ d = ParseStatus.Full
     ∧ has_properties_for_section (property_repository_ d) SelftestLog = true)
  ∧ (self_test_support d = SelfTestSupportStatus.Unknown
     ↔ parse_status_ d = ParseStatus.None
       ∨ (parse_status_ d = ParseStatus.Basic ∧ smart_enabled_ d = Some true)).
Proof.
  unfold get_self_test_support_status, get_smart_status.
  destruct (parse_status_ d); cbn [bool_decide];
    repeat match goal with
      | |- context [bool_decide ?P] =>
          first [ rewrite (bool_decide_eq_false_2 P) by discriminate
                | rewrite (bool_decide_eq_true_2 P) by reflexivity ]
      end.
  - split; split; intros H; try discriminate H; auto. destruct H; discriminate.
  - destruct (smart_enabled_ d) as [[]|], (smart_supported_ d) as [[]|];
      repeat match goal with
        | |- context [bool_decide ?P] =>
            first [ rewrite (bool_decide_eq_false_2 P) by discriminate
                  | rewrite (bool_decide_eq_true_2 P) by reflexivity ]
        end;
      (split; split; intros H; try discriminate H; auto;
       try (destruct H as [H _]; discriminate H);
       try (destruct H as [H | [_ H]]; discriminate H)).
  - destruct (has_properties_for_section (property_repository_ d) SelftestLog);
      (split; split; intros H; try discriminate H; auto;
       try (destruct H as [_ H]; discriminate H);
       try (destruct H as [H | [H _]]; discriminate H)).
Qed.

End SelfTestSupport.

(** * Running smartctl on the device *)

Section Execute.
Context {C : Collaborators}.
Implicit Types s : State C.

(** [execute_device_smartctl] always returns, and starts a process exactly
    for a real device, with the options of [get_device_options].  It
    notifies nobody, and the only thing it ever does to the device is to
    mark a still [Unknown] type as [NeedsExplicitType], and that only when
    asked to check the type. *)
Theorem execute_device_smartctl_effects command_options buffer check_type s :
  let r := execute_device_smartctl C command_options buffer check_type s in
  (∃ status output, fst r = Returned (status, output))
  ∧ (self (snd r) = self s
     ∨ (check_type = true
        ∧ detected_type_ (self s) = StorageDeviceDetectedType.Unknown
        ∧ self (snd r)
          = assign_detected_type_ StorageDeviceDetectedType.NeedsExplicitType (self s)))
  ∧ notifications (snd r) = notifications s
  ∧ if is_virtual_ (self s)
    then events (snd r) = (events s ++ [DebugOut NoExecuteOnVirtual])%list
         ∧ world (snd r) = world s
    else ∃ tail,
         events (snd r)
         = (events s
            ++ ExecuteSmartctl (device_ (self s)) (device_options C (self s))
                 command_options
               :: tail)%list
         ∧ only_debug tail.
Proof.
  cbv zeta. destruct (is_virtual_ (self s)) eqn:Hvirtual.
  - rewrite (execute_device_smartctl_virtual command_options buffer check_type s Hvirtual).
    cbn [fst snd self world events]. unfold notifications; cbn [events]; rewrite !count_events_app. count_closed.
    split; [eauto |]. split; [left; reflexivity |]. split; [lia |]. split; reflexivity.
  - destruct (execute_smartctl C (world s) (device_ (self s)) (device_options C (self s))
                command_options buffer) as [[w status] output] eqn:Hexec.
    rewrite (execute_device_smartctl_real command_options buffer check_type s w status output
               Hvirtual Hexec).
    cbv zeta. destruct status as [[]|data message]; cbn [fst snd self world events].
    + unfold notifications; cbn [events]; rewrite !count_events_app. count_closed.
      split; [eauto |]. split; [left; reflexivity |]. split; [lia |].
      exists []. split; [reflexivity | apply only_debug_nil].
    + unfold notifications; cbn [events]; rewrite !count_events_app. count_closed.
      split; [eauto |]. split.
      { destruct check_type; [| left; reflexivity]. cbn [andb].
        destruct (bool_decide (detected_type_ (self s) = StorageDeviceDetectedType.Unknown))
          eqn:Hunknown; [| left; reflexivity]. cbn [andb].
        destruct (app_regex_partial_match C _ output); [| left; reflexivity].
        right. apply bool_decide_eq_true in Hunknown. auto. }
      split; [lia |].
      exists [DebugOut SmartctlNotExecutedCleanly].
      split; [rewrite <- (assoc_L (++)); reflexivity | apply only_debug_one].
Qed.

End Execute.

(** * The earlier revision: AODC status *)

Section LegacyAodc.
Context {section_t : Type} `{EqDecision section_t}.
Variable section_internal : section_t.

Local Abbreviation scan := (LegacyDevice.scan_properties section_internal).
Local Abbreviation aodc_status := (LegacyDevice.get_aodc_status section_internal).
Local Abbreviation fact := (LegacyDevice.internal_fact section_internal).

Lemma scan_properties_sound props status supported found :
  let r := scan props status supported found in
  (snd r = true -> supported = true ∨ ∃ p, p ∈ props ∧ fact "aodc_support" true p)
  ∧ (fst r = status
     ∨ ∃ q v, q ∈ props ∧ fact "aodc_enabled" v q
              ∧ fst r = if v then Legacy.status_enabled else Legacy.status_disabled).
Proof.
  cbv zeta. revert status supported found.
  induction props as [|p rest IH]; intros status supported found; cbn [LegacyDevice.scan_properties].
  { cbn [fst snd]. split; [intros ->; left; reflexivity | left; reflexivity]. }
  destruct (bool_decide (LegacyDevice.section p = section_internal)) eqn:Hsection.
  2: { destruct (IH status supported found) as [Hs He]. split.
       - intros H'. destruct (Hs H') as [-> | (p' & Hin & Hp')]; [left; reflexivity |].
         right. exists p'. split; [right; exact Hin | exact Hp'].
       - destruct He as [-> | (q & v & Hin & Hq & ->)]; [left; reflexivity |].
         right. exists q, v. split; [right; exact Hin |]. split; [exact Hq | reflexivity]. }
  apply bool_decide_eq_true in Hsection.
  destruct (bool_decide (LegacyDevice.generic_name p = "aodc_enabled")) eqn:Henabled.
  { apply bool_decide_eq_true in Henabled.
    destruct (IH (if LegacyDevice.value_bool p then Legacy.status_enabled
                  else Legacy.status_disabled) supported found) as [Hs He]. split.
    - intros H'. destruct (Hs H') as [-> | (p' & Hin & Hp')]; [left; reflexivity |].
      right. exists p'. split; [right; exact Hin | exact Hp'].
    - right. destruct He as [-> | (q & v & Hin & Hq & ->)].
      + exists p, (LegacyDevice.value_bool p). split; [left |].
        split; [repeat split; assumption | reflexivity].
      + exists q, v. split; [right; exact Hin |]. split; [exact Hq | reflexivity]. }
  destruct (bool_decide (LegacyDevice.generic_name p = "aodc_support")) eqn:Hsupport.
  { apply bool_decide_eq_true in Hsupport.
    destruct (IH status (LegacyDevice.value_bool p) (found + 1)) as [Hs He]. split.
    - intros H'. right. destruct (Hs H') as [Hp | (p' & Hin & Hp')].
      + exists p. split; [left |]. repeat split; assumption.
      + exists p'. split; [right; exact Hin | exact Hp'].
    - destruct He as [-> | (q & v & Hin & Hq & ->)]; [left; reflexivity |].
      right. exists q, v. split; [right; exact Hin |]. split; [exact Hq | reflexivity]. }
  destruct (bool_decide (2 <= found)).
  { cbn [fst snd]. split; [intros ->; left; reflexivity | left; reflexivity]. }
  destruct (IH status supported found) as [Hs He]. split.
  - intros H'. destruct (Hs H') as [-> | (p' & Hin & Hp')]; [left; reflexivity |].
    right. exists p'. split; [right; exact Hin | exact Hp'].
  - destruct He as [-> | (q & v & Hin & Hq & ->)]; [left; reflexivity |].
    right. exists q, v. split; [right; exact Hin |]. split; [exact Hq | reflexivity].
Qed.

(** [get_aodc_status] answers [status_unsupported] for a drive whose SMART
    status is not [status_enabled], without reading the properties, filling
    the cache or logging.  For a drive with SMART enabled the answer is in
    the cache afterwards.  Either way, asking again gives the same answer,
    changes nothing and logs nothing. *)
Theorem get_aodc_status_is_stable (d : LegacyDevice.t) :
  let r := aodc_status d in
  let status := fst (fst r) in
  let d' := snd (fst r) in
  aodc_status d' = (status, d', [])
  ∧ if bool_decide (LegacyDevice.get_smart_status d = Legacy.status_enabled)
    then LegacyDevice.aodc_status_ d' = Some status
    else status = Legacy.status_unsupported ∧ d' = d ∧ snd r = [].
Proof.
  cbv zeta. unfold LegacyDevice.get_aodc_status at 2 3 4 5 6.
  destruct (bool_decide (LegacyDevice.get_smart_status d = Legacy.status_enabled)) eqn:Hsmart;
    cbn [negb].
  2: { cbn [fst snd]. unfold LegacyDevice.get_aodc_status. rewrite Hsmart. auto. }
  destruct (LegacyDevice.aodc_status_ d) as [cached|] eqn:Hcache.
  { cbn [fst snd]. unfold LegacyDevice.get_aodc_status. rewrite Hsmart, Hcache. auto. }
  destruct (scan (LegacyDevice.properties_ d) Legacy.status_unknown false 0)
    as [status supported].
  cbn [fst snd]. unfold LegacyDevice.get_aodc_status.
  unfold LegacyDevice.get_smart_status in *.
  cbn [LegacyDevice.smart_enabled_ LegacyDevice.smart_supported_ LegacyDevice.aodc_status_
       LegacyDevice.assign_aodc_status_].
  rewrite Hsmart. auto.
Qed.

(** An answer freshly computed by [get_aodc_status] is backed by the
    properties: anything but [status_unsupported] needs SMART enabled and an
    internal [aodc_support] property that is true; [status_enabled] and
    [status_disabled] need an internal [aodc_enabled] property of that
    value. *)
Theorem aodc_status_is_backed_by_properties (d : LegacyDevice.t) :
  LegacyDevice.aodc_status_ d = None ->
  let status := fst (fst (aodc_status d)) in
  let props := LegacyDevice.properties_ d in
  (status ≠ Legacy.status_unsupported ->
   LegacyDevice.get_smart_status d = Legacy.status_enabled
   ∧ ∃ p, p ∈ props ∧ fact "aodc_support" true p)
  ∧ (status = Legacy.status_enabled -> ∃ q, q ∈ props ∧ fact "aodc_enabled" true q)
  ∧ (status = Legacy.status_disabled -> ∃ q, q ∈ props ∧ fact "aodc_enabled" false q).
Proof.
  intros Hcache. cbv zeta. unfold LegacyDevice.get_aodc_status. rewrite Hcache.
  destruct (bool_decide (LegacyDevice.get_smart_status d = Legacy.status_enabled)) eqn:Hsmart;
    cbn [negb fst snd].
  2: { split; [| split]; intros H'; congruence. }
  apply bool_decide_eq_true in Hsmart.
  pose proof (scan_properties_sound (LegacyDevice.properties_ d) Legacy.status_unknown false 0)
    as [Hsupport Henabled]. cbv zeta in Hsupport, Henabled.
  destruct (scan (LegacyDevice.properties_ d) Legacy.status_unknown false 0)
    as [status supported].
  cbn [fst snd] in *. destruct supported; cbn [negb].
  2: { split; [| split]; intros H'; congruence. }
  destruct (Hsupport eq_refl) as [Habsurd | Hfact]; [discriminate Habsurd |].
  split; [intros _; split; assumption |].
  destruct Henabled as [-> | (q & [] & Hin & Hq & ->)];
    (split; intros H'; [try discriminate H' | try discriminate H']; eauto).
Qed.

End LegacyAodc.

(** A drive with SMART and AODC on. *)
Lemma aodc_status_is_backed_by_properties_witness :
  LegacyDevice.aodc_status_ aodc_drive = None
  ∧ fst (fst (LegacyDevice.get_aodc_status example_section_internal aodc_drive))
    = Legacy.status_enabled
  ∧ ∃ q, q ∈ LegacyDevice.properties_ aodc_drive
         ∧ LegacyDevice.internal_fact example_section_internal "aodc_enabled" true q.
Proof.
  destruct (aodc_status_is_backed_by_properties example_section_internal aodc_drive eq_refl)
    as (_ & Henabled & _).
  split; [reflexivity |]. split; [reflexivity |].
  apply Henabled. reflexivity.
Defined.

(** * The errors of a basic fetch *)

Section BasicFetchErrors.
Context {C : Collaborators}.
Implicit Types s : State C.

Lemma parse_basic_data_errors s e m s' :
  parse_basic_data C s = (Returned (Unexpected e m), s') ->
  e = StorageDeviceError.ParseError.
Proof.
  intros H. unfold parse_basic_data in H.
  rewrite (bind_run _ _ _ _ _ (clear_parse_results_run s)) in H. mrun_in H.
  split_bind H. clear H0.
  destruct (SmartctlParser_create C SmartctlParserType.Basic a) as [parser|].
  2: { split_bind H. apply mret_returned in H as [H _]. injection H as <- _. reflexivity. }
  mrun_in H.
  destruct (parser (basic_output_ (self s0))) as [repo|d m'].
  2: { apply mret_returned in H as [H _]. injection H as <- _. reflexivity. }
  repeat split_bind H. apply mret_returned in H as [H _]. discriminate H.
Qed.

(** A basic fetch never reports that smartctl failed or could not be run:
    the status of the execution is dropped, and what the caller gets is the
    verdict of [parse_basic_data] on whatever output there is.  The only
    errors it returns are [TestRunning] and [ParseError]. *)
Theorem basic_fetch_drops_execution_errors (fuel : nat) s e m :
  fst (fetch_basic_data_and_parse C fuel s) = Returned (Unexpected e m) ->
  e = StorageDeviceError.TestRunning ∨ e = StorageDeviceError.ParseError.
Proof.
  intros H.
  assert (Hparse : ∀ s3, fst (parse_basic_data C s3) = Returned (Unexpected e m) ->
                         e = StorageDeviceError.ParseError).
  { intros s3 H3. apply (parse_basic_data_errors s3 e m (snd (parse_basic_data C s3))).
    rewrite <- H3. apply surjective_pairing. }
  destruct fuel as [|fuel]; [discriminate H |].
  destruct (fetch_attempt_cases s) as [Hrefused | [(s3 & Hs3 & _) | Hretry]].
  - rewrite Hrefused in H. injection H as <- _. left. reflexivity.
  - rewrite Hs3 in H. right. exact (Hparse s3 H).
  - destruct Hretry as (s2 & Hs2 & _ & Harg2 & Hreal2 & Hidle2 & _).
    rewrite Hs2 in H. destruct fuel as [|fuel]; [discriminate H |].
    destruct (fetch_attempt_with_override s2 Hreal2 Hidle2) as (s3 & Hs3 & _);
      [rewrite Harg2; discriminate |].
    rewrite Hs3 in H. right. exact (Hparse s3 H).
Qed.

End BasicFetchErrors.

(** The USB bridge smartctl cannot talk to: both executions fail, and the
    basic fetch reports a parse error. *)
Lemma basic_fetch_drops_execution_errors_witness :
  let s := start needs_type_collaborators 0%nat (new_device "/dev/sdb" false) in
  let r := fetch_basic_data_and_parse needs_type_collaborators 2 s in
  fst r = Returned (Unexpected StorageDeviceError.ParseError
                      "Cannot parse smartctl output: No version information found")
  ∧ (StorageDeviceError.ParseError = StorageDeviceError.TestRunning
     ∨ StorageDeviceError.ParseError = StorageDeviceError.ParseError)
  ∧ executions (snd r) = 2%nat.
Proof.
  intros s r.
  assert (Hfst : fst r = Returned (Unexpected StorageDeviceError.ParseError
                           "Cannot parse smartctl output: No version information found"))
    by (vm_compute; reflexivity).
  split; [exact Hfst |].
  split; [exact (basic_fetch_drops_execution_errors (C:=needs_type_collaborators) 2 s _ _ Hfst) |].
  vm_compute. reflexivity.
Defined.
